(** * bcnmy/passkey: the WebAuthn passkey validator module

    A shallow embedding of [src/toWebAuthnKey.ts] and
    [src/toPasskeyValidator.ts], together with the library functions they
    call (viem's hex and ABI helpers, keccak-256, base64) and the helpers of
    [src/utils.ts], followed by the properties of the specification.

    JavaScript strings that the package handles are hex strings, base64
    strings and the "binary strings" produced by [atob]; all of them are
    sequences of code units below 256 and are modelled by [string].
    [bigint] and chain ids are [Z]; a [Uint8Array] is a [list byte]. *)

From Stdlib Require Import ZArith List String Ascii Bool Lia.
From Stdlib.Strings Require Import Byte.
Import ListNotations.

Set Warnings "-register-all".

Local Open Scope string_scope.
Local Open Scope Z_scope.

(** ** Errors and results *)

(** The errors of the package, named as in the error taxonomy of the
    specification.  The source raises each of them as [new Error(message)];
    [errorMessage] gives the message.  [ExternalError] stands for an
    exception raised by a collaborator: a [TypeError] of the language, an
    error of viem, a [DOMException] of the platform, a failed request. *)
Inductive ErrorKind : Type :=
| UnsupportedMessageFormat
| ChainIdUnavailable
| MalformedSignature
| UnexpectedClientDataShape
| InvalidPublicKeyEncoding
| RegistrationNotVerified
| LoginNotVerified
| MissingPublicKey
| MissingAuthenticatorId
| ExternalError (name : string).

Definition errorMessage (e : ErrorKind) : string :=
  match e with
  | UnsupportedMessageFormat => "Unsupported message format"
  | ChainIdUnavailable => "Chain ID is required but not found in account client"
  | MalformedSignature => "Malformed signature"
  | UnexpectedClientDataShape => "Unexpected client data shape"
  | InvalidPublicKeyEncoding => "Invalid public key encoding"
  | RegistrationNotVerified => "Registration not verified"
  | LoginNotVerified => "Login not verified"
  | MissingPublicKey => "No public key returned from registration credential"
  | MissingAuthenticatorId =>
      "No authenticator id returned from registration credential"
  | ExternalError name => name
  end.

Inductive Result (A : Type) : Type :=
| Ok (a : A)
| Err (e : ErrorKind).

Arguments Ok {A} a.
Arguments Err {A} e.

Definition rbind {A B : Type} (r : Result A) (f : A -> Result B) : Result B :=
  match r with
  | Ok a => f a
  | Err e => Err e
  end.

Definition ofOption {A : Type} (e : ErrorKind) (o : option A) : Result A :=
  match o with
  | Some a => Ok a
  | None => Err e
  end.

Declare Scope result_scope.
Delimit Scope result_scope with result.
Notation "x <- r ;; k" :=
  (rbind r (fun x => k))
  (at level 61, r at next level, right associativity) : result_scope.

(** ** JavaScript strings *)

Module Js.

Local Open Scope string_scope.
Local Open Scope nat_scope.

Definition quote : ascii := "034"%char.

(** [repeatChar n c] is [c.repeat(n)]. *)
Fixpoint repeatChar (n : nat) (c : ascii) : string :=
  match n with
  | O => EmptyString
  | S n' => String c (repeatChar n' c)
  end.

(** [s.padStart(n, c)] and [s.padEnd(n, c)] for a one-character filler. *)
Definition padStart (n : nat) (c : ascii) (s : string) : string :=
  repeatChar (n - String.length s) c ++ s.

Definition padEnd (n : nat) (c : ascii) (s : string) : string :=
  s ++ repeatChar (n - String.length s) c.

(** [s.slice(n)] for [0 <= n]. *)
Fixpoint sliceFrom (n : nat) (s : string) : string :=
  match n, s with
  | O, _ => s
  | S _, EmptyString => EmptyString
  | S n', String _ s' => sliceFrom n' s'
  end.

(** [s.startsWith(p)] is [String.prefix p s]; [s.indexOf(p)] is
    [String.index 0 p s], with [None] for the [-1] of JavaScript. *)
Definition startsWith (p s : string) : bool := String.prefix p s.

Definition indexOf (p s : string) : option nat := String.index 0 p s.

(** [s.replace(p, "")] with a string pattern: the first occurrence of [p]
    is removed, or nothing when [p] does not occur. *)
Definition removeFirst (p s : string) : string :=
  match indexOf p s with
  | Some i => substring 0 i s ++ sliceFrom (i + String.length p) s
  | None => s
  end.

End Js.

(** ** Bytes and hexadecimal text *)

Module Hex.

Local Open Scope string_scope.
Local Open Scope Z_scope.

Definition byteVal (b : byte) : Z := Z.of_N (Byte.to_N b).

Definition byteOfZ (z : Z) : byte :=
  match Byte.of_N (Z.to_N (z mod 256)) with
  | Some b => b
  | None => x00
  end.

(** The lower-case digit of a value below 16, as [toString(16)] prints it. *)
Definition hexChar (d : Z) : ascii :=
  match d with
  | 0 => "0" | 1 => "1" | 2 => "2" | 3 => "3" | 4 => "4" | 5 => "5"
  | 6 => "6" | 7 => "7" | 8 => "8" | 9 => "9" | 10 => "a" | 11 => "b"
  | 12 => "c" | 13 => "d" | 14 => "e" | _ => "f"
  end%char.

(** The value of a hexadecimal digit of either case. *)
Definition hexVal (c : ascii) : option Z :=
  let n := Z.of_N (N_of_ascii c) in
  if (48 <=? n) && (n <=? 57) then Some (n - 48)
  else if (97 <=? n) && (n <=? 102) then Some (n - 87)
  else if (65 <=? n) && (n <=? 70) then Some (n - 55)
  else None.

(** [byte.toString(16).padStart(2, "0")]. *)
Definition byteToHex (b : byte) : string :=
  String (hexChar (byteVal b / 16)) (String (hexChar (byteVal b mod 16)) "").

(** The digits of a byte array, two per byte: [Buffer.toString("hex")]. *)
Fixpoint bytesToHex (bs : list byte) : string :=
  match bs with
  | [] => ""
  | b :: bs' => byteToHex b ++ bytesToHex bs'
  end.

(** Pairs of hexadecimal digits read back as bytes; [None] when a character
    is not a digit or a digit is left over. *)
Fixpoint hexToBytes (s : string) : option (list byte) :=
  match s with
  | EmptyString => Some []
  | String _ EmptyString => None
  | String h (String l s') =>
      match hexVal h, hexVal l, hexToBytes s' with
      | Some x, Some y, Some bs => Some (byteOfZ (16 * x + y) :: bs)
      | _, _, _ => None
      end
  end.

(** The big-endian value of a byte array. *)
Definition beToZ (bs : list byte) : Z :=
  fold_left (fun acc b => acc * 256 + byteVal b) bs 0.

(** The value of a non-empty run of hexadecimal digits: what
    [BigInt("0x" + digits)] returns; [None] is its [SyntaxError]. *)
Fixpoint digitsValue (acc : Z) (s : string) : option Z :=
  match s with
  | EmptyString => Some acc
  | String c s' =>
      match hexVal c with
      | Some d => digitsValue (acc * 16 + d) s'
      | None => None
      end
  end.

Definition parseDigits (s : string) : option Z :=
  match s with
  | EmptyString => None
  | _ => digitsValue 0 s
  end.

(** [n.toString(16)] for a [bigint] [0 <= n]: the digits without leading
    zeros, ["0"] for zero. *)
Fixpoint digitsFuel (fuel : nat) (n : Z) (acc : string) : string :=
  match fuel with
  | O => acc
  | S fuel' =>
      let acc' := String (hexChar (n mod 16)) acc in
      if n <? 16 then acc' else digitsFuel fuel' (n / 16) acc'
  end.

Definition toString16 (n : Z) : string :=
  digitsFuel (S (Z.to_nat (Z.log2 n))) n "".

(** The [k] low hexadecimal digits of [n], most significant first. *)
Fixpoint fixedHex (k : nat) (n : Z) : string :=
  match k with
  | O => ""
  | S k' => fixedHex k' (n / 16) ++ String (hexChar (n mod 16)) ""
  end.

End Hex.

(** ** Base64 *)

Module Base64.

Local Open Scope string_scope.
Local Open Scope Z_scope.

Inductive Alphabet : Type := Standard | UrlSafe | Either.

(** The six-bit value of a character: [A-Z], [a-z], [0-9], then [+] and [/]
    in the standard alphabet, [-] and [_] in the URL-safe one. *)
Definition sextet (alpha : Alphabet) (c : ascii) : option Z :=
  let n := Z.of_N (N_of_ascii c) in
  if (65 <=? n) && (n <=? 90) then Some (n - 65)
  else if (97 <=? n) && (n <=? 122) then Some (n - 71)
  else if (48 <=? n) && (n <=? 57) then Some (n + 4)
  else
    match alpha, n with
    | (Standard | Either), 43 => Some 62
    | (Standard | Either), 47 => Some 63
    | (UrlSafe | Either), 45 => Some 62
    | (UrlSafe | Either), 95 => Some 63
    | _, _ => None
    end.

Fixpoint sextets (alpha : Alphabet) (s : string) : option (list Z) :=
  match s with
  | EmptyString => Some []
  | String c s' =>
      match sextet alpha c, sextets alpha s' with
      | Some v, Some vs => Some (v :: vs)
      | _, _ => None
      end
  end.

(** Four sextets give three bytes; two or three left over give one or two
    bytes, their unused low bits dropped; one left over gives nothing. *)
Fixpoint sextetsToBytes (vs : list Z) : list byte :=
  match vs with
  | a :: b :: c :: d :: rest =>
      Hex.byteOfZ (a * 4 + b / 16)
        :: Hex.byteOfZ ((b mod 16) * 16 + c / 4)
        :: Hex.byteOfZ ((c mod 4) * 64 + d)
        :: sextetsToBytes rest
  | [a; b; c] =>
      [Hex.byteOfZ (a * 4 + b / 16); Hex.byteOfZ ((b mod 16) * 16 + c / 4)]
  | [a; b] => [Hex.byteOfZ (a * 4 + b / 16)]
  | _ => []
  end.

(** Unpadded text of one alphabet; a single character left over is an
    error. *)
Definition decodeStrict (alpha : Alphabet) (s : string)
  : option (list byte) :=
  match sextets alpha s with
  | Some vs =>
      if (Z.of_nat (List.length vs) mod 4 =? 1) then None
      else Some (sextetsToBytes vs)
  | None => None
  end.

Definition isWhitespace (c : ascii) : bool :=
  let n := Z.of_N (N_of_ascii c) in
  (n =? 9) || (n =? 10) || (n =? 12) || (n =? 13) || (n =? 32).

Fixpoint dropWhitespace (s : string) : string :=
  match s with
  | EmptyString => EmptyString
  | String c s' =>
      if isWhitespace c then dropWhitespace s'
      else String c (dropWhitespace s')
  end.

(** At most [n] trailing [=] signs removed. *)
Definition stripPadding (n : nat) (s : string) : string :=
  let fix go (n : nat) (r : list ascii) : list ascii :=
    match n, r with
    | S n', c :: r' => if Ascii.eqb c "=" then go n' r' else r
    | _, _ => r
    end in
  string_of_list_ascii
    (List.rev (go n (List.rev (list_ascii_of_string s)))).

(** The platform's [atob]: white space ignored, padding accepted when the
    length is a multiple of four, standard alphabet, the result a binary
    string.  [None] is its [InvalidCharacterError]. *)
Definition atob (s : string) : option string :=
  let s1 := dropWhitespace s in
  let s2 :=
    if (Z.of_nat (String.length s1) mod 4 =? 0) then stripPadding 2 s1
    else s1 in
  match decodeStrict Standard s2 with
  | Some bs => Some (string_of_list_byte bs)
  | None => None
  end.

(** [Buffer.from(s, "base64")]: the text up to the first [=], characters
    of neither alphabet ignored; it never fails. *)
Fixpoint lenientSextets (s : string) : list Z :=
  match s with
  | EmptyString => []
  | String c s' =>
      if Ascii.eqb c "=" then []
      else
        match sextet Either c with
        | Some v => v :: lenientSextets s'
        | None => lenientSextets s'
        end
  end.

Definition bufferFromBase64 (s : string) : list byte :=
  sextetsToBytes (lenientSextets s).

(** Encoding, unpadded when [urlSafe]. *)
Definition sextetChar (urlSafe : bool) (v : Z) : ascii :=
  if v <? 26 then ascii_of_N (Z.to_N (v + 65))
  else if v <? 52 then ascii_of_N (Z.to_N (v + 71))
  else if v <? 62 then ascii_of_N (Z.to_N (v - 4))
  else if v =? 62 then (if urlSafe then "-" else "+")%char
  else (if urlSafe then "_" else "/")%char.

Fixpoint encode (urlSafe : bool) (bs : list byte) : string :=
  let ch := sextetChar urlSafe in
  let pad := if urlSafe then "" else "=" in
  match bs with
  | x :: y :: z :: rest =>
      let a := Hex.byteVal x in
      let b := Hex.byteVal y in
      let c := Hex.byteVal z in
      String (ch (a / 4))
        (String (ch ((a mod 4) * 16 + b / 16))
           (String (ch ((b mod 16) * 4 + c / 64))
              (String (ch (c mod 64)) (encode urlSafe rest))))
  | [x; y] =>
      let a := Hex.byteVal x in
      let b := Hex.byteVal y in
      String (ch (a / 4))
        (String (ch ((a mod 4) * 16 + b / 16))
           (String (ch ((b mod 16) * 4)) pad))
  | [x] =>
      let a := Hex.byteVal x in
      String (ch (a / 4)) (String (ch ((a mod 4) * 16)) (pad ++ pad))
  | [] => ""
  end.

End Base64.

(** ** Keccak-256 *)

(** The hash function behind viem's [keccak256] (Keccak-f[1600], rate 136
    bytes, padding [0x01 .. 0x80], 32 bytes of output).  The state is the
    list of its 25 lanes, lane [(x, y)] at index [x + 5 y], each a 64-bit
    word held in a [Z]. *)
Module Keccak.

Local Open Scope Z_scope.

Definition mask64 : Z := 2 ^ 64 - 1.

Definition rotl64 (x n : Z) : Z :=
  Z.lor (Z.land (Z.shiftl x n) mask64) (Z.shiftr x (64 - n)).

Definition lane (st : list Z) (x y : nat) : Z :=
  nth (x mod 5 + 5 * (y mod 5)) st 0.

Definition positions : list nat := seq 0 25.

Definition roundConstants : list Z :=
  [ 0x0000000000000001; 0x0000000000008082; 0x800000000000808A;
    0x8000000080008000; 0x000000000000808B; 0x0000000080000001;
    0x8000000080008081; 0x8000000000008009; 0x000000000000008A;
    0x0000000000000088; 0x0000000080008009; 0x000000008000000A;
    0x000000008000808B; 0x800000000000008B; 0x8000000000008089;
    0x8000000000008003; 0x8000000000008002; 0x8000000000000080;
    0x000000000000800A; 0x800000008000000A; 0x8000000080008081;
    0x8000000000008080; 0x0000000080000001; 0x8000000080008008 ].

Definition rotationOffsets : list Z :=
  [ 0; 1; 62; 28; 27;
    36; 44; 6; 55; 20;
    3; 10; 43; 25; 39;
    41; 45; 15; 21; 8;
    18; 2; 61; 56; 14 ].

Definition theta (st : list Z) : list Z :=
  let c (x : nat) :=
    Z.lxor (lane st x 0)
      (Z.lxor (lane st x 1)
         (Z.lxor (lane st x 2) (Z.lxor (lane st x 3) (lane st x 4)))) in
  let d (x : nat) := Z.lxor (c (x + 4)%nat) (rotl64 (c (x + 1)%nat) 1) in
  map (fun i => Z.lxor (nth i st 0) (d (i mod 5)%nat)) positions.

(** Lane [(x, y)] moves to [(y, 2x + 3y)]: the lane that arrives at
    [(X, Y)] comes from [(X + 3Y, X)]. *)
Definition rhoPi (st : list Z) : list Z :=
  map (fun i =>
         let X := (i mod 5)%nat in
         let Y := (i / 5)%nat in
         let src := (((X + 3 * Y) mod 5) + 5 * X)%nat in
         rotl64 (nth src st 0) (nth src rotationOffsets 0))
      positions.

Definition chi (st : list Z) : list Z :=
  map (fun i =>
         let x := (i mod 5)%nat in
         let y := (i / 5)%nat in
         Z.lxor (lane st x y)
           (Z.land (Z.lxor (lane st (x + 1) y) mask64) (lane st (x + 2) y)))
      positions.

Definition iota (rc : Z) (st : list Z) : list Z :=
  match st with
  | a :: st' => Z.lxor a rc :: st'
  | [] => []
  end.

Definition round (st : list Z) (rc : Z) : list Z :=
  iota rc (chi (rhoPi (theta st))).

Definition keccakF (st : list Z) : list Z :=
  fold_left round roundConstants st.

Definition rate : nat := 136.

Definition pad (msg : list Z) : list Z :=
  let q := (rate - List.length msg mod rate)%nat in
  match q with
  | 1%nat => (msg ++ [0x81])%list
  | _ => (msg ++ [0x01] ++ repeat 0 (q - 2) ++ [0x80])%list
  end.

(** A little-endian lane of eight bytes. *)
Definition laneOfBytes (bs : list Z) : Z :=
  fold_right (fun b acc => b + 256 * acc) 0 bs.

Fixpoint lanesOfBytes (n : nat) (bs : list Z) : list Z :=
  match n with
  | O => []
  | S n' => laneOfBytes (firstn 8 bs) :: lanesOfBytes n' (skipn 8 bs)
  end.

Definition xorInto (st block : list Z) : list Z :=
  map (fun i => Z.lxor (nth i st 0) (nth i block 0)) positions.

Fixpoint absorb (blocks : nat) (data : list Z) (st : list Z) : list Z :=
  match blocks with
  | O => st
  | S n =>
      absorb n (skipn rate data)
        (keccakF (xorInto st (lanesOfBytes 17 (firstn rate data))))
  end.

Fixpoint bytesOfLane (n : nat) (w : Z) : list Z :=
  match n with
  | O => []
  | S n' => (w mod 256) :: bytesOfLane n' (w / 256)
  end.

Definition keccak256 (msg : list byte) : list byte :=
  let data := pad (map Hex.byteVal msg) in
  let st := absorb (List.length data / rate) data (repeat 0 25) in
  map Hex.byteOfZ (flat_map (bytesOfLane 8) (firstn 4 st)).

End Keccak.

(** ** viem *)

(** The functions of viem that the package calls, on hex strings as viem
    has them: a [Hex] is the whole string, ["0x"] included. *)
Module Viem.

Local Open Scope string_scope.
Local Open Scope Z_scope.
Local Open Scope result_scope.

Definition Hex : Type := string.

Definition viemError (name : string) : ErrorKind := ExternalError name.

(** [hex.replace("0x", "")]. *)
Definition stripPrefix (h : Hex) : string := Js.removeFirst "0x" h.

(** [size(hex)]: [Math.ceil((hex.length - 2) / 2)]. *)
Definition size (h : Hex) : Z := (Z.of_nat (String.length h) - 1) / 2.

Inductive Dir : Type := Left | Right.

(** [padHex(hex, { dir, size })]. *)
Definition padHex (dir : Dir) (sz : nat) (h : Hex) : Result Hex :=
  let digits := stripPrefix h in
  if (sz * 2 <? String.length digits)%nat
  then Err (viemError "SizeExceedsPaddingSizeError")
  else
    Ok ("0x" ++ match dir with
                | Left => Js.padStart (sz * 2) "0" digits
                | Right => Js.padEnd (sz * 2) "0" digits
                end).

(** [pad(hex, { size })] pads on the left. *)
Definition pad (sz : nat) (h : Hex) : Result Hex := padHex Left sz h.

(** [numberToHex(value, { size })], which is [toHex] on a [bigint]: the
    value must fit [size] unsigned bytes. *)
Definition numberToHex (sz : nat) (value : Z) : Result Hex :=
  if (value <? 0) || (2 ^ (8 * Z.of_nat sz) - 1 <? value)
  then Err (viemError "IntegerOutOfRangeError")
  else Ok ("0x" ++ Js.padStart (sz * 2) "0" (Hex.toString16 value)).

Definition toHex (value : Z) (sz : nat) : Result Hex := numberToHex sz value.

(** [concatHex(values)]. *)
Definition concatHex (values : list Hex) : Hex :=
  "0x" ++ fold_left (fun acc x => acc ++ stripPrefix x) values "".

(** [bytesToHex] and [hexToBytes]; the latter reads [hex.slice(2)] and puts
    a [0] before an odd number of digits. *)
Definition bytesToHex (bs : list byte) : Hex := "0x" ++ Hex.bytesToHex bs.

Definition hexToBytes (h : Hex) : Result (list byte) :=
  let digits := Js.sliceFrom 2 h in
  let digits' :=
    if Nat.even (String.length digits) then digits else String "0" digits in
  ofOption (viemError "InvalidByteSequence") (Hex.hexToBytes digits').

(** [keccak256(hex)]: the digest of the bytes the hex string denotes, as a
    hex string. *)
Definition keccak256 (h : Hex) : Result Hex :=
  bs <- hexToBytes h ;;
  Ok (bytesToHex (Keccak.keccak256 bs)).

(** UTF-8 of a string whose code units are below 256. *)
Fixpoint utf8 (s : string) : list byte :=
  match s with
  | EmptyString => []
  | String c s' =>
      let n := Z.of_N (N_of_ascii c) in
      if n <? 128 then Hex.byteOfZ n :: utf8 s'
      else Hex.byteOfZ (192 + n / 64) :: Hex.byteOfZ (128 + n mod 64)
             :: utf8 s'
  end.

Definition stringToHex (s : string) : Hex := bytesToHex (utf8 s).

(** *** ABI encoding *)

Inductive AbiType : Type :=
| TUint256
| TBytes32
| TBool
| TBytes
| TString
| TTuple (components : list AbiType).

Inductive AbiValue : Type :=
| VBigInt (z : Z)
| VHex (h : Hex)
| VBool (b : bool)
| VString (s : string)
| VTuple (fields : list AbiValue).

Record Prepared : Type := { dynamic : bool; encoded : Hex }.

Definition encodeNumber (value : Z) : Result Prepared :=
  h <- numberToHex 32 value ;;
  Ok {| dynamic := false; encoded := h |}.

Definition encodeBool (value : bool) : Result Prepared :=
  h <- padHex Left 32 (if value then "0x1" else "0x0") ;;
  Ok {| dynamic := false; encoded := h |}.

(** [Math.ceil(n / 32) * 32] *)
Definition roundUp32 (n : Z) : Z := (n + 31) / 32 * 32.

Definition encodeBytes (fixedSize : option Z) (value : Hex)
  : Result Prepared :=
  let bytesSize := size value in
  match fixedSize with
  | None =>
      value' <- (if bytesSize mod 32 =? 0 then Ok value
                 else padHex Right (Z.to_nat (roundUp32 bytesSize)) value) ;;
      len <- numberToHex 32 bytesSize ;;
      len' <- padHex Left 32 len ;;
      Ok {| dynamic := true; encoded := concatHex [len'; value'] |}
  | Some n =>
      if bytesSize =? n then
        h <- padHex Right 32 value ;;
        Ok {| dynamic := false; encoded := h |}
      else Err (viemError "AbiEncodingBytesSizeMismatchError")
  end.

(** [slice(hex, start, end)] on byte offsets. *)
Definition sliceHex (h : Hex) (start stop : nat) : Hex :=
  "0x" ++ substring (start * 2) ((stop - start) * 2) (stripPrefix h).

Fixpoint stringParts (hexValue : Hex) (i count : nat) : Result (list Hex) :=
  match count with
  | O => Ok []
  | S count' =>
      p <- padHex Right 32 (sliceHex hexValue (i * 32) ((i + 1) * 32)) ;;
      ps <- stringParts hexValue (S i) count' ;;
      Ok (p :: ps)
  end.

Definition encodeString (value : string) : Result Prepared :=
  let hexValue := stringToHex value in
  let partsLength := Z.to_nat ((size hexValue + 31) / 32) in
  parts <- stringParts hexValue 0 partsLength ;;
  len <- numberToHex 32 (size hexValue) ;;
  len' <- padHex Left 32 len ;;
  Ok {| dynamic := true; encoded := concatHex (len' :: parts) |}.

(** [encodeParams]: the heads in order, a dynamic parameter's head being
    the offset of its data, then the data of the dynamic parameters. *)
Definition staticSizeOf (ps : list Prepared) : Z :=
  fold_left
    (fun acc p => if dynamic p then acc + 32 else acc + size (encoded p))
    ps 0.

Fixpoint encodeParamsLoop (staticSize dynamicSize : Z) (ps : list Prepared)
  : Result (list Hex * list Hex) :=
  match ps with
  | [] => Ok ([], [])
  | p :: ps' =>
      if dynamic p then
        head <- numberToHex 32 (staticSize + dynamicSize) ;;
        rest <- encodeParamsLoop staticSize
                  (dynamicSize + size (encoded p)) ps' ;;
        Ok (head :: fst rest, encoded p :: snd rest)
      else
        rest <- encodeParamsLoop staticSize dynamicSize ps' ;;
        Ok (encoded p :: fst rest, snd rest)
  end.

Definition encodeParams (ps : list Prepared) : Result Hex :=
  parts <- encodeParamsLoop (staticSizeOf ps) 0 ps ;;
  Ok (concatHex (fst parts ++ snd parts)%list).

Definition typeMismatch : ErrorKind := viemError "InvalidAbiEncodingTypeError".

Fixpoint prepareParam (t : AbiType) (v : AbiValue) {struct t}
  : Result Prepared :=
  match t, v with
  | TUint256, VBigInt z => encodeNumber z
  | TBytes32, VHex h => encodeBytes (Some 32) h
  | TBytes, VHex h => encodeBytes None h
  | TBool, VBool b => encodeBool b
  | TString, VString s => encodeString s
  | TTuple components, VTuple fields =>
      let fix prepareAll (ts : list AbiType) (vs : list AbiValue)
        : Result (list Prepared) :=
        match ts, vs with
        | [], [] => Ok []
        | t' :: ts', v' :: vs' =>
            p <- prepareParam t' v' ;;
            ps <- prepareAll ts' vs' ;;
            Ok (p :: ps)
        | _, _ => Err typeMismatch
        end in
      ps <- prepareAll components fields ;;
      if existsb dynamic ps then
        h <- encodeParams ps ;;
        Ok {| dynamic := true; encoded := h |}
      else
        Ok {| dynamic := false; encoded := concatHex (map encoded ps) |}
  | _, _ => Err typeMismatch
  end.

Fixpoint prepareParams (ts : list AbiType) (vs : list AbiValue)
  : Result (list Prepared) :=
  match ts, vs with
  | [], [] => Ok []
  | t :: ts', v :: vs' =>
      p <- prepareParam t v ;;
      ps <- prepareParams ts' vs' ;;
      Ok (p :: ps)
  | _, _ => Err (viemError "AbiEncodingLengthMismatchError")
  end.

(** [encodeAbiParameters(params, values)]. *)
Definition encodeAbiParameters (params : list AbiType)
  (values : list AbiValue) : Result Hex :=
  if negb (Nat.eqb (List.length params) (List.length values))
  then Err (viemError "AbiEncodingLengthMismatchError")
  else
    ps <- prepareParams params values ;;
    encodeParams ps.

End Viem.

(** ** JavaScript values and the platform *)

(** Values of no static type: the JSON bodies that the passkey server
    returns ([any] in the source) and the message handed to the signing
    function.  [JBytes] is a [Uint8Array]. *)
Inductive JsVal : Type :=
| JUndefined
| JNull
| JBool (b : bool)
| JNum (z : Z)
| JStr (s : string)
| JBytes (bs : list byte)
| JArr (items : list JsVal)
| JObj (fields : list (string * JsVal)).

Definition typeError : ErrorKind := ExternalError "TypeError".

(** [!!v] *)
Definition truthy (v : JsVal) : bool :=
  match v with
  | JUndefined | JNull => false
  | JBool b => b
  | JNum z => negb (z =? 0)
  | JStr s => negb (s =? "")%string
  | JBytes _ | JArr _ | JObj _ => true
  end.

Fixpoint lookupField (name : string) (fields : list (string * JsVal))
  : option JsVal :=
  match fields with
  | [] => None
  | (k, v) :: fields' =>
      if (k =? name)%string then Some v else lookupField name fields'
  end.

(** [v.name] for a name that is not a built-in property: a [TypeError] on
    [undefined] and [null], [undefined] where the property is absent. *)
Definition getProp (name : string) (v : JsVal) : Result JsVal :=
  match v with
  | JUndefined | JNull => Err typeError
  | JObj fields =>
      match lookupField name fields with
      | Some x => Ok x
      | None => Ok JUndefined
      end
  | _ => Ok JUndefined
  end.

(** [name in v]: a [TypeError] unless [v] is an object. *)
Definition hasProp (name : string) (v : JsVal) : Result bool :=
  match v with
  | JObj fields =>
      Ok (match lookupField name fields with Some _ => true | None => false end)
  | JBytes _ | JArr _ => Ok false
  | _ => Err typeError
  end.

(** Decimal text of a number below 1000, for [Uint8Array.toString()]. *)
Definition decimalDigit (d : Z) : ascii := ascii_of_N (Z.to_N (48 + d)).

Definition decimalOfByte (b : byte) : string :=
  let n := Hex.byteVal b in
  if n <? 10 then String (decimalDigit n) ""
  else if n <? 100
       then String (decimalDigit (n / 10)) (String (decimalDigit (n mod 10)) "")
       else String (decimalDigit (n / 100))
              (String (decimalDigit (n / 10 mod 10))
                 (String (decimalDigit (n mod 10)) "")).

(** [bytes.toString()]: the elements in decimal, joined by commas. *)
Fixpoint uint8ArrayToString (bs : list byte) : string :=
  match bs with
  | [] => ""
  | [b] => decimalOfByte b
  | b :: bs' => decimalOfByte b ++ "," ++ uint8ArrayToString bs'
  end.

(** [BigInt("0x" + digits)]. *)
Definition bigIntOfHex (digits : string) : Result Z :=
  ofOption (ExternalError "SyntaxError") (Hex.parseDigits digits).

(** [Buffer.from(v, "base64")] for the values of [pubKey]: a string is
    decoded, an array of numbers gives its elements (the encoding is then
    ignored); other values are outside the declared type
    [string | undefined] and are rejected. *)
Definition numbersOf (items : list JsVal) : option (list byte) :=
  fold_right
    (fun v acc =>
       match v, acc with
       | JNum z, Some bs => Some (Hex.byteOfZ z :: bs)
       | _, _ => None
       end)
    (Some []) items.

Definition bufferFrom (v : JsVal) : Result (list byte) :=
  match v with
  | JStr s => Ok (Base64.bufferFromBase64 s)
  | JBytes bs => Ok bs
  | JArr items => ofOption typeError (numbersOf items)
  | _ => Err typeError
  end.

(** [bytes.subarray(start, end)]. *)
Definition subarray (start stop : nat) (bs : list byte) : list byte :=
  firstn (stop - start) (skipn start bs).

(** *** The WebAuthn ceremonies, the passkey server and WebCrypto *)

Inductive WebAuthnMode : Type := Register | Login.

Inductive RequestCredentials : Type := Include | Omit | SameOrigin.

(** The fields of [AuthenticationResponseJSON] and
    [RegistrationResponseJSON] that the package reads. *)
Record AuthenticationResponseJSON : Type := {
  authId : string;
  authenticatorData : string;
  clientDataJSON : string;
  signature : string
}.

Record RegistrationResponseJSON : Type := {
  regId : string;
  publicKey : option string
}.

Record CredentialDescriptor : Type := {
  credId : string;
  credType : string
}.

(** The options of [startAuthentication]: the untyped options of the
    server at login, or the assertion options built when signing. *)
Inductive AuthenticationOptions : Type :=
| ServerOptions (options : JsVal)
| AssertionOptions (challenge : string)
    (allowCredentials : option (list CredentialDescriptor))
    (userVerification : string).

(** The four requests to the passkey server, each a [POST] of a JSON body
    to [DEFAULT_PASSKEY_SERVER_URL] followed by the path named here. *)
Inductive Request : Type :=
| LoginOptionsRequest (rpID : option string)
| LoginVerifyRequest (cred : AuthenticationResponseJSON)
    (rpID : option string)
| RegisterOptionsRequest (username : option string) (rpID : option string)
| RegisterVerifyRequest (userId : JsVal) (username : option string)
    (cred : RegistrationResponseJSON) (rpID : option string).

Record CryptoKey : Type := { keyHandle : Z }.

(** Every point at which the source awaits a collaborator. *)
Inductive Event : Type -> Type :=
| Fetch (request : Request) (headers : list (string * string))
    (credentials : RequestCredentials) : Event JsVal
| StartAuthentication (options : AuthenticationOptions)
  : Event AuthenticationResponseJSON
| StartRegistration (options : JsVal) : Event RegistrationResponseJSON
| ImportKey (spkiDer : list byte) : Event CryptoKey
| ExportKey (key : CryptoKey) : Event (list byte).

(** An event together with its answer, as the history records it. *)
Inductive Label : Type :=
| Called {X : Type} (ev : Event X) (answer : Result X).

(** An asynchronous computation: it returns, throws, or awaits the answer
    to an event and goes on. *)
Inductive Prog (A : Type) : Type :=
| Ret (a : A)
| Throw (e : ErrorKind)
| Await {X : Type} (ev : Event X) (k : X -> Prog A).

Arguments Ret {A} a.
Arguments Throw {A} e.
Arguments Await {A X} ev k.

Fixpoint bind {A B : Type} (p : Prog A) (f : A -> Prog B) : Prog B :=
  match p with
  | Ret a => f a
  | Throw e => Throw e
  | Await ev k => Await ev (fun x => bind (k x) f)
  end.

Definition lift {A : Type} (r : Result A) : Prog A :=
  match r with
  | Ok a => Ret a
  | Err e => Throw e
  end.

Declare Scope prog_scope.
Delimit Scope prog_scope with prog.
Notation "x <- p ;; k" :=
  (bind p (fun x => k))
  (at level 61, p at next level, right associativity) : prog_scope.

(** The collaborators: the answer to an event, or the exception it raises,
    given the events so far. *)
Record World : Type := {
  respond : forall X : Type, list Label -> Event X -> Result X
}.

(** Running a computation from a given history: the history at the end and
    the outcome. *)
Fixpoint run {A : Type} (w : World) (history : list Label) (p : Prog A)
  : list Label * Result A :=
  match p with
  | Ret a => (history, Ok a)
  | Throw e => (history, Err e)
  | Await ev k =>
      let answer := respond w _ history ev in
      let history' := (history ++ [Called ev answer])%list in
      match answer with
      | Ok x => run w history' (k x)
      | Err e => (history', Err e)
      end
  end.

Definition isKeyDerivation (l : Label) : bool :=
  match l with
  | Called (ImportKey _) _ | Called (ExportKey _) _ => true
  | Called _ _ => false
  end.

Definition isCeremony (l : Label) : bool :=
  match l with
  | Called (StartAuthentication _) _ | Called (StartRegistration _) _ => true
  | Called _ _ => false
  end.

(** ** src/utils.ts *)

(** The helpers that both source files import from [./utils].  That file is
    not among the sources under verification: each helper below is modelled
    from the specification; the helpers that the specification does not
    describe, or describes otherwise than the sources use them, are
    parameters further down. *)
Module Utils.

Local Open Scope result_scope.

(** Modelled from the spec: [uint8ArrayToHexString] of [utils.ts] is
    missing.  Its results are used as viem [Hex] values (an ABI [bytes]
    argument, the argument of [keccak256]): the bytes in hexadecimal after
    ["0x"]. *)
Definition uint8ArrayToHexString (bs : list byte) : Viem.Hex :=
  "0x" ++ Hex.bytesToHex bs.

(** Modelled from the spec: [b64ToBytes] of [utils.ts] is missing.  Section
    3 has it produce "the raw bytes decoded from the base64url" text; text
    that is not base64url raises the error of the decoder. *)
Definition b64ToBytes (base64 : string) : Result (list byte) :=
  ofOption (ExternalError "InvalidCharacterError")
    (Base64.decodeStrict Base64.UrlSafe base64).

(** Modelled from the spec: the curve order of section 4.1, "the fixed NIST
    P-256 order constant". *)
Definition curveOrder : Z :=
  0xFFFFFFFF00000000FFFFFFFFFFFFFFFFBCE6FAADA7179E84F3B9CAC2FC632551.

(** One DER integer: tag [0x02], a one-byte length, and that many bytes
    read as an unsigned big-endian number. *)
Definition parseDerInteger (bs : list byte)
  : option (Z * list byte) :=
  match bs with
  | tag :: len :: rest =>
      let n := Z.to_nat (Hex.byteVal len) in
      if (Hex.byteVal tag =? 0x02) && (Hex.byteVal len <? 0x80)
         && (0 <? Hex.byteVal len) && (n <=? List.length rest)%nat
      then Some (Hex.beToZ (firstn n rest), skipn n rest)
      else None
  | _ => None
  end.

(** A DER sequence (tag [0x30], one-byte length covering the rest) of two
    integers. *)
Definition parseDerSignature (bs : list byte) : option (Z * Z) :=
  match bs with
  | tag :: len :: body =>
      if (Hex.byteVal tag =? 0x30) && (Hex.byteVal len <? 0x80)
         && (Hex.byteVal len =? Z.of_nat (List.length body))
      then
        match parseDerInteger body with
        | Some (r, rest) =>
            match parseDerInteger rest with
            | Some (s, []) => Some (r, s)
            | _ => None
            end
        | None => None
        end
      else None
  | _ => None
  end.

(** The low-s rule of section 4.1: [s] is replaced by [curveOrder - s]
    whenever [s > curveOrder / 2]. *)
Definition normalizeS (s : Z) : Z :=
  if curveOrder / 2 <? s then curveOrder - s else s.

(** Modelled from the spec: [parseAndNormalizeSig] of [utils.ts] is
    missing.  Section 4.1: the input is a hex-encoded ECDSA signature in DER
    form; malformed DER fails with [MalformedSignature]; the output is
    [(r, s)] as unsigned integers with [s] in low-s form. *)
Definition parseAndNormalizeSig (derSig : Viem.Hex) : Result (Z * Z) :=
  bs <- ofOption MalformedSignature
          (Hex.hexToBytes (Viem.stripPrefix derSig)) ;;
  rs <- ofOption MalformedSignature (parseDerSignature bs) ;;
  Ok (fst rs, normalizeS (snd rs)).

(** What [findQuoteIndices] returns, as far as [signMessageUsingWebAuthn]
    reads it. *)
Record QuoteIndices : Type := { beforeType : Z }.

(** The text [quote ++ name ++ quote ++ ":"], a JSON key with its colon. *)
Definition jsonKey (name : string) : string :=
  String Js.quote (name ++ String Js.quote ":").

(** The key followed by the opening quote of a string value. *)
Definition challengeKey : string := jsonKey "challenge" ++ String Js.quote "".
Definition typeKey : string := jsonKey "type" ++ String Js.quote "".

(** Modelled from the spec: [isRIP7212SupportedNetwork] of [utils.ts] is
    missing, and so is the list it consults.  Section 4.5: membership in "a
    fixed allow-list of chain ids"; the list is a parameter. *)
Definition isRIP7212SupportedNetwork (supportedNetworks : list Z)
  (chainId : Z) : bool :=
  existsb (Z.eqb chainId) supportedNetworks.

End Utils.

(** ** src/toWebAuthnKey.ts *)

Record WebAuthnKey : Type := {
  pubX : Z;
  pubY : Z;
  authenticatorId : string;
  authenticatorIdHash : Viem.Hex
}.

Record WebAuthnAccountParams : Type := {
  passkeyName : option string;
  rpID : option string;
  webAuthnKey : option WebAuthnKey;
  mode : option WebAuthnMode;
  credentials : option RequestCredentials;
  passkeyServerHeaders : option (list (string * string))
}.

Definition encodeWebAuthnPubKey (pubKey : WebAuthnKey) : Result Viem.Hex :=
  (x <- Viem.toHex (pubX pubKey) 32 ;;
   y <- Viem.toHex (pubY pubKey) 32 ;;
   h <- Viem.pad 32 (authenticatorIdHash pubKey) ;;
   Ok (Viem.concatHex [x; y; h]))%result.

Definition requestHeaders (params : WebAuthnAccountParams)
  : list (string * string) :=
  ("Content-Type", "application/json")
    :: match passkeyServerHeaders params with
       | Some hs => hs
       | None => []
       end.

Definition requestCredentials (params : WebAuthnAccountParams)
  : RequestCredentials :=
  match credentials params with
  | Some c => c
  | None => Include
  end.

Definition post (params : WebAuthnAccountParams) (request : Request)
  : Prog JsVal :=
  Await (Fetch request (requestHeaders params) (requestCredentials params))
    Ret.

(** The login branch: the public key and authenticator id it leaves in
    [pubKey] and [authenticatorId]. *)
Definition loginFlow (params : WebAuthnAccountParams)
  : Prog (JsVal * string) :=
  (loginOptions <- post params (LoginOptionsRequest (rpID params)) ;;
   loginCred <- Await (StartAuthentication (ServerOptions loginOptions)) Ret ;;
   let authenticatorId := authId loginCred in
   loginVerifyResult <-
     post params (LoginVerifyRequest loginCred (rpID params)) ;;
   verification <- lift (getProp "verification" loginVerifyResult) ;;
   verified <- lift (getProp "verified" verification) ;;
   if negb (truthy verified) then Throw LoginNotVerified
   else
     pubkey <- lift (getProp "pubkey" loginVerifyResult) ;;
     Ret (pubkey, authenticatorId))%prog.

(** The registration branch. *)
Definition registerFlow (params : WebAuthnAccountParams)
  : Prog (JsVal * string) :=
  (registerOptions <-
     post params (RegisterOptionsRequest (passkeyName params) (rpID params)) ;;
   options <- lift (getProp "options" registerOptions) ;;
   registerCred <- Await (StartRegistration options) Ret ;;
   let authenticatorId := regId registerCred in
   userId <- lift (getProp "userId" registerOptions) ;;
   registerVerifyResult <-
     post params
       (RegisterVerifyRequest userId (passkeyName params) registerCred
          (rpID params)) ;;
   verified <- lift (getProp "verified" registerVerifyResult) ;;
   if negb (truthy verified) then Throw RegistrationNotVerified
   else
     Ret (match publicKey registerCred with
          | Some k => JStr k
          | None => JUndefined
          end, authenticatorId))%prog.

(** The part after the two branches: the checks, the hash of the
    authenticator id and the coordinates of the public key. *)
Definition deriveKey (pubKey : JsVal) (authenticatorId : string)
  : Prog WebAuthnKey :=
  (if negb (truthy pubKey) then Throw MissingPublicKey
   else if (authenticatorId =? "")%string then Throw MissingAuthenticatorId
   else
     idBytes <- lift (Utils.b64ToBytes authenticatorId) ;;
     authenticatorIdHash <-
       lift (Viem.keccak256 (Utils.uint8ArrayToHexString idBytes)) ;;
     spkiDer <- lift (bufferFrom pubKey) ;;
     key <- Await (ImportKey spkiDer) Ret ;;
     rawKeyBuffer <- Await (ExportKey key) Ret ;;
     let pubKeyX := Hex.bytesToHex (subarray 1 33 rawKeyBuffer) in
     let pubKeyY := Hex.bytesToHex (skipn 33 rawKeyBuffer) in
     x <- lift (bigIntOfHex pubKeyX) ;;
     y <- lift (bigIntOfHex pubKeyY) ;;
     Ret {| pubX := x;
            pubY := y;
            authenticatorId := authenticatorId;
            authenticatorIdHash := authenticatorIdHash |})%prog.

Definition toWebAuthnKey (params : WebAuthnAccountParams)
  : Prog WebAuthnKey :=
  match webAuthnKey params with
  | Some key => Ret key
  | None =>
      (flow <- match mode params with
               | Some Login => loginFlow params
               | Some Register | None => registerFlow params
               end ;;
       deriveKey (fst flow) (snd flow))%prog
  end.

(** ** src/toPasskeyValidator.ts *)

Record Chain : Type := { chainId : Z }.

Record Client : Type := { chain : option Chain }.

Section Validator.

(** The signer of the account is opaque to the package. *)
Variable Signer : Type.

(** [PASSKEY_VALIDATOR_ADDRESS] of [./constants], which is not among the
    sources. *)
Variable PASSKEY_VALIDATOR_ADDRESS : Viem.Hex.

(** The allow-list that [isRIP7212SupportedNetwork] consults. *)
Variable RIP7212_SUPPORTED_NETWORKS : list Z.

(** [hexStringToUint8Array] and [base64FromUint8Array] of [./utils], which
    the specification does not describe: any two functions, which may
    throw. *)
Variable hexStringToUint8Array : string -> Result (list byte).
Variable base64FromUint8Array : list byte -> bool -> Result string.

(** [findQuoteIndices] of [./utils] is a parameter as well: any function
    of the client data, which may throw.  Section 4.2 describes a locator,
    but the stub signature below pairs client data of the described form
    with another location than that description gives, so the description
    is not taken for the code. *)
Variable findQuoteIndices : string -> Result Utils.QuoteIndices.

Record NexusAccount : Type := {
  signer : Signer;
  address : Viem.Hex;
  client : option Client
}.

(** Lines 35 to 47: the text of the message, by its shape at run time. *)
Definition messageContentOf (message : JsVal) : Result string :=
  match message with
  | JStr s => Ok s
  | _ =>
      (hasRaw <- hasProp "raw" message ;;
       raw <- getProp "raw" message ;;
       match hasRaw, raw with
       | true, JStr s => Ok s
       | true, JBytes bs => Ok (uint8ArrayToString bs)
       | _, _ => Err UnsupportedMessageFormat
       end)%result
  end.

Definition signatureParams : list Viem.AbiType :=
  [Viem.TBytes; Viem.TString; Viem.TUint256; Viem.TUint256; Viem.TUint256;
   Viem.TBool].

Definition signMessageUsingWebAuthn (message : JsVal) (chainId : Z)
  (allowCredentials : option (list CredentialDescriptor)) : Prog Viem.Hex :=
  (messageContent <- lift (messageContentOf message) ;;
   let formattedMessage :=
     if Js.startsWith "0x" messageContent
     then Js.sliceFrom 2 messageContent
     else messageContent in
   challengeBytes <- lift (hexStringToUint8Array formattedMessage) ;;
   challenge <- lift (base64FromUint8Array challengeBytes true) ;;
   cred <-
     Await (StartAuthentication
              (AssertionOptions challenge allowCredentials "required")) Ret ;;
   authenticatorDataBytes <- lift (Utils.b64ToBytes (authenticatorData cred)) ;;
   let authenticatorDataHex :=
     Utils.uint8ArrayToHexString authenticatorDataBytes in
   clientData <-
     lift (ofOption (ExternalError "InvalidCharacterError")
             (Base64.atob (clientDataJSON cred))) ;;
   indices <- lift (findQuoteIndices clientData) ;;
   signatureBytes <- lift (Utils.b64ToBytes (signature cred)) ;;
   let signatureHex := Utils.uint8ArrayToHexString signatureBytes in
   rs <- lift (Utils.parseAndNormalizeSig signatureHex) ;;
   lift (Viem.encodeAbiParameters signatureParams
           [Viem.VHex authenticatorDataHex;
            Viem.VString clientData;
            Viem.VBigInt (Utils.beforeType indices);
            Viem.VBigInt (fst rs);
            Viem.VBigInt (snd rs);
            Viem.VBool
              (Utils.isRIP7212SupportedNetwork RIP7212_SUPPORTED_NETWORKS
                 chainId)]))%prog.

Record ModuleInitData : Type := {
  moduleInitData_initData : Viem.Hex;
  moduleInitData_address : Viem.Hex;
  moduleInitData_type : string
}.

(** The argument that [toPasskeyValidator] hands to [toModule] of the
    account SDK. *)
Record ToModuleParameters : Type := {
  module_signer : Signer;
  module_address : Viem.Hex;
  accountAddress : Viem.Hex;
  signUserOpHash : Viem.Hex -> Prog Viem.Hex;
  initData : Viem.Hex;
  moduleInitData : ModuleInitData;
  deInitData : Viem.Hex;
  getStubSignature : Result Viem.Hex
}.

Definition initDataParams : list Viem.AbiType :=
  [Viem.TTuple [Viem.TUint256; Viem.TUint256]; Viem.TBytes32].

Definition stubClientDataJSON : string :=
  "{" ++ Utils.typeKey ++ "webauthn.get" ++ String Js.quote ","
  ++ Utils.challengeKey ++ "tbxXNFS9X_4Byr1cMwqKrIGB-_30a0QhZ6y7ucM0BOE"
  ++ String Js.quote "," ++ Utils.jsonKey "origin" ++ String Js.quote
       "http://localhost:3000"
  ++ String Js.quote "," ++ Utils.jsonKey "crossOrigin" ++ "false, "
  ++ Utils.jsonKey "other_keys_can_be_added_here"
  ++ String Js.quote
       "do not compare clientDataJSON against a template. See https://goo.gl/yabPex"
  ++ String Js.quote "}".

Definition stubSignature : Result Viem.Hex :=
  Viem.encodeAbiParameters signatureParams
    [Viem.VHex
       "0x49960de5880e8c687434170f6476605b8fe4aeb9a28632c7995cf3ba831d97631d00000000";
     Viem.VString stubClientDataJSON;
     Viem.VBigInt 1;
     Viem.VBigInt
       44941127272049826721201904734628716258498742255959991581049806490182030242267;
     Viem.VBigInt
       9910254599581058084911561569808925251374718953855182016200087235935345969636;
     Viem.VBool false].

(** [account.client?.chain] *)
Definition clientChain (account : NexusAccount) : option Chain :=
  match client account with
  | Some c => chain c
  | None => None
  end.

(** Lines 182 to 191: the [signUserOpHash] callback of the module. *)
Definition signUserOpHashOf (webAuthnKey : WebAuthnKey)
  (account : NexusAccount) (userOpHash : Viem.Hex) : Prog Viem.Hex :=
  match clientChain account with
  | None => Throw ChainIdUnavailable
  | Some ch =>
      signMessageUsingWebAuthn (JStr userOpHash) (chainId ch)
        (Some [{| credId := authenticatorId webAuthnKey;
                  credType := "public-key" |}])
  end.

Definition toPasskeyValidator (webAuthnKey : WebAuthnKey)
  (account : NexusAccount) : Result ToModuleParameters :=
  (topLevel <-
     Viem.encodeAbiParameters initDataParams
       [Viem.VTuple [Viem.VBigInt (pubX webAuthnKey);
                     Viem.VBigInt (pubY webAuthnKey)];
        Viem.VHex (authenticatorIdHash webAuthnKey)] ;;
   nested <-
     Viem.encodeAbiParameters initDataParams
       [Viem.VTuple [Viem.VBigInt (pubX webAuthnKey);
                     Viem.VBigInt (pubY webAuthnKey)];
        Viem.VHex (authenticatorIdHash webAuthnKey)] ;;
   Ok {| module_signer := signer account;
         module_address := PASSKEY_VALIDATOR_ADDRESS;
         accountAddress := address account;
         signUserOpHash := signUserOpHashOf webAuthnKey account;
         initData := topLevel;
         moduleInitData :=
           {| moduleInitData_initData := nested;
              moduleInitData_address := PASSKEY_VALIDATOR_ADDRESS;
              moduleInitData_type := "validator" |};
         deInitData := "0x";
         getStubSignature := stubSignature |})%result.

End Validator.

Arguments signer {Signer} _.
Arguments address {Signer} _.
Arguments client {Signer} _.
Arguments initData {Signer} _.
Arguments moduleInitData {Signer} _.
Arguments signUserOpHash {Signer} _.
Arguments deInitData {Signer} _.
Arguments getStubSignature {Signer} _.


(** ** Reference encodings *)

(** The encodings that the specification names, written down directly, to
    compare with what the code computes. *)
Module Reference.

(** The range of a [uint256]. *)
Definition isUint256 (z : Z) : Prop := 0 <= z < 2 ^ 256.

(** A number as [k] big-endian bytes. *)
Fixpoint bytesBE (k : nat) (z : Z) : list byte :=
  match k with
  | O => []
  | S k' => (bytesBE k' (z / 256) ++ [Hex.byteOfZ (z mod 256)])%list
  end.

(** The raw uncompressed point of section 4.3:
    [0x04 || X(32 bytes) || Y(32 bytes)]. *)
Definition rawUncompressed (x y : Z) : list byte :=
  (x04 :: bytesBE 32 x ++ bytesBE 32 y)%list.

(** The coordinates read off a raw key: bytes 1 to 33 and the bytes from
    33 on, each as a big-endian number. *)
Definition coordinatesOf (rawKey : list byte) : Z * Z :=
  (Hex.beToZ (subarray 1 33 rawKey), Hex.beToZ (skipn 33 rawKey)).

(** [abi.encode((uint256 x, uint256 y), bytes32 authenticatorIdHash)] of
    section 6: three words, the two numbers big-endian. *)
Definition abiEncodeInitData (x y : Z) (idHash : list byte) : list byte :=
  (bytesBE 32 x ++ bytesBE 32 y ++ idHash)%list.

(** The 96 bytes that the documentation of [encodeWebAuthnPubKey] names:
    the X coordinate, the Y coordinate and the hash, 32 bytes each. *)
Definition pubKeyBytes (x y : Z) (idHash : list byte) : list byte :=
  (bytesBE 32 x ++ bytesBE 32 y
     ++ repeat x00 (32 - List.length idHash) ++ idHash)%list.

(** A DER integer with the given content, and a DER signature: a sequence
    of two integers. *)
Definition derInteger (content : list byte) : list byte :=
  Hex.byteOfZ 0x02 :: Hex.byteOfZ (Z.of_nat (List.length content)) :: content.

Definition derSignature (r s : list byte) : list byte :=
  let body := (derInteger r ++ derInteger s)%list in
  Hex.byteOfZ 0x30 :: Hex.byteOfZ (Z.of_nat (List.length body)) :: body.

(** The [i]-th 32-byte word of ABI-encoded data, as 64 digits. *)
Definition abiWord (i : nat) (data : Viem.Hex) : string :=
  substring (2 + 64 * i) 64 data.

(** The word of a [uint256] and the word of a [bool]. *)
Definition wordOfNumber (z : Z) : string := Hex.fixedHex 64 z.

Definition wordOfBool (b : bool) : string :=
  wordOfNumber (if b then 1 else 0).

(** Words one after the other, followed by the rest of the data. *)
Definition joinWords (words : list string) (rest : string) : string :=
  fold_right String.append rest words.

(** The three shapes of a message that section 9 lists: a string, an
    object whose [raw] is a string, an object whose [raw] is a byte
    array. *)
Definition acceptedShape (message : JsVal) : bool :=
  match message with
  | JStr _ => true
  | JObj fields =>
      match lookupField "raw" fields with
      | Some (JStr _) | Some (JBytes _) => true
      | _ => false
      end
  | _ => false
  end.

(** The values on which the [in] operator is defined. *)
Definition isObject (message : JsVal) : bool :=
  match message with
  | JObj _ | JArr _ | JBytes _ => true
  | _ => false
  end.

End Reference.

(** ** Sample collaborators *)

(** A passkey server, an authenticator and a WebCrypto that answer every
    event, used to exhibit runs of the functions above. *)
Module Sample.

(** The SPKI encoding of the base point of P-256, in base64. *)
Definition spkiBase64 : string :=
  "MFkwEwYHKoZIzj0CAQYIKoZIzj0DAQcDQgAEaxfR8uEsQkf4vOblY6RA8ncDfYEt6zOg9KE5RdiYwpZP40Li/hp/m47n60p8D54WK84zV2sxXs7LtkBoN79R9Q==".

Definition registrationResponse : RegistrationResponseJSON :=
  {| regId := "AQIDBA"; publicKey := Some spkiBase64 |}.

(** An assertion over the client data of the stub signature, with its
    [r] and [s]. *)
Definition assertionResponse : AuthenticationResponseJSON :=
  {| authId := "AQIDBA";
     authenticatorData := "SZYN5YgOjGh0NBcPZHZgW4_krrmihjLHmVzzuoMdl2MdAAAAAA";
     clientDataJSON :=
       "eyJ0eXBlIjoid2ViYXV0aG4uZ2V0IiwiY2hhbGxlbmdlIjoidGJ4WE5GUzlYXzRCeXIxY013cUtySUdCLV8zMGEwUWhaNnk3dWNNMEJPRSIsIm9yaWdpbiI6Imh0dHA6Ly9sb2NhbGhvc3Q6MzAwMCIsImNyb3NzT3JpZ2luIjpmYWxzZX0";
     signature :=
       "MEQCIGNbxtD2j_iVyuiiiOz3VCpqnNVV33hLc-Hi6n6RBLHbAiAV6QFdKAyxlSeIHGJf7kP9OkBdWw0ZmoyOZYmnOBIJ5A" |}.

(** The key imported last. *)
Fixpoint lastImported (history : list Label) : list byte :=
  match history with
  | [] => []
  | l :: history' =>
      match lastImported history', l with
      | [], Called (ImportKey spkiDer) _ => spkiDer
      | found, _ => found
      end
  end.

(** The server reports [verified]; the raw export of a key is its SPKI
    encoding without the 26 bytes of header. *)
Definition ceremonyOptions : JsVal := JObj [("challenge", JStr "c2FtcGxl")].

Definition registerOptions : JsVal :=
  JObj [("options", ceremonyOptions); ("userId", JStr "user-1")].

Definition registerVerifyResult (verified : bool) : JsVal :=
  JObj [("verified", JBool verified)].

Definition answer (verified : bool) (X : Type) (history : list Label)
  (ev : Event X) : Result X :=
  match ev in Event T return Result T with
  | Fetch request _ _ =>
      match request with
      | LoginOptionsRequest _ => Ok ceremonyOptions
      | LoginVerifyRequest _ _ =>
          Ok (JObj [("verification", JObj [("verified", JBool verified)]);
                    ("pubkey", JStr spkiBase64)])
      | RegisterOptionsRequest _ _ => Ok registerOptions
      | RegisterVerifyRequest _ _ _ _ => Ok (registerVerifyResult verified)
      end
  | StartAuthentication _ => Ok assertionResponse
  | StartRegistration _ => Ok registrationResponse
  | ImportKey _ => Ok {| keyHandle := 1 |}
  | ExportKey _ => Ok (skipn 26 (lastImported history))
  end.

Definition world (verified : bool) : World :=
  {| respond := answer verified |}.

(** No collaborator answers. *)
Definition offline : World :=
  {| respond := fun _ _ _ => Err (ExternalError "NetworkError") |}.

(** Instances of the helpers that are parameters of the validator. *)
Definition hexStringToUint8Array (hexString : string) : Result (list byte) :=
  ofOption (ExternalError "RangeError") (Hex.hexToBytes hexString).

Definition base64FromUint8Array (bs : list byte) (urlSafe : bool)
  : Result string :=
  Ok (Base64.encode urlSafe bs).

(** A locator in agreement with the stub signature: the place where the
    type key starts, [-1] when the text does not have it. *)
Definition findQuoteIndices (input : string) : Result Utils.QuoteIndices :=
  Ok {| Utils.beforeType :=
          match Js.indexOf Utils.typeKey input with
          | Some t => Z.of_nat t
          | None => -1
          end |}.

Definition supportedNetworks : list Z := [137; 80002].

Definition validatorAddress : Viem.Hex :=
  "0x0000000000000000000000000000000000000001".

Definition registerParams : WebAuthnAccountParams :=
  {| passkeyName := Some "nexus";
     rpID := None;
     webAuthnKey := None;
     mode := Some Register;
     credentials := None;
     passkeyServerHeaders := None |}.

(** What the registration against [world true] returns. *)
Definition registeredKey : WebAuthnKey :=
  {| pubX :=
       0x6B17D1F2E12C4247F8BCE6E563A440F277037D812DEB33A0F4A13945D898C296;
     pubY :=
       0x4FE342E2FE1A7F9B8EE7EB4A7C0F9E162BCE33576B315ECECBB6406837BF51F5;
     authenticatorId := "AQIDBA";
     authenticatorIdHash :=
       "0xa6885b3731702da62e8e4a8f584ac46a7f6822f4e2ba50fba902f67b1588d23b" |}.

Definition registrationHistory : list Label :=
  fst (run (world true) [] (toWebAuthnKey registerParams)).

(** A key that a caller hands back with the hash of another
    authenticator id (here the digest of the empty byte string). *)
Definition staleKey : WebAuthnKey :=
  {| pubX := pubX registeredKey;
     pubY := pubY registeredKey;
     authenticatorId := "AQIDBA";
     authenticatorIdHash :=
       "0xc5d2460186f7233c927e7db2dcc703c0e500b653ca82273b7bfad8045d85a470" |}.

Definition reuseParams : WebAuthnAccountParams :=
  {| passkeyName := None;
     rpID := None;
     webAuthnKey := Some staleKey;
     mode := Some Login;
     credentials := None;
     passkeyServerHeaders := None |}.

(** The contents of the two integers of a signature: the [r] of the stub
    signature, and the complement of its [s] to the curve order, which is
    above half the order and needs a leading zero byte in DER. *)
Definition signatureR : list byte :=
  Reference.bytesBE 32
    44941127272049826721201904734628716258498742255959991581049806490182030242267.

Definition highS : list byte :=
  x00 :: Reference.bytesBE 32
           (Utils.curveOrder
            - 9910254599581058084911561569808925251374718953855182016200087235935345969636).

Definition userOpHash : Viem.Hex :=
  "0xb5bc573454bd5ffe01cabd5c330a8aac8181fbfdf46b442167acbbb9c33404e1".

(** An account whose client has no chain, with a signer of no content. *)
Definition accountWithoutChain : NexusAccount unit :=
  {| signer := tt;
     address := "0x00000000000000000000000000000000000000aa";
     client := Some {| chain := None |} |}.

Definition registeredIdHash : list byte :=
  Keccak.keccak256 [x01; x02; x03; x04].

Definition sign (chainId : Z) : Prog Viem.Hex :=
  signMessageUsingWebAuthn supportedNetworks hexStringToUint8Array
    base64FromUint8Array findQuoteIndices (JStr userOpHash) chainId None.

End Sample.

(** ** The events of the two flows *)

(** The events that [toWebAuthnKey] awaits, in the order of the source,
    and what it means for a world to answer them. *)
Module Trace.

Definition registerOptionsCall (params : WebAuthnAccountParams)
  : Event JsVal :=
  Fetch (RegisterOptionsRequest (passkeyName params) (rpID params))
    (requestHeaders params) (requestCredentials params).

Definition registerVerifyCall (params : WebAuthnAccountParams)
  (userId : JsVal) (cred : RegistrationResponseJSON) : Event JsVal :=
  Fetch (RegisterVerifyRequest userId (passkeyName params) cred (rpID params))
    (requestHeaders params) (requestCredentials params).

Definition loginOptionsCall (params : WebAuthnAccountParams) : Event JsVal :=
  Fetch (LoginOptionsRequest (rpID params))
    (requestHeaders params) (requestCredentials params).

Definition loginVerifyCall (params : WebAuthnAccountParams)
  (cred : AuthenticationResponseJSON) : Event JsVal :=
  Fetch (LoginVerifyRequest cred (rpID params))
    (requestHeaders params) (requestCredentials params).

(** The three events of a registration whose requests and ceremony are
    all answered. *)
Definition registration (params : WebAuthnAccountParams)
  (registerOptions options userId : JsVal) (cred : RegistrationResponseJSON)
  (verifyResult : JsVal) : list Label :=
  [Called (registerOptionsCall params) (Ok registerOptions);
   Called (StartRegistration options) (Ok cred);
   Called (registerVerifyCall params userId cred) (Ok verifyResult)].

(** The three events of a login. *)
Definition login (params : WebAuthnAccountParams) (loginOptions : JsVal)
  (cred : AuthenticationResponseJSON) (verifyResult : JsVal) : list Label :=
  [Called (loginOptionsCall params) (Ok loginOptions);
   Called (StartAuthentication (ServerOptions loginOptions)) (Ok cred);
   Called (loginVerifyCall params cred) (Ok verifyResult)].

(** The import of a key and its raw export. *)
Definition derivation (spkiDer : list byte) (key : CryptoKey)
  (rawKey : list byte) : list Label :=
  [Called (ImportKey spkiDer) (Ok key); Called (ExportKey key) (Ok rawKey)].

(** The world answers the options request with [registerOptions], the
    ceremony on its [options] with [cred], and the verify request, which
    carries its [userId], with [verifyResult]. *)
Definition registrationAnswered (w : World) (h : list Label)
  (params : WebAuthnAccountParams) (registerOptions options userId : JsVal)
  (cred : RegistrationResponseJSON) (verifyResult : JsVal) : Prop :=
  respond w _ h (registerOptionsCall params) = Ok registerOptions
  /\ getProp "options" registerOptions = Ok options
  /\ respond w _
       (h ++ [Called (registerOptionsCall params) (Ok registerOptions)])%list
       (StartRegistration options) = Ok cred
  /\ getProp "userId" registerOptions = Ok userId
  /\ respond w _
       (h ++ [Called (registerOptionsCall params) (Ok registerOptions);
              Called (StartRegistration options) (Ok cred)])%list
       (registerVerifyCall params userId cred) = Ok verifyResult.

Definition loginAnswered (w : World) (h : list Label)
  (params : WebAuthnAccountParams) (loginOptions : JsVal)
  (cred : AuthenticationResponseJSON) (verifyResult : JsVal) : Prop :=
  respond w _ h (loginOptionsCall params) = Ok loginOptions
  /\ respond w _
       (h ++ [Called (loginOptionsCall params) (Ok loginOptions)])%list
       (StartAuthentication (ServerOptions loginOptions)) = Ok cred
  /\ respond w _
       (h ++ [Called (loginOptionsCall params) (Ok loginOptions);
              Called (StartAuthentication (ServerOptions loginOptions))
                (Ok cred)])%list
       (loginVerifyCall params cred) = Ok verifyResult.

(** Lines 101 to 190: the branch that [toWebAuthnKey] takes when it is not
    given a key, with what it leaves in [pubKey] and [authenticatorId]. *)
Definition branch (params : WebAuthnAccountParams) : Prog (JsVal * string) :=
  match mode params with
  | Some Login => loginFlow params
  | Some Register | None => registerFlow params
  end.

(** The WebCrypto of the world exports, for a key that it has just
    imported from [spkiDer], the raw key [rawOf spkiDer], whatever came
    before: its export is a function of the imported encoding. *)
Definition exportsRaw (w : World) (rawOf : list byte -> list byte) : Prop :=
  forall (h : list Label) (spkiDer : list byte) (key : CryptoKey)
         (rawKey : list byte),
    respond w _ h (ImportKey spkiDer) = Ok key ->
    respond w _ (h ++ [Called (ImportKey spkiDer) (Ok key)])%list
      (ExportKey key) = Ok rawKey ->
    rawKey = rawOf spkiDer.

(** The value that the registration branch leaves in [pubKey]. *)
Definition credentialKey (cred : RegistrationResponseJSON) : JsVal :=
  match publicKey cred with
  | Some k => JStr k
  | None => JUndefined
  end.

(** The ceremony of the signing function. *)
Definition assertionCall (challenge : string)
  (allowCredentials : option (list CredentialDescriptor))
  : Event AuthenticationResponseJSON :=
  StartAuthentication (AssertionOptions challenge allowCredentials "required").

(** The message without its ["0x"], as line 50 of the signing function
    computes it. *)
Definition formatted (messageContent : string) : string :=
  if Js.startsWith "0x" messageContent then Js.sliceFrom 2 messageContent
  else messageContent.

End Trace.

(** ** Scripted collaborators *)

(** Worlds whose authenticator and server follow a script, used to exhibit
    the runs of the further properties. *)
Module Scenario.

Record Script : Type := {
  created : Result RegistrationResponseJSON;
  asserted : Result AuthenticationResponseJSON;
  verifiedField : JsVal;
  pubkeyField : JsVal
}.

Definition answer (s : Script) (X : Type) (history : list Label)
  (ev : Event X) : Result X :=
  match ev in Event T return Result T with
  | Fetch request _ _ =>
      match request with
      | LoginOptionsRequest _ => Ok Sample.ceremonyOptions
      | LoginVerifyRequest _ _ =>
          Ok (JObj [("verification", JObj [("verified", verifiedField s)]);
                    ("pubkey", pubkeyField s)])
      | RegisterOptionsRequest _ _ => Ok Sample.registerOptions
      | RegisterVerifyRequest _ _ _ _ =>
          Ok (JObj [("verified", verifiedField s)])
      end
  | StartAuthentication _ => asserted s
  | StartRegistration _ => created s
  | ImportKey _ => Ok {| keyHandle := 1 |}
  | ExportKey _ => Ok (skipn 26 (Sample.lastImported history))
  end.

Definition world (s : Script) : World := {| respond := answer s |}.

(** All goes well. *)
Definition good : Script :=
  {| created := Ok Sample.registrationResponse;
     asserted := Ok Sample.assertionResponse;
     verifiedField := JBool true;
     pubkeyField := JStr Sample.spkiBase64 |}.

(** The authenticator returns a credential without public key. *)
Definition withoutPublicKey : Script :=
  {| created := Ok {| regId := "AQIDBA"; publicKey := None |};
     asserted := Ok Sample.assertionResponse;
     verifiedField := JBool true;
     pubkeyField := JUndefined |}.

(** The authenticator returns a credential with an empty id. *)
Definition withoutId : Script :=
  {| created := Ok {| regId := ""; publicKey := Some Sample.spkiBase64 |};
     asserted := Ok Sample.assertionResponse;
     verifiedField := JBool true;
     pubkeyField := JStr Sample.spkiBase64 |}.

(** The user dismisses the ceremony. *)
Definition cancelled : Script :=
  {| created := Err (ExternalError "NotAllowedError");
     asserted := Err (ExternalError "NotAllowedError");
     verifiedField := JBool true;
     pubkeyField := JStr Sample.spkiBase64 |}.

(** The server does not verify. *)
Definition rejected : Script :=
  {| created := Ok Sample.registrationResponse;
     asserted := Ok Sample.assertionResponse;
     verifiedField := JBool false;
     pubkeyField := JStr Sample.spkiBase64 |}.

(** The client data of the assertion is base64url text with a character
    that the standard alphabet does not have. *)
Definition urlSafeClientData : Script :=
  {| created := Ok Sample.registrationResponse;
     asserted :=
       Ok {| authId := "AQIDBA";
             authenticatorData := authenticatorData Sample.assertionResponse;
             clientDataJSON := "eyJ0eXBlIjoid2ViYXV0aG4uZ2V0In0_";
             signature := signature Sample.assertionResponse |};
     verifiedField := JBool true;
     pubkeyField := JStr Sample.spkiBase64 |}.

Definition loginParams : WebAuthnAccountParams :=
  {| passkeyName := None;
     rpID := Some "example.org";
     webAuthnKey := None;
     mode := Some Login;
     credentials := Some SameOrigin;
     passkeyServerHeaders := Some [("x-api-key", "k")] |}.

(** An account on chain 137. *)
Definition account : NexusAccount unit :=
  {| signer := tt;
     address := "0x00000000000000000000000000000000000000aa";
     client := Some {| chain := Some {| chainId := 137 |} |} |}.

Definition verifyResult (s : Script) : JsVal :=
  JObj [("verification", JObj [("verified", verifiedField s)]);
        ("pubkey", pubkeyField s)].

(** A server whose login verify response has the shape of the register
    one: [verified] at the top, no [verification]. *)
Definition flatVerifyResult : JsVal :=
  JObj [("verified", JBool true); ("pubkey", JStr Sample.spkiBase64)].

Definition flatAnswer (X : Type) (history : list Label) (ev : Event X)
  : Result X :=
  match ev in Event T return Result T with
  | Fetch (LoginVerifyRequest _ _) _ _ => Ok flatVerifyResult
  | ev' => answer good _ history ev'
  end.

Definition flatWorld : World := {| respond := flatAnswer |}.

(** The key that the latest event imported. *)
Definition importedJustNow (history : list Label) : list byte :=
  match rev history with
  | Called (ImportKey spkiDer) _ :: _ => spkiDer
  | _ => []
  end.

(** A WebCrypto whose raw export is a function of the encoding just
    imported: that encoding without the 26 bytes of header. *)
Definition platformAnswer (X : Type) (history : list Label) (ev : Event X)
  : Result X :=
  match ev in Event T return Result T with
  | ExportKey _ => Ok (skipn 26 (importedJustNow history))
  | ev' => answer good _ history ev'
  end.

Definition platform : World := {| respond := platformAnswer |}.

(** A key whose hash has lost its last digit, and one whose hash has two
    bytes. *)
Definition digits63 : string :=
  "a6885b3731702da62e8e4a8f584ac46a7f6822f4e2ba50fba902f67b1588d23".

Definition shortHashKey : WebAuthnKey :=
  {| pubX := 1; pubY := 2; authenticatorId := "AQIDBA";
     authenticatorIdHash := "0x" ++ digits63 |}.

Definition twoByteHashKey : WebAuthnKey :=
  {| pubX := 1; pubY := 2; authenticatorId := "AQIDBA";
     authenticatorIdHash := "0x" ++ "0102" |}.

End Scenario.

(** * Properties *)

Module ResultFacts.

Lemma ok_inj {A : Type} (a b : A) : Ok a = Ok b -> a = b.
Proof. intros H. now injection H. Qed.

End ResultFacts.

(** ** Strings *)

Module JsFacts.

Local Open Scope string_scope.
Local Open Scope nat_scope.

Lemma append_nil_r (s : string) : s ++ "" = s.
Proof. induction s as [|c s IH]; simpl; [reflexivity | now rewrite IH]. Qed.

Lemma append_assoc (a b c : string) : (a ++ b) ++ c = a ++ (b ++ c).
Proof. induction a as [|x a IH]; simpl; [reflexivity | now rewrite IH]. Qed.

Lemma length_append (a b : string) :
  String.length (a ++ b) = String.length a + String.length b.
Proof. induction a as [|x a IH]; simpl; [reflexivity | now rewrite IH]. Qed.

Lemma length_repeatChar (n : nat) (c : ascii) :
  String.length (Js.repeatChar n c) = n.
Proof. induction n as [|n IH]; simpl; [reflexivity | now rewrite IH]. Qed.

Lemma substring_0_append (a b : string) :
  substring 0 (String.length a) (a ++ b) = a.
Proof.
  induction a as [|x a IH]; simpl.
  - now destruct b.
  - now rewrite IH.
Qed.

Lemma substring_skip (a b : string) (n : nat) :
  substring (String.length a) n (a ++ b) = substring 0 n b.
Proof. induction a as [|x a IH]; simpl; [reflexivity | exact IH]. Qed.

Lemma substring_skip_add (a b : string) (k n : nat) :
  substring (String.length a + k) n (a ++ b) = substring k n b.
Proof. induction a as [|x a IH]; simpl; [reflexivity | exact IH]. Qed.

Lemma sliceFrom_append (a b : string) :
  Js.sliceFrom (String.length a) (a ++ b) = b.
Proof.
  induction a as [|x a IH]; simpl; [now destruct b | exact IH].
Qed.

Lemma prefix_append (p s : string) : String.prefix p (p ++ s) = true.
Proof.
  induction p as [|c p IH]; simpl.
  - now destruct s.
  - destruct (ascii_dec c c) as [_|n]; [exact IH | now elim n].
Qed.

Lemma prefix_split (p s : string) :
  String.prefix p s = true -> exists rest, s = p ++ rest.
Proof.
  revert s; induction p as [|c p IH]; intros s H.
  - now exists s.
  - destruct s as [|d s]; simpl in H; [discriminate|].
    destruct (ascii_dec c d) as [->|]; [|discriminate].
    destruct (IH s H) as [rest ->]. now exists rest.
Qed.

Lemma index_cons (p : string) (c : ascii) (s : string) :
  String.index 0 p (String c s)
  = if String.prefix p (String c s) then Some 0
    else match String.index 0 p s with
         | Some n => Some (S n)
         | None => None
         end.
Proof. reflexivity. Qed.

Lemma index_prefix (p s : string) :
  p <> "" -> String.index 0 p (p ++ s) = Some 0.
Proof.
  intros Hp. destruct p as [|x p]; [now elim Hp|].
  change (String x p ++ s) with (String x (p ++ s)).
  rewrite index_cons.
  change (String x (p ++ s)) with (String x p ++ s).
  now rewrite prefix_append.
Qed.

(** The index that [indexOf] returns splits the text around the pattern. *)
Lemma index_split (p s : string) (n : nat) :
  String.index 0 p s = Some n ->
  exists pre post, s = pre ++ p ++ post /\ String.length pre = n.
Proof.
  revert n; induction s as [|c s IH]; intros n H.
  - simpl in H. destruct p; [|discriminate].
    injection H as <-. now exists "", "".
  - rewrite index_cons in H.
    destruct (String.prefix p (String c s)) eqn:Hp.
    + injection H as <-. apply prefix_split in Hp as [rest ->].
      now exists "", rest.
    + destruct (String.index 0 p s) as [m|] eqn:Hi; [|discriminate].
      injection H as <-.
      destruct (IH m eq_refl) as (pre & post & -> & Hlen).
      exists (String c pre), post. simpl. now rewrite Hlen.
Qed.

(** A text that contains the pattern has an index, at or before the
    occurrence. *)
Lemma index_found (p pre post : string) :
  p <> "" ->
  exists n, String.index 0 p (pre ++ p ++ post) = Some n
            /\ n <= String.length pre.
Proof.
  intros Hp. induction pre as [|c pre IH].
  - exists 0. split; [exact (index_prefix p post Hp) | auto].
  - destruct IH as (n & Hn & Hle).
    change (String c pre ++ p ++ post) with (String c (pre ++ p ++ post)).
    rewrite index_cons.
    destruct (String.prefix p (String c (pre ++ p ++ post))).
    + exists 0. split; [reflexivity | apply Nat.le_0_l].
    + rewrite Hn. exists (S n). split; [reflexivity|].
      simpl. now apply le_n_S.
Qed.

Lemma removeFirst_prefix (p s : string) :
  p <> "" -> Js.removeFirst p (p ++ s) = s.
Proof.
  intros Hp. unfold Js.removeFirst, Js.indexOf.
  rewrite (index_prefix p s Hp).
  simpl. rewrite sliceFrom_append.
  now destruct (p ++ s).
Qed.

End JsFacts.

(** ** Bytes and hexadecimal text *)

Module HexFacts.

Import Hex.

Lemma byteVal_range (b : byte) : 0 <= byteVal b < 256.
Proof. unfold byteVal. pose proof (Byte.to_N_bounded b). lia. Qed.

Lemma byteOfZ_byteVal (b : byte) : byteOfZ (byteVal b) = b.
Proof.
  unfold byteOfZ. rewrite Z.mod_small by apply byteVal_range.
  unfold byteVal. rewrite N2Z.id, Byte.of_to_N. reflexivity.
Qed.

Lemma byteVal_byteOfZ (z : Z) : 0 <= z < 256 -> byteVal (byteOfZ z) = z.
Proof.
  intros Hz. unfold byteOfZ, byteVal. rewrite Z.mod_small by exact Hz.
  destruct (Byte.of_N (Z.to_N z)) as [b|] eqn:E.
  - apply Byte.to_of_N in E. rewrite E. lia.
  - apply Byte.of_N_None_iff in E. lia.
Qed.

Ltac digit_cases d :=
  let H := fresh "H" in
  assert (d = 0 \/ d = 1 \/ d = 2 \/ d = 3 \/ d = 4 \/ d = 5 \/ d = 6
          \/ d = 7 \/ d = 8 \/ d = 9 \/ d = 10 \/ d = 11 \/ d = 12
          \/ d = 13 \/ d = 14 \/ d = 15) as H by lia;
  repeat (destruct H as [H|H]; [subst d|]); [..|subst d].

Lemma hexVal_hexChar (d : Z) : 0 <= d < 16 -> hexVal (hexChar d) = Some d.
Proof. intros Hd. digit_cases d; reflexivity. Qed.

Lemma high_digit_range (b : byte) : 0 <= byteVal b / 16 < 16.
Proof. pose proof (byteVal_range b). split.
  - apply Z.div_pos; lia.
  - apply Z.div_lt_upper_bound; lia.
Qed.

Lemma low_digit_range (z : Z) : 0 <= z mod 16 < 16.
Proof. apply Z.mod_pos_bound. lia. Qed.

Lemma bytesToHex_cons (b : byte) (bs : list byte) :
  bytesToHex (b :: bs)
  = String (hexChar (byteVal b / 16))
      (String (hexChar (byteVal b mod 16)) (bytesToHex bs)).
Proof. reflexivity. Qed.

Lemma bytesToHex_app (a b : list byte) :
  bytesToHex (a ++ b) = (bytesToHex a ++ bytesToHex b)%string.
Proof.
  induction a as [|x a IH]; [reflexivity|].
  rewrite <- app_comm_cons, !bytesToHex_cons, IH. reflexivity.
Qed.

Lemma length_bytesToHex (bs : list byte) :
  String.length (bytesToHex bs) = (2 * List.length bs)%nat.
Proof.
  induction bs as [|b bs IH]; [reflexivity|].
  rewrite bytesToHex_cons. simpl String.length. rewrite IH. simpl. lia.
Qed.

Lemma hexToBytes_pair (h l : ascii) (s : string) :
  hexToBytes (String h (String l s))
  = match hexVal h, hexVal l, hexToBytes s with
    | Some x, Some y, Some bs => Some (byteOfZ (16 * x + y) :: bs)
    | _, _, _ => None
    end.
Proof. reflexivity. Qed.

Lemma digitsValue_cons (acc : Z) (c : ascii) (s : string) :
  digitsValue acc (String c s)
  = match hexVal c with
    | Some d => digitsValue (acc * 16 + d) s
    | None => None
    end.
Proof. reflexivity. Qed.

(** Reading back what [bytesToHex] wrote. *)
Lemma hexToBytes_bytesToHex (bs : list byte) :
  hexToBytes (bytesToHex bs) = Some bs.
Proof.
  induction bs as [|b bs IH]; [reflexivity|].
  rewrite bytesToHex_cons, hexToBytes_pair.
  rewrite (hexVal_hexChar _ (high_digit_range b)).
  rewrite (hexVal_hexChar _ (low_digit_range (byteVal b))).
  rewrite IH. f_equal. f_equal.
  rewrite <- (byteOfZ_byteVal b) at 3. f_equal.
  pose proof (Z.div_mod (byteVal b) 16 ltac:(lia)). lia.
Qed.

Lemma digitsValue_bytesToHex (bs : list byte) (acc : Z) :
  digitsValue acc (bytesToHex bs)
  = Some (fold_left (fun a b => a * 256 + byteVal b) bs acc).
Proof.
  revert acc; induction bs as [|b bs IH]; intros acc; [reflexivity|].
  rewrite bytesToHex_cons, digitsValue_cons.
  rewrite (hexVal_hexChar _ (high_digit_range b)), digitsValue_cons.
  rewrite (hexVal_hexChar _ (low_digit_range (byteVal b))).
  rewrite IH. simpl fold_left. f_equal. f_equal.
  pose proof (Z.div_mod (byteVal b) 16 ltac:(lia)). lia.
Qed.

(** [BigInt("0x" + hex)] of a non-empty byte array is its big-endian
    value. *)
Lemma parseDigits_bytesToHex (bs : list byte) :
  bs <> [] -> parseDigits (bytesToHex bs) = Some (beToZ bs).
Proof.
  intros Hbs. unfold parseDigits, beToZ.
  rewrite <- digitsValue_bytesToHex.
  destruct bs as [|b bs]; [now elim Hbs|].
  rewrite bytesToHex_cons. reflexivity.
Qed.

Lemma beToZ_snoc (bs : list byte) (b : byte) :
  beToZ (bs ++ [b]) = beToZ bs * 256 + byteVal b.
Proof. unfold beToZ. rewrite fold_left_app. reflexivity. Qed.

Lemma beToZ_nonneg (bs : list byte) : 0 <= beToZ bs.
Proof.
  induction bs as [|b bs IH] using rev_ind; [unfold beToZ; simpl; lia|].
  rewrite beToZ_snoc. pose proof (byteVal_range b). lia.
Qed.

Lemma beToZ_bound (bs : list byte) :
  beToZ bs < 256 ^ Z.of_nat (List.length bs).
Proof.
  induction bs as [|b bs IH] using rev_ind; [unfold beToZ; simpl; lia|].
  rewrite beToZ_snoc, length_app. simpl List.length.
  replace (Z.of_nat (List.length bs + 1)) with (Z.of_nat (List.length bs) + 1)
    by lia.
  rewrite Z.pow_add_r by lia.
  pose proof (byteVal_range b). lia.
Qed.

Lemma length_fixedHex (k : nat) (n : Z) : String.length (fixedHex k n) = k.
Proof.
  revert n; induction k as [|k IH]; intros n; [reflexivity|].
  simpl. rewrite JsFacts.length_append, IH. simpl. lia.
Qed.

Lemma fixedHex_zero (k : nat) : fixedHex k 0 = Js.repeatChar k "0".
Proof.
  induction k as [|k IH]; [reflexivity|].
  simpl fixedHex. change (0 / 16) with 0. rewrite IH.
  clear IH. induction k as [|k IH]; [reflexivity|].
  simpl. simpl in IH. now rewrite IH.
Qed.

(** The digits above the size of the number are zeros. *)
Lemma fixedHex_small (i j : nat) (n : Z) :
  0 <= n < 16 ^ Z.of_nat j ->
  fixedHex (i + j) n = (Js.repeatChar i "0" ++ fixedHex j n)%string.
Proof.
  revert n; induction j as [|j IH]; intros n Hn.
  - assert (n = 0) as -> by (simpl in Hn; lia).
    rewrite Nat.add_0_r, fixedHex_zero. simpl.
    now rewrite JsFacts.append_nil_r.
  - rewrite Nat.add_succ_r. simpl fixedHex.
    rewrite IH, JsFacts.append_assoc; [reflexivity|].
    replace (Z.of_nat (S j)) with (Z.of_nat j + 1) in Hn by lia.
    rewrite Z.pow_add_r in Hn by lia. split.
    + apply Z.div_pos; lia.
    + apply Z.div_lt_upper_bound; lia.
Qed.

Lemma digitsFuel_fixedHex (fuel : nat) (n : Z) (acc : string) :
  (1 <= fuel)%nat -> 0 <= n < 16 ^ Z.of_nat fuel ->
  exists j : nat,
    (1 <= j <= fuel)%nat /\ n < 16 ^ Z.of_nat j
    /\ (j = 1%nat \/ 16 ^ (Z.of_nat j - 1) <= n)
    /\ digitsFuel fuel n acc = (fixedHex j n ++ acc)%string.
Proof.
  revert n acc; induction fuel as [|fuel IH]; intros n acc Hf Hn; [lia|].
  simpl digitsFuel. destruct (n <? 16) eqn:Hlt.
  - apply Z.ltb_lt in Hlt. exists 1%nat.
    split; [lia|]. split; [simpl; lia|]. split; [now left | reflexivity].
  - apply Z.ltb_ge in Hlt.
    replace (Z.of_nat (S fuel)) with (Z.of_nat fuel + 1) in Hn by lia.
    rewrite Z.pow_add_r in Hn by lia.
    assert (1 <= fuel)%nat as Hf'.
    { destruct fuel; [simpl in Hn; lia | lia]. }
    assert (0 <= n / 16 < 16 ^ Z.of_nat fuel) as Hq.
    { split; [apply Z.div_pos; lia | apply Z.div_lt_upper_bound; lia]. }
    destruct (IH (n / 16) (String (hexChar (n mod 16)) acc) Hf' Hq)
      as (j & Hj & Hb & Hmin & ->).
    pose proof (Z.div_mod n 16 ltac:(lia)) as Hdm.
    pose proof (Z.mod_pos_bound n 16 ltac:(lia)) as Hmb.
    exists (S j). split; [lia|]. split; [|split].
    + replace (Z.of_nat (S j)) with (Z.of_nat j + 1) by lia.
      rewrite Z.pow_add_r by lia. lia.
    + right. replace (Z.of_nat (S j) - 1) with (Z.of_nat j) by lia.
      destruct Hmin as [->|Hmin]; [simpl; lia|].
      replace (Z.of_nat j) with ((Z.of_nat j - 1) + 1) by lia.
      rewrite Z.pow_add_r by lia. lia.
    + simpl fixedHex. now rewrite JsFacts.append_assoc.
Qed.

Lemma fuel_enough (n : Z) :
  0 <= n -> n < 16 ^ Z.of_nat (S (Z.to_nat (Z.log2 n))).
Proof.
  intros Hn. pose proof (Z.log2_nonneg n) as Hl.
  replace (Z.of_nat (S (Z.to_nat (Z.log2 n)))) with (Z.log2 n + 1) by lia.
  destruct (Z.eq_dec n 0) as [->|Hnz].
  - simpl. lia.
  - pose proof (Z.log2_spec n ltac:(lia)) as [_ Hu].
    replace (Z.succ (Z.log2 n)) with (Z.log2 n + 1) in Hu by lia.
    assert (2 ^ (Z.log2 n + 1) <= 16 ^ (Z.log2 n + 1)).
    { apply Z.pow_le_mono_l. lia. }
    lia.
Qed.

(** [n.toString(16).padStart(k, "0")] is the [k] low digits of [n] when
    [n] has at most [k] digits. *)
Lemma padStart_toString16 (k : nat) (n : Z) :
  (1 <= k)%nat -> 0 <= n < 16 ^ Z.of_nat k ->
  Js.padStart k "0" (toString16 n) = fixedHex k n.
Proof.
  intros Hk Hn. unfold toString16.
  destruct (digitsFuel_fixedHex (S (Z.to_nat (Z.log2 n))) n ""
              ltac:(lia) (conj (proj1 Hn) (fuel_enough n (proj1 Hn))))
    as (j & Hj & Hb & Hmin & ->).
  rewrite JsFacts.append_nil_r. unfold Js.padStart.
  rewrite length_fixedHex.
  assert (j <= k)%nat as Hle.
  { destruct Hmin as [->|Hmin]; [exact Hk|].
    destruct (le_lt_dec j k) as [Hle|Hgt]; [exact Hle|exfalso].
    assert (16 ^ Z.of_nat k <= 16 ^ (Z.of_nat j - 1)).
    { apply Z.pow_le_mono_r; lia. }
    lia. }
  replace k with ((k - j) + j)%nat at 2 by lia.
  now rewrite fixedHex_small by lia.
Qed.

End HexFacts.

(** ** Big-endian words *)

Module ReferenceFacts.

Import Hex Reference.

Lemma length_bytesBE (k : nat) (z : Z) : List.length (bytesBE k z) = k.
Proof.
  revert z; induction k as [|k IH]; intros z; [reflexivity|].
  simpl. rewrite length_app, IH. simpl. lia.
Qed.

(** The digits of a big-endian word are the low digits of the number. *)
Lemma bytesToHex_bytesBE (k : nat) (z : Z) :
  bytesToHex (bytesBE k z) = fixedHex (2 * k) z.
Proof.
  revert z; induction k as [|k IH]; intros z; [reflexivity|].
  replace (2 * S k)%nat with (S (S (2 * k))) by lia.
  simpl bytesBE. simpl fixedHex.
  rewrite HexFacts.bytesToHex_app, IH, HexFacts.bytesToHex_cons.
  simpl bytesToHex.
  rewrite HexFacts.byteVal_byteOfZ by (apply Z.mod_pos_bound; lia).
  rewrite JsFacts.append_assoc. simpl.
  replace (z / 16 / 16) with (z / 256)
    by (rewrite Z.div_div by lia; reflexivity).
  replace (z mod 256 / 16) with ((z / 16) mod 16).
  2:{ change 256 with (16 * 16).
      rewrite Z.rem_mul_r by lia.
      rewrite (Z.mul_comm 16 ((z / 16) mod 16)), Z.div_add by lia.
      rewrite (Z.div_small (z mod 16)) by (apply Z.mod_pos_bound; lia).
      lia. }
  replace ((z mod 256) mod 16) with (z mod 16).
  2:{ change 256 with (16 * 16).
      rewrite Z.rem_mul_r by lia.
      rewrite (Z.mul_comm 16 ((z / 16) mod 16)), Z.mod_add by lia.
      now rewrite Z.mod_mod by lia. }
  reflexivity.
Qed.

(** Writing the value of a byte array on as many bytes gives it back. *)
Lemma bytesBE_beToZ (bs : list byte) :
  bytesBE (List.length bs) (beToZ bs) = bs.
Proof.
  induction bs as [|b bs IH] using rev_ind; [reflexivity|].
  rewrite length_app, HexFacts.beToZ_snoc. simpl List.length.
  rewrite Nat.add_1_r. simpl bytesBE.
  pose proof (HexFacts.byteVal_range b) as Hb.
  rewrite Z.div_add_l by lia. rewrite (Z.div_small (byteVal b)) by lia.
  rewrite Z.add_0_r, IH.
  rewrite Z.add_comm, Z.mod_add by lia.
  rewrite Z.mod_small by lia.
  now rewrite HexFacts.byteOfZ_byteVal.
Qed.

(** Reading a big-endian word gives the number back. *)
Lemma beToZ_bytesBE (k : nat) (z : Z) :
  0 <= z < 256 ^ Z.of_nat k -> beToZ (bytesBE k z) = z.
Proof.
  revert z; induction k as [|k IH]; intros z Hz.
  - simpl in Hz. assert (z = 0) as -> by lia. reflexivity.
  - simpl bytesBE. rewrite HexFacts.beToZ_snoc.
    replace (Z.of_nat (S k)) with (Z.of_nat k + 1) in Hz by lia.
    rewrite Z.pow_add_r in Hz by lia.
    rewrite IH.
    + rewrite HexFacts.byteVal_byteOfZ by (apply Z.mod_pos_bound; lia).
      pose proof (Z.div_mod z 256 ltac:(lia)). lia.
    + split; [apply Z.div_pos; lia | apply Z.div_lt_upper_bound; lia].
Qed.

Lemma fixedHex_beToZ (bs : list byte) :
  fixedHex (2 * List.length bs) (beToZ bs) = bytesToHex bs.
Proof. now rewrite <- bytesToHex_bytesBE, bytesBE_beToZ. Qed.

End ReferenceFacts.

(** ** viem *)

Module ViemFacts.

Import Viem.

Lemma stripPrefix_0x (digits : string) : stripPrefix ("0x" ++ digits) = digits.
Proof. apply JsFacts.removeFirst_prefix. discriminate. Qed.

Lemma pow_bytes (sz : nat) : 2 ^ (8 * Z.of_nat sz) = 16 ^ Z.of_nat (sz * 2).
Proof.
  replace (8 * Z.of_nat sz) with (4 * Z.of_nat (sz * 2)) by lia.
  rewrite Z.pow_mul_r by lia. reflexivity.
Qed.

(** [numberToHex] succeeds exactly on the numbers that fit, and gives
    their digits on the full width. *)
Lemma numberToHex_ok (sz : nat) (v : Z) :
  (1 <= sz)%nat -> 0 <= v < 2 ^ (8 * Z.of_nat sz) ->
  numberToHex sz v = Ok ("0x" ++ Hex.fixedHex (sz * 2) v).
Proof.
  intros Hsz Hv. unfold numberToHex.
  destruct (v <? 0) eqn:E1; [apply Z.ltb_lt in E1; lia|].
  destruct (2 ^ (8 * Z.of_nat sz) - 1 <? v) eqn:E2;
    [apply Z.ltb_lt in E2; lia|].
  simpl orb. cbv iota.
  rewrite HexFacts.padStart_toString16; [reflexivity | lia |].
  now rewrite <- pow_bytes.
Qed.

Lemma numberToHex_inv (sz : nat) (v : Z) (h : Hex) :
  (1 <= sz)%nat -> numberToHex sz v = Ok h ->
  0 <= v < 2 ^ (8 * Z.of_nat sz) /\ h = "0x" ++ Hex.fixedHex (sz * 2) v.
Proof.
  intros Hsz H.
  assert (0 <= v < 2 ^ (8 * Z.of_nat sz)) as Hv.
  { unfold numberToHex in H.
    destruct (v <? 0) eqn:E1; [discriminate|].
    destruct (2 ^ (8 * Z.of_nat sz) - 1 <? v) eqn:E2; [discriminate|].
    apply Z.ltb_ge in E1, E2. lia. }
  split; [exact Hv|].
  rewrite (numberToHex_ok sz v Hsz Hv) in H. now injection H.
Qed.

Lemma numberToHex_out_of_range (sz : nat) (v : Z) :
  v < 0 \/ 2 ^ (8 * Z.of_nat sz) <= v ->
  numberToHex sz v = Err (viemError "IntegerOutOfRangeError").
Proof.
  intros Hv. unfold numberToHex.
  destruct (v <? 0) eqn:E1; [reflexivity|].
  destruct (2 ^ (8 * Z.of_nat sz) - 1 <? v) eqn:E2; [reflexivity|].
  apply Z.ltb_ge in E1, E2. lia.
Qed.

(** [padHex] of a prefixed hex string that fits. *)
Lemma padHex_ok (dir : Dir) (sz : nat) (digits : string) :
  (String.length digits <= sz * 2)%nat ->
  padHex dir sz ("0x" ++ digits)
  = Ok ("0x" ++ match dir with
                | Left => Js.padStart (sz * 2) "0" digits
                | Right => Js.padEnd (sz * 2) "0" digits
                end).
Proof.
  intros Hlen. unfold padHex. rewrite stripPrefix_0x.
  destruct (sz * 2 <? String.length digits)%nat eqn:E; [|reflexivity].
  apply Nat.ltb_lt in E. lia.
Qed.

Lemma padHex_too_long (dir : Dir) (sz : nat) (digits : string) :
  (sz * 2 < String.length digits)%nat ->
  padHex dir sz ("0x" ++ digits)
  = Err (viemError "SizeExceedsPaddingSizeError").
Proof.
  intros Hlen. unfold padHex. rewrite stripPrefix_0x.
  destruct (sz * 2 <? String.length digits)%nat eqn:E; [reflexivity|].
  apply Nat.ltb_ge in E. lia.
Qed.

Lemma padStart_full (n : nat) (c : ascii) (s : string) :
  String.length s = n -> Js.padStart n c s = s.
Proof. intros <-. unfold Js.padStart. now rewrite Nat.sub_diag. Qed.

Lemma padEnd_full (n : nat) (c : ascii) (s : string) :
  String.length s = n -> Js.padEnd n c s = s.
Proof.
  intros <-. unfold Js.padEnd. rewrite Nat.sub_diag.
  apply JsFacts.append_nil_r.
Qed.

Lemma concatHex_fold (values : list Hex) (acc : string) :
  fold_left (fun a x => a ++ stripPrefix x)%string values acc
  = (acc ++ fold_left (fun a x => a ++ stripPrefix x)%string values "")%string.
Proof.
  revert acc; induction values as [|v values IH]; intros acc; simpl.
  - now rewrite JsFacts.append_nil_r.
  - rewrite IH, (IH (stripPrefix v)). now rewrite JsFacts.append_assoc.
Qed.

Lemma concatHex_cons (digits : string) (values : list Hex) :
  concatHex (("0x" ++ digits) :: values)
  = "0x" ++ digits ++ stripPrefix (concatHex values).
Proof.
  unfold concatHex at 1. simpl fold_left. rewrite concatHex_fold.
  change (String "0" (String "x" digits)) with ("0x" ++ digits).
  rewrite stripPrefix_0x. unfold concatHex. now rewrite stripPrefix_0x.
Qed.

Lemma concatHex_nil : concatHex [] = "0x".
Proof. reflexivity. Qed.

Lemma size_prefixed (digits : string) :
  size ("0x" ++ digits) = (Z.of_nat (String.length digits) + 1) / 2.
Proof. unfold size. simpl String.length. f_equal. lia. Qed.

End ViemFacts.

(** ** The encoded public key and the init data *)

Module EncodingFacts.

Import Reference.

Lemma concatHex3 (a b c : string) :
  Viem.concatHex ["0x" ++ a; "0x" ++ b; "0x" ++ c]
  = "0x" ++ a ++ b ++ c.
Proof.
  rewrite !ViemFacts.concatHex_cons.
  change (Viem.stripPrefix (Viem.concatHex [])) with "".
  now rewrite JsFacts.append_nil_r, !ViemFacts.stripPrefix_0x.
Qed.

Lemma toHex_uint256 (z : Z) :
  isUint256 z -> Viem.toHex z 32 = Ok ("0x" ++ Hex.fixedHex 64 z).
Proof.
  intros Hz. unfold Viem.toHex.
  now rewrite ViemFacts.numberToHex_ok by (try lia; exact Hz).
Qed.

Lemma bytesToHex_zeros (k : nat) :
  Hex.bytesToHex (repeat x00 k) = Js.repeatChar (2 * k) "0".
Proof.
  induction k as [|k IH]; [reflexivity|].
  replace (2 * S k)%nat with (S (S (2 * k))) by lia.
  simpl repeat. rewrite HexFacts.bytesToHex_cons, IH. reflexivity.
Qed.

Lemma bytesToHex_pubKeyBytes (x y : Z) (idHash : list byte) :
  Hex.bytesToHex (pubKeyBytes x y idHash)
  = (Hex.fixedHex 64 x ++ Hex.fixedHex 64 y
     ++ Js.padStart 64 "0" (Hex.bytesToHex idHash))%string.
Proof.
  unfold pubKeyBytes, Js.padStart.
  rewrite !HexFacts.bytesToHex_app, !ReferenceFacts.bytesToHex_bytesBE.
  rewrite bytesToHex_zeros, HexFacts.length_bytesToHex.
  replace (2 * (32 - List.length idHash))%nat
    with (64 - 2 * List.length idHash)%nat by lia.
  reflexivity.
Qed.

End EncodingFacts.

(** C10.  For every WebAuthn key of the data model (coordinates in the
    range of [uint256], a hash of at most 32 bytes), [encodeWebAuthnPubKey]
    returns the hex text of 96 bytes: [pubX] on exactly 32 big-endian
    bytes, then [pubY] on exactly 32 big-endian bytes, then
    [authenticatorIdHash] padded to 32 bytes. *)
Theorem encodeWebAuthnPubKey_layout (key : WebAuthnKey) (idHash : list byte) :
  Reference.isUint256 (pubX key) ->
  Reference.isUint256 (pubY key) ->
  authenticatorIdHash key = Viem.bytesToHex idHash ->
  (List.length idHash <= 32)%nat ->
  encodeWebAuthnPubKey key
  = Ok (Viem.bytesToHex
          (Reference.pubKeyBytes (pubX key) (pubY key) idHash))
  /\ List.length (Reference.pubKeyBytes (pubX key) (pubY key) idHash) = 96%nat
  /\ Hex.beToZ (Reference.bytesBE 32 (pubX key)) = pubX key
  /\ Hex.beToZ (Reference.bytesBE 32 (pubY key)) = pubY key.
Proof.
  intros Hx Hy Hh Hlen. repeat split.
  - unfold encodeWebAuthnPubKey.
    rewrite (EncodingFacts.toHex_uint256 _ Hx).
    rewrite (EncodingFacts.toHex_uint256 _ Hy).
    rewrite Hh. unfold Viem.pad, Viem.bytesToHex, rbind.
    rewrite ViemFacts.padHex_ok
      by (rewrite HexFacts.length_bytesToHex; lia).
    rewrite EncodingFacts.concatHex3.
    now rewrite EncodingFacts.bytesToHex_pubKeyBytes.
  - unfold Reference.pubKeyBytes.
    rewrite !length_app, !ReferenceFacts.length_bytesBE, repeat_length. lia.
  - apply ReferenceFacts.beToZ_bytesBE. exact Hx.
  - apply ReferenceFacts.beToZ_bytesBE. exact Hy.
Qed.

Module AbiFacts.

Import Reference.

Lemma encodeNumber_ok (z : Z) :
  isUint256 z ->
  Viem.encodeNumber z
  = Ok {| Viem.dynamic := false; Viem.encoded := "0x" ++ Hex.fixedHex 64 z |}.
Proof.
  intros Hz. unfold Viem.encodeNumber.
  now rewrite ViemFacts.numberToHex_ok by (try lia; exact Hz).
Qed.

Lemma encodeBytes32_ok (idHash : list byte) :
  List.length idHash = 32%nat ->
  Viem.encodeBytes (Some 32) (Viem.bytesToHex idHash)
  = Ok {| Viem.dynamic := false; Viem.encoded := Viem.bytesToHex idHash |}.
Proof.
  intros Hlen. unfold Viem.encodeBytes, Viem.bytesToHex.
  rewrite ViemFacts.size_prefixed, HexFacts.length_bytesToHex, Hlen.
  change ((Z.of_nat (2 * 32) + 1) / 2 =? 32) with true. cbv iota.
  rewrite ViemFacts.padHex_ok
    by (rewrite HexFacts.length_bytesToHex; lia).
  rewrite ViemFacts.padEnd_full
    by (rewrite HexFacts.length_bytesToHex; lia).
  reflexivity.
Qed.

(** The init data of a well-formed key, as viem encodes it. *)
Lemma encode_initData (x y : Z) (idHash : list byte) :
  isUint256 x -> isUint256 y -> List.length idHash = 32%nat ->
  Viem.encodeAbiParameters initDataParams
    [Viem.VTuple [Viem.VBigInt x; Viem.VBigInt y];
     Viem.VHex (Viem.bytesToHex idHash)]
  = Ok (Viem.bytesToHex (abiEncodeInitData x y idHash)).
Proof.
  intros Hx Hy Hlen.
  unfold Viem.encodeAbiParameters, initDataParams.
  cbn [List.length Nat.eqb negb Viem.prepareParams Viem.prepareParam].
  rewrite (encodeNumber_ok x Hx), (encodeNumber_ok y Hy).
  cbn [rbind existsb Viem.dynamic orb map Viem.encoded].
  rewrite (encodeBytes32_ok idHash Hlen).
  unfold Viem.encodeParams.
  cbn [Viem.encodeParamsLoop Viem.dynamic Viem.encoded rbind fst snd app].
  unfold Viem.bytesToHex, abiEncodeInitData.
  rewrite !ViemFacts.concatHex_cons.
  change (Viem.stripPrefix (Viem.concatHex [])) with "".
  rewrite !JsFacts.append_nil_r, !ViemFacts.stripPrefix_0x.
  rewrite !HexFacts.bytesToHex_app, !ReferenceFacts.bytesToHex_bytesBE.
  now rewrite JsFacts.append_assoc.
Qed.

End AbiFacts.

Lemma encodeWebAuthnPubKey_layout_witness :
  Reference.isUint256 (pubX Sample.registeredKey)
  /\ Reference.isUint256 (pubY Sample.registeredKey)
  /\ authenticatorIdHash Sample.registeredKey
     = Viem.bytesToHex Sample.registeredIdHash
  /\ (List.length Sample.registeredIdHash <= 32)%nat
  /\ encodeWebAuthnPubKey Sample.registeredKey
     = Ok (Viem.bytesToHex
             (Reference.pubKeyBytes (pubX Sample.registeredKey)
                (pubY Sample.registeredKey) Sample.registeredIdHash)).
Proof.
  assert (Reference.isUint256 (pubX Sample.registeredKey)) as Hx
    by (unfold Reference.isUint256; simpl; lia).
  assert (Reference.isUint256 (pubY Sample.registeredKey)) as Hy
    by (unfold Reference.isUint256; simpl; lia).
  assert (authenticatorIdHash Sample.registeredKey
          = Viem.bytesToHex Sample.registeredIdHash) as Hh
    by (vm_compute; reflexivity).
  assert (List.length Sample.registeredIdHash <= 32)%nat as Hlen
    by (vm_compute; lia).
  split; [exact Hx|]. split; [exact Hy|]. split; [exact Hh|].
  split; [exact Hlen|].
  exact (proj1 (encodeWebAuthnPubKey_layout Sample.registeredKey
                  Sample.registeredIdHash Hx Hy Hh Hlen)).
Defined.

(** C5.  For every WebAuthn key of the data model (coordinates in the
    range of [uint256], a hash of 32 bytes), [toPasskeyValidator] builds the
    module, and the byte string it passes as the top-level [initData] and
    the one it passes as [moduleInitData.initData] are identical, both
    being [abi.encode((uint256 x, uint256 y), bytes32 authenticatorIdHash)]
    of the key's [pubX], [pubY] and [authenticatorIdHash]. *)
Theorem initData_identical (Signer : Type) (validatorAddress : Viem.Hex)
  (networks : list Z) (hexStringToUint8Array : string -> Result (list byte))
  (base64FromUint8Array : list byte -> bool -> Result string)
  (findQuoteIndices : string -> Result Utils.QuoteIndices)
  (key : WebAuthnKey) (account : NexusAccount Signer) (idHash : list byte) :
  Reference.isUint256 (pubX key) ->
  Reference.isUint256 (pubY key) ->
  authenticatorIdHash key = Viem.bytesToHex idHash ->
  List.length idHash = 32%nat ->
  exists m,
    toPasskeyValidator Signer validatorAddress networks hexStringToUint8Array
      base64FromUint8Array findQuoteIndices key account = Ok m
    /\ initData m = moduleInitData_initData (moduleInitData m)
    /\ initData m
       = Viem.bytesToHex
           (Reference.abiEncodeInitData (pubX key) (pubY key) idHash)
    /\ moduleInitData_initData (moduleInitData m)
       = Viem.bytesToHex
           (Reference.abiEncodeInitData (pubX key) (pubY key) idHash).
Proof.
  intros Hx Hy Hh Hlen. unfold toPasskeyValidator.
  rewrite Hh, (AbiFacts.encode_initData _ _ _ Hx Hy Hlen).
  cbn [rbind]. eexists. split; [reflexivity|].
  cbn [initData moduleInitData moduleInitData_initData]. auto.
Qed.

Lemma initData_identical_witness :
  Reference.isUint256 (pubX Sample.registeredKey)
  /\ Reference.isUint256 (pubY Sample.registeredKey)
  /\ authenticatorIdHash Sample.registeredKey
     = Viem.bytesToHex Sample.registeredIdHash
  /\ List.length Sample.registeredIdHash = 32%nat
  /\ exists m,
       toPasskeyValidator unit Sample.validatorAddress
         Sample.supportedNetworks Sample.hexStringToUint8Array
         Sample.base64FromUint8Array
         Sample.findQuoteIndices Sample.registeredKey
         Sample.accountWithoutChain = Ok m
       /\ initData m = moduleInitData_initData (moduleInitData m).
Proof.
  assert (Reference.isUint256 (pubX Sample.registeredKey)) as Hx
    by (unfold Reference.isUint256; simpl; lia).
  assert (Reference.isUint256 (pubY Sample.registeredKey)) as Hy
    by (unfold Reference.isUint256; simpl; lia).
  assert (authenticatorIdHash Sample.registeredKey
          = Viem.bytesToHex Sample.registeredIdHash) as Hh
    by (vm_compute; reflexivity).
  assert (List.length Sample.registeredIdHash = 32%nat) as Hlen
    by (vm_compute; reflexivity).
  split; [exact Hx|]. split; [exact Hy|]. split; [exact Hh|].
  split; [exact Hlen|].
  destruct (initData_identical unit Sample.validatorAddress
              Sample.supportedNetworks Sample.hexStringToUint8Array
              Sample.base64FromUint8Array
              Sample.findQuoteIndices Sample.registeredKey
              Sample.accountWithoutChain Sample.registeredIdHash
              Hx Hy Hh Hlen) as (m & Hm & Hsame & _).
  exists m. split; [exact Hm | exact Hsame].
Defined.

(** Whenever the module is built, whatever the key, the two init data are
    the same text. *)
Lemma initData_same_when_built (Signer : Type) (validatorAddress : Viem.Hex)
  (networks : list Z) (hexStringToUint8Array : string -> Result (list byte))
  (base64FromUint8Array : list byte -> bool -> Result string)
  (findQuoteIndices : string -> Result Utils.QuoteIndices)
  (key : WebAuthnKey) (account : NexusAccount Signer)
  (m : ToModuleParameters Signer) :
  toPasskeyValidator Signer validatorAddress networks hexStringToUint8Array
    base64FromUint8Array findQuoteIndices key account = Ok m ->
  initData m = moduleInitData_initData (moduleInitData m).
Proof.
  unfold toPasskeyValidator.
  destruct (Viem.encodeAbiParameters _ _) as [data|e]; cbn [rbind];
    [|discriminate].
  intros H. injection H as <-. reflexivity.
Qed.

(** ** Asynchronous computations *)

Module ProgFacts.

Lemma run_bind {A B : Type} (w : World) (p : Prog A) (f : A -> Prog B)
  (h : list Label) :
  run w h (bind p f)
  = match run w h p with
    | (h', Ok a) => run w h' (f a)
    | (h', Err e) => (h', Err e)
    end.
Proof.
  revert h; induction p as [a|e|X ev k IH]; intros h; try reflexivity.
  simpl. destruct (respond w X h ev) as [x|e]; [apply IH | reflexivity].
Qed.

Lemma run_lift {A : Type} (w : World) (r : Result A) (h : list Label) :
  run w h (lift r) = (h, r).
Proof. now destruct r. Qed.

Lemma run_await {X : Type} (w : World) (ev : Event X) (h : list Label) :
  run w h (Await ev Ret)
  = ((h ++ [Called ev (respond w X h ev)])%list, respond w X h ev).
Proof. simpl. now destruct (respond w X h ev). Qed.

(** A computation only adds to the history. *)
Lemma run_extends {A : Type} (w : World) (p : Prog A) (h h' : list Label)
  (r : Result A) :
  run w h p = (h', r) -> exists new, h' = (h ++ new)%list.
Proof.
  revert h; induction p as [a|e|X ev k IH]; intros h H; simpl in H.
  - injection H as <- _. exists []. now rewrite app_nil_r.
  - injection H as <- _. exists []. now rewrite app_nil_r.
  - destruct (respond w X h ev) as [x|e].
    + destruct (IH x _ H) as [new ->]. rewrite <- app_assoc. now eexists.
    + injection H as <- _. now eexists.
Qed.

(** A computation that throws at once leaves the history as it was: no
    event at all has taken place. *)
Lemma run_throw {A : Type} (w : World) (e : ErrorKind) (h : list Label) :
  run w h (Throw e : Prog A) = (h, Err e).
Proof. reflexivity. Qed.

End ProgFacts.

(** C7.  When the client of the account has no chain, the [signUserOpHash]
    callback throws [ChainIdUnavailable] at once: in every world it leaves
    the history unchanged, so that no authentication ceremony and no other
    event has taken place. *)
Theorem signUserOpHash_without_chain (Signer : Type)
  (validatorAddress : Viem.Hex) (networks : list Z)
  (hexStringToUint8Array : string -> Result (list byte))
  (base64FromUint8Array : list byte -> bool -> Result string)
  (findQuoteIndices : string -> Result Utils.QuoteIndices)
  (key : WebAuthnKey) (account : NexusAccount Signer)
  (userOpHash : Viem.Hex) :
  clientChain Signer account = None ->
  signUserOpHashOf Signer networks hexStringToUint8Array base64FromUint8Array
  findQuoteIndices
    key account userOpHash = Throw ChainIdUnavailable
  /\ (forall (w : World) (h : list Label),
        run w h
          (signUserOpHashOf Signer networks hexStringToUint8Array
             base64FromUint8Array findQuoteIndices key account userOpHash)
        = (h, Err ChainIdUnavailable))
  /\ (forall m,
        toPasskeyValidator Signer validatorAddress networks
          hexStringToUint8Array base64FromUint8Array
          findQuoteIndices key account = Ok m ->
        forall (w : World) (h : list Label),
          run w h (signUserOpHash m userOpHash)
          = (h, Err ChainIdUnavailable)).
Proof.
  intros Hchain.
  assert (signUserOpHashOf Signer networks hexStringToUint8Array
            base64FromUint8Array findQuoteIndices key account userOpHash
          = Throw ChainIdUnavailable) as Hthrow.
  { unfold signUserOpHashOf. now rewrite Hchain. }
  split; [exact Hthrow|]. split.
  - intros w h. now rewrite Hthrow.
  - intros m Hm w h. unfold toPasskeyValidator in Hm.
    destruct (Viem.encodeAbiParameters _ _) as [data|e]; cbn [rbind] in Hm;
      [|discriminate].
    injection Hm as <-. cbn [signUserOpHash]. now rewrite Hthrow.
Qed.

Lemma signUserOpHash_without_chain_witness :
  clientChain unit Sample.accountWithoutChain = None
  /\ run (Sample.world true) []
       (signUserOpHashOf unit Sample.supportedNetworks
          Sample.hexStringToUint8Array Sample.base64FromUint8Array
          Sample.findQuoteIndices
          Sample.registeredKey Sample.accountWithoutChain Sample.userOpHash)
     = ([], Err ChainIdUnavailable).
Proof.
  split; [reflexivity|].
  exact (proj1 (proj2 (signUserOpHash_without_chain unit
                         Sample.validatorAddress Sample.supportedNetworks
                         Sample.hexStringToUint8Array
                         Sample.base64FromUint8Array
                         Sample.findQuoteIndices Sample.registeredKey
                         Sample.accountWithoutChain Sample.userOpHash
                         eq_refl))
           (Sample.world true) []).
Defined.

(** ** The credential flows *)

Module FlowFacts.

Lemma run_post (w : World) (params : WebAuthnAccountParams)
  (request : Request) (h : list Label) :
  let ev := Fetch request (requestHeaders params) (requestCredentials params) in
  run w h (post params request)
  = ((h ++ [Called ev (respond w _ h ev)])%list, respond w _ h ev).
Proof. apply ProgFacts.run_await. Qed.

(** [BigInt] of the digits of a byte array succeeds on a non-empty array
    only, with its big-endian value. *)
Lemma bigIntOfHex_bytesToHex (bs : list byte) (z : Z) :
  bigIntOfHex (Hex.bytesToHex bs) = Ok z -> z = Hex.beToZ bs /\ bs <> [].
Proof.
  unfold bigIntOfHex. destruct bs as [|b bs]; [discriminate|].
  rewrite HexFacts.parseDigits_bytesToHex by discriminate.
  intros H. injection H as <-. split; [reflexivity | discriminate].
Qed.

(** viem's [keccak256] on the hex text of a byte array is the digest of
    the array. *)
Lemma keccak256_uint8ArrayToHexString (bs : list byte) :
  Viem.keccak256 (Utils.uint8ArrayToHexString bs)
  = Ok (Viem.bytesToHex (Keccak.keccak256 bs)).
Proof.
  unfold Viem.keccak256, Viem.hexToBytes, Utils.uint8ArrayToHexString.
  change (Js.sliceFrom 2 ("0x" ++ Hex.bytesToHex bs))
    with (Hex.bytesToHex bs).
  rewrite HexFacts.length_bytesToHex.
  replace (Nat.even (2 * List.length bs)) with true.
  - now rewrite HexFacts.hexToBytes_bytesToHex.
  - symmetry. apply Nat.even_spec. now exists (List.length bs).
Qed.

(** What a successful run of the last part of [toWebAuthnKey] has done. *)
Lemma deriveKey_ok (w : World) (h h' : list Label) (pubKey : JsVal)
  (id : string) (key : WebAuthnKey) :
  run w h (deriveKey pubKey id) = (h', Ok key) ->
  exists idBytes spkiDer cryptoKey rawKey,
    truthy pubKey = true
    /\ Utils.b64ToBytes id = Ok idBytes
    /\ bufferFrom pubKey = Ok spkiDer
    /\ h' = (h ++ [Called (ImportKey spkiDer) (Ok cryptoKey);
                   Called (ExportKey cryptoKey) (Ok rawKey)])%list
    /\ pubX key = Hex.beToZ (subarray 1 33 rawKey)
    /\ pubY key = Hex.beToZ (skipn 33 rawKey)
    /\ authenticatorId key = id
    /\ authenticatorIdHash key = Viem.bytesToHex (Keccak.keccak256 idBytes).
Proof.
  unfold deriveKey.
  destruct (truthy pubKey) eqn:Ht; cbn [negb]; [|discriminate].
  destruct (id =? "")%string; [discriminate|].
  rewrite ProgFacts.run_bind, ProgFacts.run_lift.
  destruct (Utils.b64ToBytes id) as [idBytes|e]; [|discriminate].
  rewrite ProgFacts.run_bind, ProgFacts.run_lift.
  rewrite keccak256_uint8ArrayToHexString.
  rewrite ProgFacts.run_bind, ProgFacts.run_lift.
  destruct (bufferFrom pubKey) as [spkiDer|e]; [|discriminate].
  rewrite ProgFacts.run_bind, ProgFacts.run_await.
  destruct (respond w CryptoKey h (ImportKey spkiDer)) as [cryptoKey|e];
    [|discriminate].
  rewrite ProgFacts.run_bind, ProgFacts.run_await.
  destruct (respond w (list byte) _ (ExportKey cryptoKey)) as [rawKey|e];
    [|discriminate].
  rewrite ProgFacts.run_bind, ProgFacts.run_lift.
  destruct (bigIntOfHex (Hex.bytesToHex (subarray 1 33 rawKey)))
    as [x|e] eqn:Ex; [|discriminate].
  rewrite ProgFacts.run_bind, ProgFacts.run_lift.
  destruct (bigIntOfHex (Hex.bytesToHex (skipn 33 rawKey)))
    as [y|e] eqn:Ey; [|discriminate].
  cbn [run]. intros H. injection H as <- <-.
  apply bigIntOfHex_bytesToHex in Ex as [-> _].
  apply bigIntOfHex_bytesToHex in Ey as [-> _].
  exists idBytes, spkiDer, cryptoKey, rawKey.
  rewrite <- app_assoc. cbn [pubX pubY authenticatorId authenticatorIdHash].
  repeat split; reflexivity.
Qed.

(** A successful run that was not given a key has gone through one of the
    two flows and then through [deriveKey]. *)
Lemma toWebAuthnKey_ok (w : World) (h h' : list Label)
  (params : WebAuthnAccountParams) (key : WebAuthnKey) :
  webAuthnKey params = None ->
  run w h (toWebAuthnKey params) = (h', Ok key) ->
  exists h0 pubKey id,
    run w h0 (deriveKey pubKey id) = (h', Ok key).
Proof.
  intros Hnone. unfold toWebAuthnKey. rewrite Hnone.
  rewrite ProgFacts.run_bind.
  destruct (run w h _) as [h0 [[pubKey id]|e]]; [|discriminate].
  intros H. now exists h0, pubKey, id.
Qed.

(** Without a key, [toWebAuthnKey] is its branch followed by
    [deriveKey]. *)
Lemma toWebAuthnKey_branch (params : WebAuthnAccountParams) :
  webAuthnKey params = None ->
  toWebAuthnKey params
  = bind (Trace.branch params) (fun flow => deriveKey (fst flow) (snd flow)).
Proof.
  intros Hnone. unfold toWebAuthnKey, Trace.branch. now rewrite Hnone.
Qed.

(** The two answers of the platform in a successful run of [deriveKey]. *)
Lemma deriveKey_platform (w : World) (h h' : list Label) (pubKey : JsVal)
  (id : string) (key : WebAuthnKey) :
  run w h (deriveKey pubKey id) = (h', Ok key) ->
  exists spkiDer cryptoKey rawKey,
    bufferFrom pubKey = Ok spkiDer
    /\ respond w _ h (ImportKey spkiDer) = Ok cryptoKey
    /\ respond w _ (h ++ [Called (ImportKey spkiDer) (Ok cryptoKey)])%list
         (ExportKey cryptoKey) = Ok rawKey
    /\ h' = (h ++ Trace.derivation spkiDer cryptoKey rawKey)%list
    /\ pubX key = Hex.beToZ (subarray 1 33 rawKey)
    /\ pubY key = Hex.beToZ (skipn 33 rawKey).
Proof.
  unfold deriveKey.
  destruct (truthy pubKey); cbn [negb]; [|discriminate].
  destruct (id =? "")%string; [discriminate|].
  rewrite ProgFacts.run_bind, ProgFacts.run_lift.
  destruct (Utils.b64ToBytes id) as [idBytes|e]; [|discriminate].
  rewrite ProgFacts.run_bind, ProgFacts.run_lift.
  rewrite keccak256_uint8ArrayToHexString.
  rewrite ProgFacts.run_bind, ProgFacts.run_lift.
  destruct (bufferFrom pubKey) as [spkiDer|e]; [|discriminate].
  rewrite ProgFacts.run_bind, ProgFacts.run_await.
  destruct (respond w CryptoKey h (ImportKey spkiDer))
    as [cryptoKey|e] eqn:Himport; [|discriminate].
  rewrite ProgFacts.run_bind, ProgFacts.run_await.
  destruct (respond w (list byte) _ (ExportKey cryptoKey))
    as [rawKey|e] eqn:Hexport; [|discriminate].
  rewrite ProgFacts.run_bind, ProgFacts.run_lift.
  destruct (bigIntOfHex (Hex.bytesToHex (subarray 1 33 rawKey)))
    as [x|e] eqn:Ex; [|discriminate].
  rewrite ProgFacts.run_bind, ProgFacts.run_lift.
  destruct (bigIntOfHex (Hex.bytesToHex (skipn 33 rawKey)))
    as [y|e] eqn:Ey; [|discriminate].
  cbn [run]. intros H. injection H as <- <-.
  apply bigIntOfHex_bytesToHex in Ex as [-> _].
  apply bigIntOfHex_bytesToHex in Ey as [-> _].
  exists spkiDer, cryptoKey, rawKey.
  unfold Trace.derivation. rewrite <- app_assoc. cbn [pubX pubY].
  repeat split; reflexivity || assumption.
Qed.

(** A successful run whose branch has left the base64 text [spki] in
    [pubKey]: the platform has imported the decoded text and exported a
    raw key, from which the coordinates are read. *)
Lemma derived_from_spki (w : World) (h h0 h' : list Label)
  (params : WebAuthnAccountParams) (spki id : string) (key : WebAuthnKey) :
  webAuthnKey params = None ->
  run w h (Trace.branch params) = (h0, Ok (JStr spki, id)) ->
  run w h (toWebAuthnKey params) = (h', Ok key) ->
  exists cryptoKey rawKey,
    respond w _ h0 (ImportKey (Base64.bufferFromBase64 spki)) = Ok cryptoKey
    /\ respond w _
         (h0 ++ [Called (ImportKey (Base64.bufferFromBase64 spki))
                   (Ok cryptoKey)])%list
         (ExportKey cryptoKey) = Ok rawKey
    /\ h' = (h0 ++ Trace.derivation (Base64.bufferFromBase64 spki)
                     cryptoKey rawKey)%list
    /\ pubX key = Hex.beToZ (subarray 1 33 rawKey)
    /\ pubY key = Hex.beToZ (skipn 33 rawKey).
Proof.
  intros Hnone Hbranch. rewrite (toWebAuthnKey_branch params Hnone).
  rewrite ProgFacts.run_bind, Hbranch. cbn [fst snd]. intros Hderive.
  destruct (deriveKey_platform w h0 h' _ _ key Hderive)
    as (spkiDer & cryptoKey & rawKey & Hbuf & Himport & Hexport & Hh
        & Hx & Hy).
  cbn [bufferFrom] in Hbuf. apply ResultFacts.ok_inj in Hbuf. subst spkiDer.
  exists cryptoKey, rawKey.
  split; [exact Himport|]. split; [exact Hexport|]. split; [exact Hh|].
  split; [exact Hx | exact Hy].
Qed.

End FlowFacts.

Module ListFacts.

Lemma firstn_length_app {A : Type} (a b : list A) :
  firstn (List.length a) (a ++ b) = a.
Proof. induction a as [|x a IH]; simpl; [reflexivity | now rewrite IH]. Qed.

Lemma skipn_length_app {A : Type} (a b : list A) :
  skipn (List.length a) (a ++ b) = b.
Proof. induction a as [|x a IH]; simpl; [reflexivity | exact IH]. Qed.

End ListFacts.

(** ** The coordinates of a raw key *)

Module DerivationFacts.

(** The coordinates of an uncompressed point, and the point of its
    coordinates. *)
Lemma coordinatesOf_uncompressed (xs ys : list byte) :
  List.length xs = 32%nat -> List.length ys = 32%nat ->
  Reference.coordinatesOf (x04 :: xs ++ ys) = (Hex.beToZ xs, Hex.beToZ ys)
  /\ Reference.rawUncompressed (Hex.beToZ xs) (Hex.beToZ ys)
     = (x04 :: xs ++ ys)%list.
Proof.
  intros Hxs Hys. split.
  - unfold Reference.coordinatesOf, subarray.
    change (firstn (33 - 1) (skipn 1 (x04 :: xs ++ ys)))
      with (firstn 32 (xs ++ ys)).
    change (skipn 33 (x04 :: xs ++ ys)) with (skipn 32 (xs ++ ys)).
    rewrite <- Hxs.
    now rewrite ListFacts.firstn_length_app, ListFacts.skipn_length_app.
  - unfold Reference.rawUncompressed.
    rewrite <- Hxs at 1. rewrite <- Hys.
    now rewrite !ReferenceFacts.bytesBE_beToZ.
Qed.

(** What the scripted WebCrypto exports. *)
Lemma platform_exportsRaw : Trace.exportsRaw Scenario.platform (skipn 26).
Proof.
  intros h spkiDer key rawKey _ Hexport.
  cbn [respond Scenario.platform Scenario.platformAnswer] in Hexport.
  unfold Scenario.importedJustNow in Hexport.
  rewrite rev_unit in Hexport.
  apply ResultFacts.ok_inj in Hexport. now subst rawKey.
Qed.

End DerivationFacts.

(** C4.  Let [toWebAuthnKey], not given a key, run to a key after its
    branch (registration or login) has left the base64 text [spki] of an
    SPKI encoding in [pubKey].  Then the run ends with the import of the
    bytes that [spki] decodes to and the raw export of the imported key,
    and [(pubX, pubY)] are bytes 1 to 33 and the bytes from 33 on of the
    exported raw key.  The pair is a function of [spki]: when the raw
    export of the platform is a function [rawOf] of the imported encoding,
    the pair is read off [rawOf] of the decoded text, and every other run,
    in any world with the same [rawOf], from any history and with any
    parameters, whose branch leaves the same [spki] returns the same pair.
    When the raw key is the uncompressed point [0x04 || X || Y] with 32
    bytes each, [pubX] and [pubY] are the values of [X] and [Y], and
    encoding them back to the raw uncompressed form gives the raw key
    again. *)
Theorem publicKey_derivation (w : World) (h h0 h' : list Label)
  (params : WebAuthnAccountParams) (spki id : string) (key : WebAuthnKey) :
  webAuthnKey params = None ->
  run w h (Trace.branch params) = (h0, Ok (JStr spki, id)) ->
  run w h (toWebAuthnKey params) = (h', Ok key) ->
  exists cryptoKey rawKey,
    h' = (h0 ++ Trace.derivation (Base64.bufferFromBase64 spki)
                  cryptoKey rawKey)%list
    /\ (pubX key, pubY key) = Reference.coordinatesOf rawKey
    /\ (forall rawOf : list byte -> list byte,
          Trace.exportsRaw w rawOf ->
          rawKey = rawOf (Base64.bufferFromBase64 spki)
          /\ (pubX key, pubY key)
             = Reference.coordinatesOf
                 (rawOf (Base64.bufferFromBase64 spki))
          /\ forall (w2 : World) (h2 h02 h2' : list Label)
                    (params2 : WebAuthnAccountParams) (id2 : string)
                    (key2 : WebAuthnKey),
               Trace.exportsRaw w2 rawOf ->
               webAuthnKey params2 = None ->
               run w2 h2 (Trace.branch params2)
               = (h02, Ok (JStr spki, id2)) ->
               run w2 h2 (toWebAuthnKey params2) = (h2', Ok key2) ->
               (pubX key2, pubY key2) = (pubX key, pubY key))
    /\ (forall xs ys : list byte,
          rawKey = (x04 :: xs ++ ys)%list ->
          List.length xs = 32%nat -> List.length ys = 32%nat ->
          pubX key = Hex.beToZ xs /\ pubY key = Hex.beToZ ys
          /\ Reference.rawUncompressed (pubX key) (pubY key) = rawKey).
Proof.
  intros Hnone Hbranch Hrun.
  destruct (FlowFacts.derived_from_spki w h h0 h' params spki id key
              Hnone Hbranch Hrun)
    as (cryptoKey & rawKey & Himport & Hexport & Hh & Hx & Hy).
  assert ((pubX key, pubY key) = Reference.coordinatesOf rawKey) as Hpair.
  { unfold Reference.coordinatesOf. now rewrite Hx, Hy. }
  exists cryptoKey, rawKey.
  split; [exact Hh|]. split; [exact Hpair|]. split.
  - intros rawOf Hw.
    assert (rawKey = rawOf (Base64.bufferFromBase64 spki)) as Hraw
      by exact (Hw _ _ _ _ Himport Hexport).
    split; [exact Hraw|]. split; [now rewrite <- Hraw|].
    intros w2 h2 h02 h2' params2 id2 key2 Hw2 Hnone2 Hbranch2 Hrun2.
    destruct (FlowFacts.derived_from_spki w2 h2 h02 h2' params2 spki id2
                key2 Hnone2 Hbranch2 Hrun2)
      as (cryptoKey2 & rawKey2 & Himport2 & Hexport2 & _ & Hx2 & Hy2).
    assert (rawKey2 = rawOf (Base64.bufferFromBase64 spki)) as Hraw2
      by exact (Hw2 _ _ _ _ Himport2 Hexport2).
    rewrite Hx, Hy, Hx2, Hy2, Hraw, Hraw2. reflexivity.
  - intros xs ys Hraw Hxs Hys.
    destruct (DerivationFacts.coordinatesOf_uncompressed xs ys Hxs Hys)
      as [Hcoord Hback].
    rewrite Hraw, Hcoord in Hpair.
    assert (pubX key = Hex.beToZ xs) as Hpx
      by exact (f_equal fst Hpair).
    assert (pubY key = Hex.beToZ ys) as Hpy
      by exact (f_equal snd Hpair).
    split; [exact Hpx|]. split; [exact Hpy|].
    rewrite Hpx, Hpy, Hraw. exact Hback.
Qed.

Lemma publicKey_derivation_witness :
  exists h0 h' : list Label,
    webAuthnKey Sample.registerParams = None
    /\ run Scenario.platform [] (Trace.branch Sample.registerParams)
       = (h0, Ok (JStr Sample.spkiBase64, "AQIDBA"))
    /\ run Scenario.platform [] (toWebAuthnKey Sample.registerParams)
       = (h', Ok Sample.registeredKey)
    /\ Trace.exportsRaw Scenario.platform (skipn 26)
    /\ (pubX Sample.registeredKey, pubY Sample.registeredKey)
       = Reference.coordinatesOf
           (skipn 26 (Base64.bufferFromBase64 Sample.spkiBase64))
    /\ Reference.rawUncompressed (pubX Sample.registeredKey)
         (pubY Sample.registeredKey)
       = skipn 26 (Base64.bufferFromBase64 Sample.spkiBase64)
    /\ exists (h2' : list Label) (key2 : WebAuthnKey),
         run Scenario.platform [] (toWebAuthnKey Scenario.loginParams)
         = (h2', Ok key2)
         /\ (pubX key2, pubY key2)
            = (pubX Sample.registeredKey, pubY Sample.registeredKey).
Proof.
  destruct (run Scenario.platform [] (Trace.branch Sample.registerParams))
    as [h0 r0] eqn:Hbranch.
  assert (r0 = Ok (JStr Sample.spkiBase64, "AQIDBA")) as ->.
  { change r0 with (snd (h0, r0)). rewrite <- Hbranch.
    vm_compute. reflexivity. }
  destruct (run Scenario.platform [] (toWebAuthnKey Sample.registerParams))
    as [h' r] eqn:Hrun.
  assert (r = Ok Sample.registeredKey) as ->.
  { change r with (snd (h', r)). rewrite <- Hrun. vm_compute. reflexivity. }
  destruct (run Scenario.platform [] (Trace.branch Scenario.loginParams))
    as [h02 r02] eqn:Hbranch2.
  assert (r02 = Ok (JStr Sample.spkiBase64, "AQIDBA")) as ->.
  { change r02 with (snd (h02, r02)). rewrite <- Hbranch2.
    vm_compute. reflexivity. }
  destruct (run Scenario.platform [] (toWebAuthnKey Scenario.loginParams))
    as [h2' r2] eqn:Hrun2.
  destruct r2 as [key2|e];
    [|apply (f_equal snd) in Hrun2; vm_compute in Hrun2; discriminate].
  exists h0, h'.
  destruct (publicKey_derivation Scenario.platform [] h0 h'
              Sample.registerParams Sample.spkiBase64 "AQIDBA"
              Sample.registeredKey eq_refl Hbranch Hrun)
    as (cryptoKey & rawKey & _ & _ & Hfun & Hround).
  destruct (Hfun (skipn 26) DerivationFacts.platform_exportsRaw)
    as (Hraw & Hpair & Hsame).
  split; [reflexivity|]. split; [reflexivity|]. split; [reflexivity|].
  split; [exact DerivationFacts.platform_exportsRaw|]. split; [exact Hpair|].
  split.
  - rewrite <- Hraw.
    apply (Hround
             (firstn 32
                (skipn 27 (Base64.bufferFromBase64 Sample.spkiBase64)))
             (skipn 59 (Base64.bufferFromBase64 Sample.spkiBase64))).
    + rewrite Hraw. vm_compute. reflexivity.
    + vm_compute. reflexivity.
    + vm_compute. reflexivity.
  - exists h2', key2. split; [reflexivity|].
    exact (Hsame Scenario.platform [] h02 h2' Scenario.loginParams
             "AQIDBA" key2 DerivationFacts.platform_exportsRaw eq_refl
             Hbranch2 Hrun2).
Defined.

(** C2, as the code has it.  A key that the caller supplies is returned
    as it is, without any event.  A key that [toWebAuthnKey] derives from a
    registration or a login has as [authenticatorIdHash] the keccak-256
    digest of the bytes that its [authenticatorId] decodes to as
    base64url; for the authenticator id [AQIDBA] these are the bytes
    [0x01020304]. *)
Theorem authenticatorIdHash_of_derived_key (w : World) (h : list Label)
  (params : WebAuthnAccountParams) :
  (forall supplied,
      webAuthnKey params = Some supplied ->
      run w h (toWebAuthnKey params) = (h, Ok supplied))
  /\ (webAuthnKey params = None ->
      forall h' key,
        run w h (toWebAuthnKey params) = (h', Ok key) ->
        (exists idBytes,
            Utils.b64ToBytes (authenticatorId key) = Ok idBytes
            /\ authenticatorIdHash key
               = Viem.bytesToHex (Keccak.keccak256 idBytes))
        /\ (authenticatorId key = "AQIDBA" ->
            authenticatorIdHash key
            = Viem.bytesToHex (Keccak.keccak256 [x01; x02; x03; x04]))).
Proof.
  split.
  - intros supplied Hs. unfold toWebAuthnKey. now rewrite Hs.
  - intros Hnone h' key Hrun.
    destruct (FlowFacts.toWebAuthnKey_ok w h h' params key Hnone Hrun)
      as (h0 & pubKey & id & Hderive).
    destruct (FlowFacts.deriveKey_ok w h0 h' pubKey id key Hderive)
      as (idBytes & _ & _ & _ & _ & Hid & _ & _ & _ & _ & <- & Hhash).
    split.
    + now exists idBytes.
    + intros Heq. rewrite Heq in Hid.
      vm_compute in Hid. injection Hid as <-. exact Hhash.
Qed.

Lemma authenticatorIdHash_of_derived_key_witness :
  webAuthnKey Sample.registerParams = None
  /\ run (Sample.world true) [] (toWebAuthnKey Sample.registerParams)
     = (Sample.registrationHistory, Ok Sample.registeredKey)
  /\ authenticatorId Sample.registeredKey = "AQIDBA"
  /\ authenticatorIdHash Sample.registeredKey
     = Viem.bytesToHex (Keccak.keccak256 [x01; x02; x03; x04]).
Proof.
  split; [reflexivity|]. split; [vm_compute; reflexivity|].
  split; [reflexivity|].
  apply (proj2 (authenticatorIdHash_of_derived_key (Sample.world true) []
                  Sample.registerParams)
           eq_refl Sample.registrationHistory Sample.registeredKey).
  - vm_compute. reflexivity.
  - reflexivity.
Defined.

(** C2 as stated fails on the path of reuse: a supplied key whose hash is
    the digest of other bytes is returned unchanged, although its
    authenticator id decodes to [0x01020304]. *)
Lemma authenticatorIdHash_not_checked_on_reuse :
  run Sample.offline [] (toWebAuthnKey Sample.reuseParams)
  = ([], Ok Sample.staleKey)
  /\ Utils.b64ToBytes (authenticatorId Sample.staleKey)
     = Ok [x01; x02; x03; x04]
  /\ authenticatorIdHash Sample.staleKey
     <> Viem.bytesToHex (Keccak.keccak256 [x01; x02; x03; x04]).
Proof.
  split; [reflexivity|]. split; [reflexivity|].
  vm_compute. discriminate.
Qed.

(** C8.  In a registration (no key supplied, mode not login) in which the
    server answers the options request and the verify request, the
    ceremony returns a credential, and the [verified] field of the verify
    response is [false] (or any other falsy value), [toWebAuthnKey] fails
    with [RegistrationNotVerified]; the events are the two requests and
    the ceremony between them, and no key is imported or exported; no key
    is returned. *)
Theorem registration_not_verified (w : World) (h : list Label)
  (params : WebAuthnAccountParams) (registerOptions options userId : JsVal)
  (cred : RegistrationResponseJSON) (verifyResult verified : JsVal) :
  let optionsCall :=
    Fetch (RegisterOptionsRequest (passkeyName params) (rpID params))
      (requestHeaders params) (requestCredentials params) in
  let verifyCall :=
    Fetch (RegisterVerifyRequest userId (passkeyName params) cred
             (rpID params))
      (requestHeaders params) (requestCredentials params) in
  let h1 := (h ++ [Called optionsCall (Ok registerOptions)])%list in
  let h2 := (h1 ++ [Called (StartRegistration options) (Ok cred)])%list in
  let h3 := (h2 ++ [Called verifyCall (Ok verifyResult)])%list in
  webAuthnKey params = None ->
  mode params <> Some Login ->
  respond w _ h optionsCall = Ok registerOptions ->
  getProp "options" registerOptions = Ok options ->
  getProp "userId" registerOptions = Ok userId ->
  respond w _ h1 (StartRegistration options) = Ok cred ->
  respond w _ h2 verifyCall = Ok verifyResult ->
  getProp "verified" verifyResult = Ok verified ->
  truthy verified = false ->
  run w h (toWebAuthnKey params) = (h3, Err RegistrationNotVerified)
  /\ existsb isKeyDerivation
       [Called optionsCall (Ok registerOptions);
        Called (StartRegistration options) (Ok cred);
        Called verifyCall (Ok verifyResult)] = false.
Proof.
  intros optionsCall verifyCall h1 h2 h3
    Hnone Hmode Hopt Hoptions HuserId Hcred Hver Hverified Hfalsy.
  split; [|reflexivity].
  unfold toWebAuthnKey. rewrite Hnone.
  assert (match mode params with
          | Some Login => loginFlow params
          | _ => registerFlow params
          end = registerFlow params) as ->.
  { destruct (mode params) as [[|]|]; try reflexivity. now elim Hmode. }
  rewrite ProgFacts.run_bind. unfold registerFlow.
  rewrite ProgFacts.run_bind, FlowFacts.run_post.
  fold optionsCall. rewrite Hopt. fold h1.
  rewrite ProgFacts.run_bind, ProgFacts.run_lift, Hoptions.
  rewrite ProgFacts.run_bind, ProgFacts.run_await, Hcred. fold h2.
  rewrite ProgFacts.run_bind, ProgFacts.run_lift, HuserId.
  rewrite ProgFacts.run_bind, FlowFacts.run_post.
  fold verifyCall. rewrite Hver. fold h3.
  rewrite ProgFacts.run_bind, ProgFacts.run_lift, Hverified.
  rewrite Hfalsy. reflexivity.
Qed.

Lemma registration_not_verified_witness :
  webAuthnKey Sample.registerParams = None
  /\ mode Sample.registerParams <> Some Login
  /\ getProp "verified" (Sample.registerVerifyResult false) = Ok (JBool false)
  /\ truthy (JBool false) = false
  /\ snd (run (Sample.world false) [] (toWebAuthnKey Sample.registerParams))
     = Err RegistrationNotVerified.
Proof.
  split; [reflexivity|]. split; [discriminate|].
  split; [reflexivity|]. split; [reflexivity|].
  rewrite (proj1 (registration_not_verified (Sample.world false) []
                    Sample.registerParams Sample.registerOptions
                    Sample.ceremonyOptions (JStr "user-1")
                    Sample.registrationResponse
                    (Sample.registerVerifyResult false) (JBool false)
                    eq_refl ltac:(discriminate) eq_refl eq_refl eq_refl
                    eq_refl eq_refl eq_refl eq_refl)).
  reflexivity.
Defined.

(** ** The signing function *)

Module SignatureFacts.

Import Reference.

Lemma abiWord_prefixed (i : nat) (s : string) :
  abiWord i ("0x" ++ s) = substring (64 * i) 64 s.
Proof. reflexivity. Qed.

Lemma substring_joinWords (words : list string) (rest : string) (i : nat) :
  Forall (fun d => String.length d = 64%nat) words ->
  (i < List.length words)%nat ->
  substring (64 * i) 64 (joinWords words rest) = nth i words "".
Proof.
  intros Hall. revert i.
  induction Hall as [|d words Hd Hall IH]; intros i Hi; [simpl in Hi; lia|].
  cbn [joinWords fold_right]. fold (joinWords words rest).
  destruct i as [|i].
  - rewrite Nat.mul_0_r, <- Hd. apply JsFacts.substring_0_append.
  - replace (64 * S i)%nat with (String.length d + 64 * i)%nat by lia.
    rewrite JsFacts.substring_skip_add. cbn [nth]. apply IH.
    simpl in Hi. lia.
Qed.

Lemma encodeNumber_inv (z : Z) (p : Viem.Prepared) :
  Viem.encodeNumber z = Ok p ->
  p = {| Viem.dynamic := false; Viem.encoded := "0x" ++ wordOfNumber z |}.
Proof.
  unfold Viem.encodeNumber.
  destruct (Viem.numberToHex 32 z) as [hx|e] eqn:E; [|discriminate].
  apply ViemFacts.numberToHex_inv in E as [_ ->]; [|lia].
  cbn [rbind]. intros H.
  remember ("0x" ++ Hex.fixedHex (32 * 2) z) as e eqn:He.
  injection H as <-. subst e. reflexivity.
Qed.

Lemma encodeBool_eq (b : bool) :
  Viem.encodeBool b
  = Ok {| Viem.dynamic := false; Viem.encoded := "0x" ++ wordOfBool b |}.
Proof. destruct b; vm_compute; reflexivity. Qed.

Lemma encodeBytes_dynamic (value : Viem.Hex) (p : Viem.Prepared) :
  Viem.encodeBytes None value = Ok p -> Viem.dynamic p = true.
Proof.
  unfold Viem.encodeBytes.
  destruct (if _ : bool then _ else _) as [v|e]; [|discriminate].
  cbn [rbind].
  destruct (Viem.numberToHex _ _) as [l|e]; [|discriminate]. cbn [rbind].
  destruct (Viem.padHex _ _ _) as [l'|e]; [|discriminate]. cbn [rbind].
  intros H. now injection H as <-.
Qed.

Lemma encodeString_dynamic (value : string) (p : Viem.Prepared) :
  Viem.encodeString value = Ok p -> Viem.dynamic p = true.
Proof.
  unfold Viem.encodeString.
  destruct (Viem.stringParts _ _ _) as [parts|e]; [|discriminate].
  cbn [rbind].
  destruct (Viem.numberToHex _ _) as [l|e]; [|discriminate]. cbn [rbind].
  destruct (Viem.padHex _ _ _) as [l'|e]; [|discriminate]. cbn [rbind].
  intros H. now injection H as <-.
Qed.

Lemma length_wordOfNumber (z : Z) : String.length (wordOfNumber z) = 64%nat.
Proof. apply HexFacts.length_fixedHex. Qed.

(** The layout of an encoded signature: two offsets, then the words of
    the response type location, of [r], of [s] and of the flag. *)
Lemma encode_signature_layout (authenticatorDataHex : Viem.Hex)
  (clientData : string) (location r s : Z) (flag : bool) (sig : Viem.Hex) :
  Viem.encodeAbiParameters signatureParams
    [Viem.VHex authenticatorDataHex; Viem.VString clientData;
     Viem.VBigInt location; Viem.VBigInt r; Viem.VBigInt s; Viem.VBool flag]
  = Ok sig ->
  exists offset1 offset2 rest,
    sig = "0x" ++ joinWords
                    [wordOfNumber offset1; wordOfNumber offset2;
                     wordOfNumber location; wordOfNumber r; wordOfNumber s;
                     wordOfBool flag] rest.
Proof.
  unfold Viem.encodeAbiParameters, signatureParams.
  cbn [List.length Nat.eqb negb Viem.prepareParams Viem.prepareParam].
  destruct (Viem.encodeBytes None authenticatorDataHex) as [[d1 e1]|e] eqn:E1;
    [|discriminate].
  apply encodeBytes_dynamic in E1. cbn [Viem.dynamic] in E1. subst d1.
  cbn [rbind].
  destruct (Viem.encodeString clientData) as [[d2 e2]|e] eqn:E2;
    [|discriminate].
  apply encodeString_dynamic in E2. cbn [Viem.dynamic] in E2. subst d2.
  cbn [rbind].
  destruct (Viem.encodeNumber location) as [p3|e] eqn:E3; [|discriminate].
  apply encodeNumber_inv in E3. subst p3. cbn [rbind].
  destruct (Viem.encodeNumber r) as [p4|e] eqn:E4; [|discriminate].
  apply encodeNumber_inv in E4. subst p4. cbn [rbind].
  destruct (Viem.encodeNumber s) as [p5|e] eqn:E5; [|discriminate].
  apply encodeNumber_inv in E5. subst p5. cbn [rbind].
  rewrite encodeBool_eq. cbn [rbind].
  unfold Viem.encodeParams.
  cbn [Viem.encodeParamsLoop Viem.dynamic Viem.encoded].
  destruct (Viem.numberToHex 32 _) as [h1|e] eqn:H1; [|discriminate].
  apply ViemFacts.numberToHex_inv in H1 as [_ ->]; [|lia].
  cbn [rbind].
  destruct (Viem.numberToHex 32 _) as [h2|e] eqn:H2; [|discriminate].
  apply ViemFacts.numberToHex_inv in H2 as [_ ->]; [|lia].
  cbn [rbind fst snd app].
  intros H. apply ResultFacts.ok_inj in H. subst sig.
  rewrite !ViemFacts.concatHex_cons, !ViemFacts.stripPrefix_0x.
  unfold joinWords, wordOfBool, wordOfNumber. cbn [fold_right].
  change (32 * 2)%nat with 64%nat.
  do 3 eexists. reflexivity.
Qed.

End SignatureFacts.

Module SigningFacts.

(** What a successful run of [signMessageUsingWebAuthn] has done: one
    authentication ceremony, and the signature encoded from its answer. *)
Lemma signMessage_ok (networks : list Z)
  (hexStringToUint8Array : string -> Result (list byte))
  (base64FromUint8Array : list byte -> bool -> Result string)
  (findQuoteIndices : string -> Result Utils.QuoteIndices)
  (w : World) (h h' : list Label) (message : JsVal) (chainId : Z)
  (allowCredentials : option (list CredentialDescriptor)) (sig : Viem.Hex) :
  run w h
    (signMessageUsingWebAuthn networks hexStringToUint8Array
       base64FromUint8Array findQuoteIndices message chainId allowCredentials)
  = (h', Ok sig) ->
  exists content challenge cred authenticatorDataBytes clientData indices
         signatureBytes rs,
    messageContentOf message = Ok content
    /\ h' = (h ++ [Called
                     (StartAuthentication
                        (AssertionOptions challenge allowCredentials
                           "required")) (Ok cred)])%list
    /\ Utils.b64ToBytes (authenticatorData cred) = Ok authenticatorDataBytes
    /\ Base64.atob (clientDataJSON cred) = Some clientData
    /\ findQuoteIndices clientData = Ok indices
    /\ Utils.b64ToBytes (signature cred) = Ok signatureBytes
    /\ Utils.parseAndNormalizeSig
         (Utils.uint8ArrayToHexString signatureBytes) = Ok rs
    /\ Viem.encodeAbiParameters signatureParams
         [Viem.VHex (Utils.uint8ArrayToHexString authenticatorDataBytes);
          Viem.VString clientData;
          Viem.VBigInt (Utils.beforeType indices);
          Viem.VBigInt (fst rs);
          Viem.VBigInt (snd rs);
          Viem.VBool (Utils.isRIP7212SupportedNetwork networks chainId)]
       = Ok sig.
Proof.
  unfold signMessageUsingWebAuthn.
  rewrite ProgFacts.run_bind, ProgFacts.run_lift.
  destruct (messageContentOf message) as [content|e] eqn:Econtent;
    [|discriminate].
  rewrite ProgFacts.run_bind, ProgFacts.run_lift.
  destruct (hexStringToUint8Array _) as [challengeBytes|e]; [|discriminate].
  rewrite ProgFacts.run_bind, ProgFacts.run_lift.
  destruct (base64FromUint8Array _ _) as [challenge|e]; [|discriminate].
  rewrite ProgFacts.run_bind, ProgFacts.run_await.
  destruct (respond w _ h _) as [cred|e]; [|discriminate].
  rewrite ProgFacts.run_bind, ProgFacts.run_lift.
  destruct (Utils.b64ToBytes (authenticatorData cred)) as [adBytes|e] eqn:Ead;
    [|discriminate].
  rewrite ProgFacts.run_bind, ProgFacts.run_lift.
  destruct (Base64.atob (clientDataJSON cred)) as [clientData|] eqn:Eatob;
    [|discriminate].
  cbn [ofOption].
  rewrite ProgFacts.run_bind, ProgFacts.run_lift.
  destruct (findQuoteIndices clientData) as [indices|e] eqn:Efind;
    [|discriminate].
  rewrite ProgFacts.run_bind, ProgFacts.run_lift.
  destruct (Utils.b64ToBytes (signature cred)) as [sigBytes|e] eqn:Esig;
    [|discriminate].
  rewrite ProgFacts.run_bind, ProgFacts.run_lift.
  destruct (Utils.parseAndNormalizeSig _) as [rs|e] eqn:Ers; [|discriminate].
  rewrite ProgFacts.run_lift.
  intros H.
  assert (h' = (h ++ [Called
                        (StartAuthentication
                           (AssertionOptions challenge allowCredentials
                              "required")) (Ok cred)])%list) as Hh
    by congruence.
  assert (Viem.encodeAbiParameters signatureParams
            [Viem.VHex (Utils.uint8ArrayToHexString adBytes);
             Viem.VString clientData;
             Viem.VBigInt (Utils.beforeType indices);
             Viem.VBigInt (fst rs);
             Viem.VBigInt (snd rs);
             Viem.VBool (Utils.isRIP7212SupportedNetwork networks chainId)]
          = Ok sig) as Hsig by congruence.
  exists content, challenge, cred, adBytes, clientData, indices, sigBytes, rs.
  repeat (split; [assumption || reflexivity|]). exact Hsig.
Qed.

Lemma isRIP7212SupportedNetwork_spec (networks : list Z) (chainId : Z) :
  Utils.isRIP7212SupportedNetwork networks chainId = true
  <-> In chainId networks.
Proof.
  unfold Utils.isRIP7212SupportedNetwork. rewrite existsb_exists. split.
  - intros (x & Hin & Heq). apply Z.eqb_eq in Heq. now subst x.
  - intros Hin. exists chainId. split; [exact Hin | apply Z.eqb_refl].
Qed.

End SigningFacts.

(** C6.  In every signature that the signing function returns, the word
    of [usePrecompiled] (the sixth word of the ABI encoding) is the word of
    [true] exactly when the chain id is a member of the allow-list, and
    the word of [false] exactly when it is not. *)
Theorem usePrecompiled_follows_allow_list (networks : list Z)
  (hexStringToUint8Array : string -> Result (list byte))
  (base64FromUint8Array : list byte -> bool -> Result string)
  (findQuoteIndices : string -> Result Utils.QuoteIndices)
  (w : World) (h h' : list Label) (message : JsVal) (chainId : Z)
  (allowCredentials : option (list CredentialDescriptor)) (sig : Viem.Hex) :
  run w h
    (signMessageUsingWebAuthn networks hexStringToUint8Array
       base64FromUint8Array findQuoteIndices message chainId allowCredentials)
  = (h', Ok sig) ->
  Reference.abiWord 5 sig
  = Reference.wordOfBool
      (Utils.isRIP7212SupportedNetwork networks chainId)
  /\ (Reference.abiWord 5 sig = Reference.wordOfBool true
      <-> In chainId networks)
  /\ (Reference.abiWord 5 sig = Reference.wordOfBool false
      <-> ~ In chainId networks).
Proof.
  intros Hrun.
  destruct (SigningFacts.signMessage_ok _ _ _ _ _ _ _ _ _ _ _ Hrun)
    as (content & challenge & cred & adBytes & clientData & indices
        & sigBytes & rs & _ & _ & _ & _ & _ & _ & _ & Hsig).
  destruct (SignatureFacts.encode_signature_layout _ _ _ _ _ _ _ Hsig)
    as (o1 & o2 & rest & ->).
  assert (Reference.abiWord 5
            ("0x" ++ Reference.joinWords
                       [Reference.wordOfNumber o1; Reference.wordOfNumber o2;
                        Reference.wordOfNumber (Utils.beforeType indices);
                        Reference.wordOfNumber (fst rs);
                        Reference.wordOfNumber (snd rs);
                        Reference.wordOfBool
                          (Utils.isRIP7212SupportedNetwork networks chainId)]
                       rest)
          = Reference.wordOfBool
              (Utils.isRIP7212SupportedNetwork networks chainId)) as Hword.
  { rewrite SignatureFacts.abiWord_prefixed.
    rewrite SignatureFacts.substring_joinWords; [reflexivity | | simpl; lia].
    repeat constructor; apply SignatureFacts.length_wordOfNumber. }
  split; [exact Hword|]. rewrite Hword.
  pose proof (SigningFacts.isRIP7212SupportedNetwork_spec networks chainId)
    as Hspec.
  destruct (Utils.isRIP7212SupportedNetwork networks chainId).
  - split; split.
    + intros _. now apply Hspec.
    + reflexivity.
    + intros Habs. vm_compute in Habs. discriminate.
    + intros Hnot. elim Hnot. now apply Hspec.
  - split; split.
    + intros Habs. vm_compute in Habs. discriminate.
    + intros Hin. apply Hspec in Hin. discriminate.
    + intros _ Hin. apply Hspec in Hin. discriminate.
    + reflexivity.
Qed.

Lemma usePrecompiled_follows_allow_list_witness :
  (exists h' sig,
      run (Sample.world true) [] (Sample.sign 137) = (h', Ok sig)
      /\ Reference.abiWord 5 sig = Reference.wordOfBool true)
  /\ (exists h' sig,
         run (Sample.world true) [] (Sample.sign 1) = (h', Ok sig)
         /\ Reference.abiWord 5 sig = Reference.wordOfBool false).
Proof.
  split.
  - destruct (run (Sample.world true) [] (Sample.sign 137))
      as [h' [sig|e]] eqn:E; [|vm_compute in E; discriminate].
    exists h', sig. split; [reflexivity|].
    apply (usePrecompiled_follows_allow_list Sample.supportedNetworks
             Sample.hexStringToUint8Array Sample.base64FromUint8Array
             Sample.findQuoteIndices
             (Sample.world true) [] h' (JStr Sample.userOpHash) 137 None sig
             E).
    simpl. auto.
  - destruct (run (Sample.world true) [] (Sample.sign 1))
      as [h' [sig|e]] eqn:E; [|vm_compute in E; discriminate].
    exists h', sig. split; [reflexivity|].
    apply (usePrecompiled_follows_allow_list Sample.supportedNetworks
             Sample.hexStringToUint8Array Sample.base64FromUint8Array
             Sample.findQuoteIndices
             (Sample.world true) [] h' (JStr Sample.userOpHash) 1 None sig
             E).
    simpl. intros [H|[H|[]]]; discriminate.
Defined.

(** C9, as the code has it.  The text of the message is obtained for
    exactly three shapes: a string, an object whose [raw] is a string, an
    object whose [raw] is a byte array.  An object of any other shape makes
    the signing function throw [UnsupportedMessageFormat] at once, before
    any event; a value that is neither a string nor an object ([null],
    [undefined], a number, a boolean) makes it throw the [TypeError] of the
    [in] operator at once. *)
Theorem message_shapes (networks : list Z)
  (hexStringToUint8Array : string -> Result (list byte))
  (base64FromUint8Array : list byte -> bool -> Result string)
  (findQuoteIndices : string -> Result Utils.QuoteIndices)
  (message : JsVal) (chainId : Z)
  (allowCredentials : option (list CredentialDescriptor)) :
  (Reference.acceptedShape message = true
   <-> exists content, messageContentOf message = Ok content)
  /\ (Reference.acceptedShape message = false ->
      Reference.isObject message = true ->
      signMessageUsingWebAuthn networks hexStringToUint8Array
        base64FromUint8Array findQuoteIndices message chainId allowCredentials
      = Throw UnsupportedMessageFormat)
  /\ (Reference.acceptedShape message = false ->
      Reference.isObject message = false ->
      signMessageUsingWebAuthn networks hexStringToUint8Array
        base64FromUint8Array findQuoteIndices message chainId allowCredentials
      = Throw typeError).
Proof.
  assert (forall e, messageContentOf message = Err e ->
                    signMessageUsingWebAuthn networks hexStringToUint8Array
                      base64FromUint8Array
                      findQuoteIndices message chainId allowCredentials
                    = Throw e) as Hthrow.
  { intros e He. unfold signMessageUsingWebAuthn. now rewrite He. }
  split; [|split].
  - split.
    + destruct message as [| |b|z|s|bs|items|fields]; try discriminate.
      * intros _. now exists s.
      * cbn [Reference.acceptedShape messageContentOf hasProp getProp rbind].
        destruct (lookupField "raw" fields) as [[| |b|z|s|bs|items|fs]|];
          try discriminate; intros _; eexists; reflexivity.
    + intros [content H].
      destruct message as [| |b|z|s|bs|items|fields]; try discriminate;
        try reflexivity.
      cbn [Reference.acceptedShape messageContentOf hasProp getProp rbind]
        in *.
      destruct (lookupField "raw" fields) as [[| |b|z|s|bs|items|fs]|];
        try discriminate; reflexivity.
  - intros Hshape Hobj. apply Hthrow.
    destruct message as [| |b|z|s|bs|items|fields]; try discriminate;
      try reflexivity.
    cbn [Reference.acceptedShape messageContentOf hasProp getProp rbind] in *.
    destruct (lookupField "raw" fields) as [[| |b|z|s|bs|items|fs]|];
      try discriminate; reflexivity.
  - intros Hshape Hobj. apply Hthrow.
    destruct message as [| |b|z|s|bs|items|fields]; try discriminate;
      reflexivity.
Qed.

Lemma message_shapes_witness :
  Reference.acceptedShape (JObj [("data", JStr "0x00")]) = false
  /\ Reference.isObject (JObj [("data", JStr "0x00")]) = true
  /\ run Sample.offline []
       (signMessageUsingWebAuthn Sample.supportedNetworks
          Sample.hexStringToUint8Array Sample.base64FromUint8Array
          Sample.findQuoteIndices
          (JObj [("data", JStr "0x00")]) 137 None)
     = ([], Err UnsupportedMessageFormat).
Proof.
  split; [reflexivity|]. split; [reflexivity|].
  rewrite (proj1 (proj2 (message_shapes Sample.supportedNetworks
                           Sample.hexStringToUint8Array
                           Sample.base64FromUint8Array Sample.findQuoteIndices
                           (JObj [("data", JStr "0x00")]) 137 None))
             eq_refl eq_refl).
  reflexivity.
Defined.

(** C9 as stated fails on a message that is not an object: [null] is none
    of the three shapes, and the signing function throws a [TypeError], not
    [UnsupportedMessageFormat]. *)
Lemma null_message_is_a_type_error :
  Reference.acceptedShape JNull = false
  /\ run Sample.offline []
       (signMessageUsingWebAuthn Sample.supportedNetworks
          Sample.hexStringToUint8Array Sample.base64FromUint8Array
          Sample.findQuoteIndices
          JNull 137 None)
     = ([], Err (ExternalError "TypeError"))
  /\ ExternalError "TypeError" <> UnsupportedMessageFormat.
Proof.
  split; [reflexivity|]. split; [reflexivity | discriminate].
Qed.

(** ** The helpers of utils.ts *)

Module UtilsFacts.

Import Reference.

Lemma half_order : Utils.curveOrder = 2 * (Utils.curveOrder / 2) + 1.
Proof. reflexivity. Qed.

Lemma normalizeS_low (s : Z) : Utils.normalizeS s <= Utils.curveOrder / 2.
Proof.
  unfold Utils.normalizeS. pose proof half_order as H.
  destruct (Z.ltb_spec (Utils.curveOrder / 2) s); lia.
Qed.

Lemma parseDerInteger_derInteger (content rest : list byte) :
  (0 < List.length content < 128)%nat ->
  Utils.parseDerInteger (derInteger content ++ rest)
  = Some (Hex.beToZ content, rest).
Proof.
  intros Hlen. unfold derInteger, Utils.parseDerInteger.
  cbn [app].
  rewrite !HexFacts.byteVal_byteOfZ by lia.
  rewrite Nat2Z.id.
  replace (2 =? 2) with true by reflexivity.
  replace (Z.of_nat (List.length content) <? 128) with true
    by (symmetry; apply Z.ltb_lt; lia).
  replace (0 <? Z.of_nat (List.length content)) with true
    by (symmetry; apply Z.ltb_lt; lia).
  replace (List.length content <=? List.length (content ++ rest))%nat
    with true
    by (symmetry; apply Nat.leb_le; rewrite length_app; lia).
  cbn [andb].
  now rewrite ListFacts.firstn_length_app, ListFacts.skipn_length_app.
Qed.

Lemma parseDerSignature_derSignature (r s : list byte) :
  (0 < List.length r)%nat -> (0 < List.length s)%nat ->
  (List.length r + List.length s + 4 < 128)%nat ->
  Utils.parseDerSignature (derSignature r s)
  = Some (Hex.beToZ r, Hex.beToZ s).
Proof.
  intros Hr Hs Hlen. unfold derSignature, Utils.parseDerSignature.
  assert (List.length (derInteger r ++ derInteger s)
          = (List.length r + List.length s + 4)%nat) as Hbody.
  { rewrite length_app. unfold derInteger. simpl. lia. }
  rewrite !HexFacts.byteVal_byteOfZ by (rewrite ?Hbody; lia).
  replace (48 =? 48) with true by reflexivity.
  rewrite Z.eqb_refl.
  replace (Z.of_nat (List.length (derInteger r ++ derInteger s)) <? 128)
    with true by (symmetry; apply Z.ltb_lt; rewrite Hbody; lia).
  cbn [andb].
  rewrite parseDerInteger_derInteger by lia.
  rewrite <- (app_nil_r (derInteger s)).
  now rewrite parseDerInteger_derInteger by lia.
Qed.

End UtilsFacts.

(** C1.  Whatever [parseAndNormalizeSig] returns has [s <= curveOrder / 2].
    On the DER encoding of a signature (a sequence of two integers whose
    contents are the byte strings [r] and [s]), it returns the value of
    [r] and, for the value [v] of [s], [v] itself when
    [v <= curveOrder / 2] and [curveOrder - v] when [v > curveOrder / 2];
    [curveOrder] is the order of P-256. *)
Theorem parseAndNormalizeSig_low_s (r s : list byte) :
  (0 < List.length r)%nat -> (0 < List.length s)%nat ->
  (List.length r + List.length s + 4 < 128)%nat ->
  Utils.parseAndNormalizeSig
    (Utils.uint8ArrayToHexString (Reference.derSignature r s))
  = Ok (Hex.beToZ r, Utils.normalizeS (Hex.beToZ s))
  /\ (Hex.beToZ s <= Utils.curveOrder / 2 ->
      Utils.normalizeS (Hex.beToZ s) = Hex.beToZ s)
  /\ (Hex.beToZ s > Utils.curveOrder / 2 ->
      Utils.normalizeS (Hex.beToZ s) = Utils.curveOrder - Hex.beToZ s)
  /\ Utils.normalizeS (Hex.beToZ s) <= Utils.curveOrder / 2
  /\ Utils.curveOrder
     = 0xFFFFFFFF00000000FFFFFFFFFFFFFFFFBCE6FAADA7179E84F3B9CAC2FC632551
  /\ (forall derSig r' s',
         Utils.parseAndNormalizeSig derSig = Ok (r', s') ->
         s' <= Utils.curveOrder / 2).
Proof.
  intros Hr Hs Hlen. split; [|split; [|split; [|split; [|split]]]].
  - unfold Utils.parseAndNormalizeSig, Utils.uint8ArrayToHexString.
    rewrite ViemFacts.stripPrefix_0x, HexFacts.hexToBytes_bytesToHex.
    cbn [ofOption rbind].
    rewrite UtilsFacts.parseDerSignature_derSignature by assumption.
    reflexivity.
  - intros Hle. unfold Utils.normalizeS.
    destruct (Z.ltb_spec (Utils.curveOrder / 2) (Hex.beToZ s)); lia.
  - intros Hgt. unfold Utils.normalizeS.
    destruct (Z.ltb_spec (Utils.curveOrder / 2) (Hex.beToZ s)); lia.
  - apply UtilsFacts.normalizeS_low.
  - reflexivity.
  - intros derSig r' s'. unfold Utils.parseAndNormalizeSig.
    destruct (ofOption _ (Hex.hexToBytes _)) as [bs|e]; [|discriminate].
    cbn [rbind].
    destruct (ofOption _ (Utils.parseDerSignature bs)) as [rs|e];
      [|discriminate].
    cbn [rbind]. intros H. injection H as _ <-.
    apply UtilsFacts.normalizeS_low.
Qed.

Lemma parseAndNormalizeSig_low_s_witness :
  (0 < List.length Sample.signatureR)%nat
  /\ (0 < List.length Sample.highS)%nat
  /\ (List.length Sample.signatureR + List.length Sample.highS + 4 < 128)%nat
  /\ Hex.beToZ Sample.highS > Utils.curveOrder / 2
  /\ Utils.parseAndNormalizeSig
       (Utils.uint8ArrayToHexString
          (Reference.derSignature Sample.signatureR Sample.highS))
     = Ok (Hex.beToZ Sample.signatureR,
           Utils.normalizeS (Hex.beToZ Sample.highS))
  /\ Utils.normalizeS (Hex.beToZ Sample.highS)
     = Utils.curveOrder - Hex.beToZ Sample.highS.
Proof.
  assert (0 < List.length Sample.signatureR)%nat as Hr
    by (vm_compute; lia).
  assert (0 < List.length Sample.highS)%nat as Hs by (vm_compute; lia).
  assert (List.length Sample.signatureR + List.length Sample.highS + 4
          < 128)%nat as Hlen by (vm_compute; lia).
  assert (Hex.beToZ Sample.highS > Utils.curveOrder / 2) as Hhigh
    by (vm_compute; reflexivity).
  pose proof (parseAndNormalizeSig_low_s Sample.signatureR Sample.highS
                Hr Hs Hlen) as (Hparse & _ & Hrepl & _).
  split; [exact Hr|]. split; [exact Hs|]. split; [exact Hlen|].
  split; [exact Hhigh|]. split; [exact Hparse | exact (Hrepl Hhigh)].
Defined.

(** The response type location of an encoded signature (its third word)
    is the [beforeType] that the locator returns on the decoded client
    data. *)
Lemma responseTypeLocation_is_beforeType (networks : list Z)
  (hexStringToUint8Array : string -> Result (list byte))
  (base64FromUint8Array : list byte -> bool -> Result string)
  (findQuoteIndices : string -> Result Utils.QuoteIndices)
  (w : World) (h h' : list Label) (message : JsVal) (chainId : Z)
  (allowCredentials : option (list CredentialDescriptor)) (sig : Viem.Hex) :
  run w h
    (signMessageUsingWebAuthn networks hexStringToUint8Array
       base64FromUint8Array findQuoteIndices message chainId allowCredentials)
  = (h', Ok sig) ->
  exists challenge cred clientData indices,
    h' = (h ++ [Called
                  (StartAuthentication
                     (AssertionOptions challenge allowCredentials
                        "required")) (Ok cred)])%list
    /\ Base64.atob (clientDataJSON cred) = Some clientData
    /\ findQuoteIndices clientData = Ok indices
    /\ Reference.abiWord 2 sig
       = Reference.wordOfNumber (Utils.beforeType indices).
Proof.
  intros Hrun.
  destruct (SigningFacts.signMessage_ok _ _ _ _ _ _ _ _ _ _ _ Hrun)
    as (content & challenge & cred & adBytes & clientData & indices
        & sigBytes & rs & _ & Hh & _ & Hatob & Hfind & _ & _ & Hsig).
  destruct (SignatureFacts.encode_signature_layout _ _ _ _ _ _ _ Hsig)
    as (o1 & o2 & rest & ->).
  exists challenge, cred, clientData, indices.
  split; [exact Hh|]. split; [exact Hatob|]. split; [exact Hfind|].
  rewrite SignatureFacts.abiWord_prefixed.
  rewrite SignatureFacts.substring_joinWords; [reflexivity | | simpl; lia].
  repeat constructor; apply SignatureFacts.length_wordOfNumber.
Qed.

(** The stub signature pairs its client data, which has the form of
    section 8, with the response type location 1: the place of the quote
    that opens the key of [type].  The quote that opens the value of [type]
    is 7 characters further, after 8 characters. *)
Remark stubSignature_responseTypeLocation :
  (exists sig,
      stubSignature = Ok sig
      /\ Reference.abiWord 2 sig = Reference.wordOfNumber 1)
  /\ Js.indexOf Utils.typeKey stubClientDataJSON = Some 1%nat
  /\ substring 8 14 stubClientDataJSON
     = String Js.quote ("webauthn.get" ++ String Js.quote "").
Proof.
  split; [|split]; [|vm_compute; reflexivity..].
  destruct stubSignature as [sig|e] eqn:E; [|vm_compute in E; discriminate].
  exists sig. split; [reflexivity|].
  vm_compute in E. injection E as <-. vm_compute. reflexivity.
Qed.

Example keccak_empty :
  Hex.bytesToHex (Keccak.keccak256 [])
  = "c5d2460186f7233c927e7db2dcc703c0e500b653ca82273b7bfad8045d85a470".
Proof. vm_compute. reflexivity. Qed.

Example keccak_abc :
  Hex.bytesToHex (Keccak.keccak256 ["a"%byte; "b"%byte; "c"%byte])
  = "4e03657aea45a94fc7d47ba826c8d667c0d1e6e33a64a036ec44f58fa12d6c45".
Proof. vm_compute. reflexivity. Qed.

(** * Further properties of the two source files *)

(** ** Runs of the flows *)

Module FlowRuns.

Import Trace.

(** The registration branch, when its three events are answered. *)
Lemma registerFlow_run (w : World) (h : list Label)
  (params : WebAuthnAccountParams) (registerOptions options userId : JsVal)
  (cred : RegistrationResponseJSON) (verifyResult verified : JsVal) :
  registrationAnswered w h params registerOptions options userId cred
    verifyResult ->
  getProp "verified" verifyResult = Ok verified ->
  run w h (registerFlow params)
  = ((h ++ registration params registerOptions options userId cred
             verifyResult)%list,
     if truthy verified then Ok (credentialKey cred, regId cred)
     else Err RegistrationNotVerified).
Proof.
  intros (Hopt & Hoptions & Hcred & HuserId & Hver) Hverified.
  unfold registerFlow.
  rewrite ProgFacts.run_bind, FlowFacts.run_post.
  fold (registerOptionsCall params). rewrite Hopt.
  rewrite ProgFacts.run_bind, ProgFacts.run_lift, Hoptions.
  rewrite ProgFacts.run_bind, ProgFacts.run_await, Hcred.
  rewrite ProgFacts.run_bind, ProgFacts.run_lift, HuserId.
  rewrite ProgFacts.run_bind, FlowFacts.run_post.
  fold (registerVerifyCall params userId cred).
  rewrite <- !app_assoc. cbn [app]. rewrite Hver.
  rewrite ProgFacts.run_bind, ProgFacts.run_lift, Hverified.
  unfold registration, credentialKey.
  destruct (truthy verified); reflexivity.
Qed.

(** A registration branch that returns has had its three events answered
    and has seen a truthy [verified]. *)
Lemma registerFlow_inv (w : World) (h h0 : list Label)
  (params : WebAuthnAccountParams) (pubKey : JsVal) (id : string) :
  run w h (registerFlow params) = (h0, Ok (pubKey, id)) ->
  exists registerOptions options userId cred verifyResult verified,
    registrationAnswered w h params registerOptions options userId cred
      verifyResult
    /\ getProp "verified" verifyResult = Ok verified
    /\ truthy verified = true
    /\ h0 = (h ++ registration params registerOptions options userId cred
                    verifyResult)%list
    /\ pubKey = credentialKey cred
    /\ id = regId cred.
Proof.
  unfold registerFlow.
  rewrite ProgFacts.run_bind, FlowFacts.run_post.
  fold (registerOptionsCall params).
  destruct (respond w JsVal h (registerOptionsCall params))
    as [registerOptions|e] eqn:Hopt; [|discriminate].
  rewrite ProgFacts.run_bind, ProgFacts.run_lift.
  destruct (getProp "options" registerOptions) as [options|e] eqn:Hoptions;
    [|discriminate].
  rewrite ProgFacts.run_bind, ProgFacts.run_await.
  destruct (respond w RegistrationResponseJSON _ (StartRegistration options))
    as [cred|e] eqn:Hcred; [|discriminate].
  rewrite ProgFacts.run_bind, ProgFacts.run_lift.
  destruct (getProp "userId" registerOptions) as [userId|e] eqn:HuserId;
    [|discriminate].
  rewrite ProgFacts.run_bind, FlowFacts.run_post.
  fold (registerVerifyCall params userId cred).
  rewrite <- !app_assoc in *. cbn [app] in *.
  destruct (respond w JsVal _ (registerVerifyCall params userId cred))
    as [verifyResult|e] eqn:Hver; [|discriminate].
  rewrite ProgFacts.run_bind, ProgFacts.run_lift.
  destruct (getProp "verified" verifyResult) as [verified|e] eqn:Hverified;
    [|discriminate].
  destruct (truthy verified) eqn:Ht; cbn [negb run]; [|discriminate].
  intros H.
  exists registerOptions, options, userId, cred, verifyResult, verified.
  split; [repeat split; assumption|].
  split; [exact Hverified|]. split; [exact Ht|].
  unfold registration, credentialKey.
  repeat split; congruence.
Qed.

(** The login branch, when its three events are answered. *)
Lemma loginFlow_run (w : World) (h : list Label)
  (params : WebAuthnAccountParams) (loginOptions : JsVal)
  (cred : AuthenticationResponseJSON)
  (verifyResult verification verified : JsVal) :
  loginAnswered w h params loginOptions cred verifyResult ->
  getProp "verification" verifyResult = Ok verification ->
  getProp "verified" verification = Ok verified ->
  run w h (loginFlow params)
  = ((h ++ login params loginOptions cred verifyResult)%list,
     if truthy verified
     then match getProp "pubkey" verifyResult with
          | Ok pubkey => Ok (pubkey, authId cred)
          | Err e => Err e
          end
     else Err LoginNotVerified).
Proof.
  intros (Hopt & Hcred & Hver) Hverification Hverified.
  unfold loginFlow.
  rewrite ProgFacts.run_bind, FlowFacts.run_post.
  fold (loginOptionsCall params). rewrite Hopt.
  rewrite ProgFacts.run_bind, ProgFacts.run_await, Hcred.
  rewrite ProgFacts.run_bind, FlowFacts.run_post.
  fold (loginVerifyCall params cred).
  rewrite <- !app_assoc. cbn [app]. rewrite Hver.
  rewrite ProgFacts.run_bind, ProgFacts.run_lift, Hverification.
  rewrite ProgFacts.run_bind, ProgFacts.run_lift, Hverified.
  unfold login.
  destruct (truthy verified); cbn [negb]; [|reflexivity].
  rewrite ProgFacts.run_bind, ProgFacts.run_lift.
  destruct (getProp "pubkey" verifyResult); reflexivity.
Qed.

Lemma loginFlow_inv (w : World) (h h0 : list Label)
  (params : WebAuthnAccountParams) (pubKey : JsVal) (id : string) :
  run w h (loginFlow params) = (h0, Ok (pubKey, id)) ->
  exists loginOptions cred verifyResult verification verified,
    loginAnswered w h params loginOptions cred verifyResult
    /\ getProp "verification" verifyResult = Ok verification
    /\ getProp "verified" verification = Ok verified
    /\ truthy verified = true
    /\ h0 = (h ++ login params loginOptions cred verifyResult)%list
    /\ getProp "pubkey" verifyResult = Ok pubKey
    /\ id = authId cred.
Proof.
  unfold loginFlow.
  rewrite ProgFacts.run_bind, FlowFacts.run_post.
  fold (loginOptionsCall params).
  destruct (respond w JsVal h (loginOptionsCall params))
    as [loginOptions|e] eqn:Hopt; [|discriminate].
  rewrite ProgFacts.run_bind, ProgFacts.run_await.
  destruct (respond w AuthenticationResponseJSON _
              (StartAuthentication (ServerOptions loginOptions)))
    as [cred|e] eqn:Hcred; [|discriminate].
  rewrite ProgFacts.run_bind, FlowFacts.run_post.
  fold (loginVerifyCall params cred).
  rewrite <- !app_assoc in *. cbn [app] in *.
  destruct (respond w JsVal _ (loginVerifyCall params cred))
    as [verifyResult|e] eqn:Hver; [|discriminate].
  rewrite ProgFacts.run_bind, ProgFacts.run_lift.
  destruct (getProp "verification" verifyResult)
    as [verification|e] eqn:Hverification; [|discriminate].
  rewrite ProgFacts.run_bind, ProgFacts.run_lift.
  destruct (getProp "verified" verification) as [verified|e] eqn:Hverified;
    [|discriminate].
  destruct (truthy verified) eqn:Ht; cbn [negb]; [|discriminate].
  rewrite ProgFacts.run_bind, ProgFacts.run_lift.
  destruct (getProp "pubkey" verifyResult) as [pubkey|e] eqn:Hpubkey;
    [|discriminate].
  cbn [run]. intros H.
  exists loginOptions, cred, verifyResult, verification, verified.
  split; [repeat split; assumption|].
  split; [exact Hverification|]. split; [exact Hverified|].
  split; [exact Ht|]. unfold login.
  repeat split; congruence.
Qed.

Lemma nonempty_of_length {A : Type} (l : list A) :
  (0 < List.length l)%nat -> l <> [].
Proof. destruct l; simpl; [lia | discriminate]. Qed.

(** The last part of [toWebAuthnKey], when the platform imports the key
    and exports at least 34 raw bytes. *)
Lemma deriveKey_run (w : World) (h : list Label) (pubKey : JsVal)
  (id : string) (idBytes spkiDer : list byte) (key : CryptoKey)
  (rawKey : list byte) :
  truthy pubKey = true ->
  id <> "" ->
  Utils.b64ToBytes id = Ok idBytes ->
  bufferFrom pubKey = Ok spkiDer ->
  respond w _ h (ImportKey spkiDer) = Ok key ->
  respond w _ (h ++ [Called (ImportKey spkiDer) (Ok key)])%list
    (ExportKey key) = Ok rawKey ->
  (34 <= List.length rawKey)%nat ->
  run w h (deriveKey pubKey id)
  = ((h ++ derivation spkiDer key rawKey)%list,
     Ok {| pubX := Hex.beToZ (subarray 1 33 rawKey);
           pubY := Hex.beToZ (skipn 33 rawKey);
           authenticatorId := id;
           authenticatorIdHash :=
             Viem.bytesToHex (Keccak.keccak256 idBytes) |}).
Proof.
  intros Ht Hid Hbytes Hbuf Himport Hexport Hlen.
  unfold deriveKey. rewrite Ht. cbn [negb].
  apply String.eqb_neq in Hid. rewrite Hid.
  rewrite ProgFacts.run_bind, ProgFacts.run_lift, Hbytes.
  rewrite ProgFacts.run_bind, ProgFacts.run_lift.
  rewrite FlowFacts.keccak256_uint8ArrayToHexString.
  rewrite ProgFacts.run_bind, ProgFacts.run_lift, Hbuf.
  rewrite ProgFacts.run_bind, ProgFacts.run_await, Himport.
  rewrite ProgFacts.run_bind, ProgFacts.run_await, Hexport.
  rewrite ProgFacts.run_bind, ProgFacts.run_lift.
  unfold bigIntOfHex.
  rewrite HexFacts.parseDigits_bytesToHex.
  2:{ apply nonempty_of_length. unfold subarray.
      rewrite length_firstn, length_skipn. lia. }
  cbn [ofOption].
  rewrite ProgFacts.run_bind, ProgFacts.run_lift.
  rewrite HexFacts.parseDigits_bytesToHex.
  2:{ apply nonempty_of_length. rewrite length_skipn. lia. }
  cbn [ofOption run]. rewrite <- app_assoc. reflexivity.
Qed.

End FlowRuns.

(** ** toWebAuthnKey *)

Module KeyFacts.

Import Trace.

Lemma toWebAuthnKey_register (params : WebAuthnAccountParams) :
  webAuthnKey params = None -> mode params <> Some Login ->
  toWebAuthnKey params
  = bind (registerFlow params)
      (fun flow => deriveKey (fst flow) (snd flow)).
Proof.
  intros Hnone Hmode. unfold toWebAuthnKey. rewrite Hnone.
  destruct (mode params) as [[|]|]; try reflexivity. now elim Hmode.
Qed.

Lemma toWebAuthnKey_login (params : WebAuthnAccountParams) :
  webAuthnKey params = None -> mode params = Some Login ->
  toWebAuthnKey params
  = bind (loginFlow params) (fun flow => deriveKey (fst flow) (snd flow)).
Proof.
  intros Hnone Hmode. unfold toWebAuthnKey. now rewrite Hnone, Hmode.
Qed.

Lemma deriveKey_missing_public_key (w : World) (h : list Label)
  (pubKey : JsVal) (id : string) :
  truthy pubKey = false ->
  run w h (deriveKey pubKey id) = (h, Err MissingPublicKey).
Proof. intros Ht. unfold deriveKey. now rewrite Ht. Qed.

Lemma deriveKey_missing_id (w : World) (h : list Label) (pubKey : JsVal) :
  truthy pubKey = true ->
  run w h (deriveKey pubKey "") = (h, Err MissingAuthenticatorId).
Proof. intros Ht. unfold deriveKey. now rewrite Ht. Qed.

Lemma truthy_credentialKey (cred : RegistrationResponseJSON) :
  truthy (credentialKey cred) = true
  <-> exists k, publicKey cred = Some k /\ k <> "".
Proof.
  unfold credentialKey. destruct (publicKey cred) as [k|]; simpl.
  - rewrite negb_true_iff, String.eqb_neq. split.
    + intros Hk. now exists k.
    + intros (k' & Hk' & Hne). now injection Hk' as ->.
  - split; [discriminate | intros (k & Hk & _); discriminate].
Qed.

End KeyFacts.

(** X1.  In a login in which the server answers the options request and
    the verify request, the ceremony returns an assertion, and the field
    [verification.verified] of the verify response is falsy,
    [toWebAuthnKey] fails with [LoginNotVerified] after these three
    events: the [pubkey] of the response is not read and no key is
    imported. *)
Theorem login_not_verified (w : World) (h : list Label)
  (params : WebAuthnAccountParams) (loginOptions : JsVal)
  (cred : AuthenticationResponseJSON)
  (verifyResult verification verified : JsVal) :
  webAuthnKey params = None ->
  mode params = Some Login ->
  Trace.loginAnswered w h params loginOptions cred verifyResult ->
  getProp "verification" verifyResult = Ok verification ->
  getProp "verified" verification = Ok verified ->
  truthy verified = false ->
  run w h (toWebAuthnKey params)
  = ((h ++ Trace.login params loginOptions cred verifyResult)%list,
     Err LoginNotVerified).
Proof.
  intros Hnone Hmode Hans Hverification Hverified Hfalsy.
  rewrite (KeyFacts.toWebAuthnKey_login params Hnone Hmode).
  rewrite ProgFacts.run_bind.
  rewrite (FlowRuns.loginFlow_run w h params loginOptions cred verifyResult
             verification verified Hans Hverification Hverified).
  now rewrite Hfalsy.
Qed.

Lemma login_not_verified_witness :
  Trace.loginAnswered (Scenario.world Scenario.rejected) []
    Scenario.loginParams Sample.ceremonyOptions Sample.assertionResponse
    (Scenario.verifyResult Scenario.rejected)
  /\ run (Scenario.world Scenario.rejected) []
       (toWebAuthnKey Scenario.loginParams)
     = (Trace.login Scenario.loginParams Sample.ceremonyOptions
          Sample.assertionResponse (Scenario.verifyResult Scenario.rejected),
        Err LoginNotVerified).
Proof.
  assert (Trace.loginAnswered (Scenario.world Scenario.rejected) []
            Scenario.loginParams Sample.ceremonyOptions
            Sample.assertionResponse
            (Scenario.verifyResult Scenario.rejected)) as Hans
    by (repeat split; reflexivity).
  split; [exact Hans|].
  exact (login_not_verified (Scenario.world Scenario.rejected) []
           Scenario.loginParams Sample.ceremonyOptions
           Sample.assertionResponse (Scenario.verifyResult Scenario.rejected)
           (JObj [("verified", JBool false)]) (JBool false)
           eq_refl eq_refl Hans eq_refl eq_refl eq_refl).
Defined.

(** X2.  In a registration that the server verifies, a credential whose
    [publicKey] is absent or the empty string makes [toWebAuthnKey] fail
    with [MissingPublicKey] right after the verify request, whatever the
    id of the credential: nothing is hashed or imported. *)
Theorem registration_without_public_key (w : World) (h : list Label)
  (params : WebAuthnAccountParams) (registerOptions options userId : JsVal)
  (cred : RegistrationResponseJSON) (verifyResult verified : JsVal) :
  webAuthnKey params = None ->
  mode params <> Some Login ->
  Trace.registrationAnswered w h params registerOptions options userId cred
    verifyResult ->
  getProp "verified" verifyResult = Ok verified ->
  truthy verified = true ->
  publicKey cred = None \/ publicKey cred = Some "" ->
  run w h (toWebAuthnKey params)
  = ((h ++ Trace.registration params registerOptions options userId cred
             verifyResult)%list,
     Err MissingPublicKey).
Proof.
  intros Hnone Hmode Hans Hverified Ht Hkey.
  rewrite (KeyFacts.toWebAuthnKey_register params Hnone Hmode).
  rewrite ProgFacts.run_bind.
  rewrite (FlowRuns.registerFlow_run w h params registerOptions options
             userId cred verifyResult verified Hans Hverified).
  rewrite Ht. cbn [fst snd].
  apply KeyFacts.deriveKey_missing_public_key.
  unfold Trace.credentialKey. now destruct Hkey as [-> | ->].
Qed.

Lemma registration_without_public_key_witness :
  Trace.registrationAnswered (Scenario.world Scenario.withoutPublicKey) []
    Sample.registerParams Sample.registerOptions Sample.ceremonyOptions
    (JStr "user-1") {| regId := "AQIDBA"; publicKey := None |}
    (Sample.registerVerifyResult true)
  /\ snd (run (Scenario.world Scenario.withoutPublicKey) []
            (toWebAuthnKey Sample.registerParams))
     = Err MissingPublicKey.
Proof.
  assert (Trace.registrationAnswered
            (Scenario.world Scenario.withoutPublicKey) []
            Sample.registerParams Sample.registerOptions
            Sample.ceremonyOptions (JStr "user-1")
            {| regId := "AQIDBA"; publicKey := None |}
            (Sample.registerVerifyResult true)) as Hans
    by (repeat split; reflexivity).
  split; [exact Hans|].
  rewrite (registration_without_public_key
             (Scenario.world Scenario.withoutPublicKey) []
             Sample.registerParams Sample.registerOptions
             Sample.ceremonyOptions (JStr "user-1")
             {| regId := "AQIDBA"; publicKey := None |}
             (Sample.registerVerifyResult true) (JBool true)
             eq_refl ltac:(discriminate) Hans eq_refl eq_refl
             (or_introl eq_refl)).
  reflexivity.
Defined.

(** X3.  In a registration that the server verifies, with a public key
    present, a credential whose id is the empty string makes
    [toWebAuthnKey] fail with [MissingAuthenticatorId] right after the
    verify request: nothing is hashed or imported. *)
Theorem registration_without_authenticator_id (w : World) (h : list Label)
  (params : WebAuthnAccountParams) (registerOptions options userId : JsVal)
  (cred : RegistrationResponseJSON) (verifyResult verified : JsVal)
  (spkiText : string) :
  webAuthnKey params = None ->
  mode params <> Some Login ->
  Trace.registrationAnswered w h params registerOptions options userId cred
    verifyResult ->
  getProp "verified" verifyResult = Ok verified ->
  truthy verified = true ->
  publicKey cred = Some spkiText ->
  spkiText <> "" ->
  regId cred = "" ->
  run w h (toWebAuthnKey params)
  = ((h ++ Trace.registration params registerOptions options userId cred
             verifyResult)%list,
     Err MissingAuthenticatorId).
Proof.
  intros Hnone Hmode Hans Hverified Ht Hkey Hne Hid.
  rewrite (KeyFacts.toWebAuthnKey_register params Hnone Hmode).
  rewrite ProgFacts.run_bind.
  rewrite (FlowRuns.registerFlow_run w h params registerOptions options
             userId cred verifyResult verified Hans Hverified).
  rewrite Ht. cbn [fst snd]. rewrite Hid.
  apply KeyFacts.deriveKey_missing_id.
  apply KeyFacts.truthy_credentialKey. now exists spkiText.
Qed.

Lemma registration_without_authenticator_id_witness :
  Trace.registrationAnswered (Scenario.world Scenario.withoutId) []
    Sample.registerParams Sample.registerOptions Sample.ceremonyOptions
    (JStr "user-1") {| regId := ""; publicKey := Some Sample.spkiBase64 |}
    (Sample.registerVerifyResult true)
  /\ snd (run (Scenario.world Scenario.withoutId) []
            (toWebAuthnKey Sample.registerParams))
     = Err MissingAuthenticatorId.
Proof.
  assert (Trace.registrationAnswered (Scenario.world Scenario.withoutId) []
            Sample.registerParams Sample.registerOptions
            Sample.ceremonyOptions (JStr "user-1")
            {| regId := ""; publicKey := Some Sample.spkiBase64 |}
            (Sample.registerVerifyResult true)) as Hans
    by (repeat split; reflexivity).
  split; [exact Hans|].
  rewrite (registration_without_authenticator_id
             (Scenario.world Scenario.withoutId) []
             Sample.registerParams Sample.registerOptions
             Sample.ceremonyOptions (JStr "user-1")
             {| regId := ""; publicKey := Some Sample.spkiBase64 |}
             (Sample.registerVerifyResult true) (JBool true)
             Sample.spkiBase64
             eq_refl ltac:(discriminate) Hans eq_refl eq_refl eq_refl
             ltac:(discriminate) eq_refl).
  reflexivity.
Defined.

(** X4.  A registration returns a key once every collaborator answers:
    the server verifies, the credential has a public key and an id that
    decodes as base64url, the platform imports the decoded key and exports
    at least 34 raw bytes.  The five events are the options request, the
    ceremony, the verify request, the import and the export; the key has
    the id of the credential, the digest of its bytes, and the coordinates
    read off the raw key. *)
Theorem registration_returns_key (w : World) (h : list Label)
  (params : WebAuthnAccountParams) (registerOptions options userId : JsVal)
  (cred : RegistrationResponseJSON) (verifyResult verified : JsVal)
  (spkiText : string) (idBytes : list byte) (key : CryptoKey)
  (rawKey : list byte) :
  let h3 :=
    (h ++ Trace.registration params registerOptions options userId cred
            verifyResult)%list in
  let spkiDer := Base64.bufferFromBase64 spkiText in
  webAuthnKey params = None ->
  mode params <> Some Login ->
  Trace.registrationAnswered w h params registerOptions options userId cred
    verifyResult ->
  getProp "verified" verifyResult = Ok verified ->
  truthy verified = true ->
  publicKey cred = Some spkiText ->
  spkiText <> "" ->
  regId cred <> "" ->
  Utils.b64ToBytes (regId cred) = Ok idBytes ->
  respond w _ h3 (ImportKey spkiDer) = Ok key ->
  respond w _ (h3 ++ [Called (ImportKey spkiDer) (Ok key)])%list
    (ExportKey key) = Ok rawKey ->
  (34 <= List.length rawKey)%nat ->
  run w h (toWebAuthnKey params)
  = ((h3 ++ Trace.derivation spkiDer key rawKey)%list,
     Ok {| pubX := Hex.beToZ (subarray 1 33 rawKey);
           pubY := Hex.beToZ (skipn 33 rawKey);
           authenticatorId := regId cred;
           authenticatorIdHash :=
             Viem.bytesToHex (Keccak.keccak256 idBytes) |}).
Proof.
  intros h3 spkiDer Hnone Hmode Hans Hverified Ht Hkey Hne Hid Hbytes
    Himport Hexport Hlen.
  rewrite (KeyFacts.toWebAuthnKey_register params Hnone Hmode).
  rewrite ProgFacts.run_bind.
  rewrite (FlowRuns.registerFlow_run w h params registerOptions options
             userId cred verifyResult verified Hans Hverified).
  rewrite Ht. cbn [fst snd]. fold h3.
  apply (FlowRuns.deriveKey_run w h3 _ _ idBytes spkiDer key rawKey);
    try assumption.
  - apply KeyFacts.truthy_credentialKey. now exists spkiText.
  - unfold Trace.credentialKey. now rewrite Hkey.
Qed.

Lemma registration_returns_key_witness :
  Trace.registrationAnswered (Sample.world true) [] Sample.registerParams
    Sample.registerOptions Sample.ceremonyOptions (JStr "user-1")
    Sample.registrationResponse (Sample.registerVerifyResult true)
  /\ Utils.b64ToBytes (regId Sample.registrationResponse)
     = Ok [x01; x02; x03; x04]
  /\ snd (run (Sample.world true) [] (toWebAuthnKey Sample.registerParams))
     = Ok {| pubX :=
               Hex.beToZ
                 (subarray 1 33
                    (skipn 26 (Base64.bufferFromBase64 Sample.spkiBase64)));
             pubY :=
               Hex.beToZ
                 (skipn 33
                    (skipn 26 (Base64.bufferFromBase64 Sample.spkiBase64)));
             authenticatorId := "AQIDBA";
             authenticatorIdHash :=
               Viem.bytesToHex (Keccak.keccak256 [x01; x02; x03; x04]) |}.
Proof.
  assert (Trace.registrationAnswered (Sample.world true) []
            Sample.registerParams Sample.registerOptions
            Sample.ceremonyOptions (JStr "user-1")
            Sample.registrationResponse (Sample.registerVerifyResult true))
    as Hans by (repeat split; reflexivity).
  split; [exact Hans|]. split; [reflexivity|].
  rewrite (registration_returns_key (Sample.world true) []
             Sample.registerParams Sample.registerOptions
             Sample.ceremonyOptions (JStr "user-1")
             Sample.registrationResponse (Sample.registerVerifyResult true)
             (JBool true) Sample.spkiBase64 [x01; x02; x03; x04]
             {| keyHandle := 1 |}
             (skipn 26 (Base64.bufferFromBase64 Sample.spkiBase64))
             eq_refl ltac:(discriminate) Hans eq_refl eq_refl eq_refl
             ltac:(discriminate) ltac:(discriminate) eq_refl eq_refl
             ltac:(vm_compute; reflexivity) ltac:(vm_compute; lia)).
  reflexivity.
Defined.

(** X5.  Every key that a registration returns was verified by the
    server and comes from the created credential: the run consists of the
    three events of the registration, with a truthy [verified], followed by
    the import of the credential's own [publicKey], decoded from base64,
    and its raw export; the key carries the id of the credential and the
    coordinates read off the raw key. *)
Theorem registered_key_provenance (w : World) (h h' : list Label)
  (params : WebAuthnAccountParams) (key : WebAuthnKey) :
  webAuthnKey params = None ->
  mode params <> Some Login ->
  run w h (toWebAuthnKey params) = (h', Ok key) ->
  exists registerOptions options userId cred verifyResult verified
         spkiText cryptoKey rawKey,
    Trace.registrationAnswered w h params registerOptions options userId
      cred verifyResult
    /\ getProp "verified" verifyResult = Ok verified
    /\ truthy verified = true
    /\ publicKey cred = Some spkiText
    /\ h' = (h ++ Trace.registration params registerOptions options userId
                    cred verifyResult
               ++ Trace.derivation (Base64.bufferFromBase64 spkiText)
                    cryptoKey rawKey)%list
    /\ authenticatorId key = regId cred
    /\ (pubX key, pubY key) = Reference.coordinatesOf rawKey.
Proof.
  intros Hnone Hmode.
  rewrite (KeyFacts.toWebAuthnKey_register params Hnone Hmode).
  rewrite ProgFacts.run_bind.
  destruct (run w h (registerFlow params)) as [h0 [[pubKey id]|e]] eqn:Hflow;
    [|discriminate].
  cbn [fst snd]. intros Hderive.
  destruct (FlowRuns.registerFlow_inv w h h0 params pubKey id Hflow)
    as (registerOptions & options & userId & cred & verifyResult & verified
        & Hans & Hverified & Ht & -> & -> & ->).
  destruct (FlowFacts.deriveKey_ok w _ h' _ _ key Hderive)
    as (idBytes & spkiDer & cryptoKey & rawKey
        & Htruthy & _ & Hbuf & -> & Hx & Hy & Hid & _).
  apply KeyFacts.truthy_credentialKey in Htruthy as (spkiText & Hkey & _).
  unfold Trace.credentialKey in Hbuf. rewrite Hkey in Hbuf.
  cbn [bufferFrom] in Hbuf. apply ResultFacts.ok_inj in Hbuf. subst spkiDer.
  exists registerOptions, options, userId, cred, verifyResult, verified,
    spkiText, cryptoKey, rawKey.
  repeat (split; [assumption || reflexivity|]).
  split.
  - now rewrite <- app_assoc.
  - split; [exact Hid|]. unfold Reference.coordinatesOf. now rewrite Hx, Hy.
Qed.

Lemma registered_key_provenance_witness :
  webAuthnKey Sample.registerParams = None
  /\ mode Sample.registerParams <> Some Login
  /\ run (Sample.world true) [] (toWebAuthnKey Sample.registerParams)
     = (Sample.registrationHistory, Ok Sample.registeredKey)
  /\ exists cred spkiText,
       publicKey cred = Some spkiText
       /\ authenticatorId Sample.registeredKey = regId cred.
Proof.
  assert (run (Sample.world true) [] (toWebAuthnKey Sample.registerParams)
          = (Sample.registrationHistory, Ok Sample.registeredKey)) as Hrun
    by (vm_compute; reflexivity).
  split; [reflexivity|]. split; [discriminate|]. split; [exact Hrun|].
  destruct (registered_key_provenance (Sample.world true) []
              Sample.registrationHistory Sample.registerParams
              Sample.registeredKey eq_refl ltac:(discriminate) Hrun)
    as (_ & _ & _ & cred & _ & _ & spkiText & _ & _
        & _ & _ & _ & Hkey & _ & Hid & _).
  exists cred, spkiText. split; [exact Hkey | exact Hid].
Defined.

(** X6.  Every key that a login returns was verified by the server and
    takes its public key from the server, not from the authenticator: the
    run consists of the three events of the login, with a truthy
    [verification.verified], followed by the import of the decoded
    [pubkey] field of the verify response and its raw export; the key
    carries the id of the assertion. *)
Theorem login_key_provenance (w : World) (h h' : list Label)
  (params : WebAuthnAccountParams) (key : WebAuthnKey) :
  webAuthnKey params = None ->
  mode params = Some Login ->
  run w h (toWebAuthnKey params) = (h', Ok key) ->
  exists loginOptions cred verifyResult verification verified pubkey
         spkiDer cryptoKey rawKey,
    Trace.loginAnswered w h params loginOptions cred verifyResult
    /\ getProp "verification" verifyResult = Ok verification
    /\ getProp "verified" verification = Ok verified
    /\ truthy verified = true
    /\ getProp "pubkey" verifyResult = Ok pubkey
    /\ bufferFrom pubkey = Ok spkiDer
    /\ h' = (h ++ Trace.login params loginOptions cred verifyResult
               ++ Trace.derivation spkiDer cryptoKey rawKey)%list
    /\ authenticatorId key = authId cred
    /\ (pubX key, pubY key) = Reference.coordinatesOf rawKey.
Proof.
  intros Hnone Hmode.
  rewrite (KeyFacts.toWebAuthnKey_login params Hnone Hmode).
  rewrite ProgFacts.run_bind.
  destruct (run w h (loginFlow params)) as [h0 [[pubKey id]|e]] eqn:Hflow;
    [|discriminate].
  cbn [fst snd]. intros Hderive.
  destruct (FlowRuns.loginFlow_inv w h h0 params pubKey id Hflow)
    as (loginOptions & cred & verifyResult & verification & verified
        & Hans & Hverification & Hverified & Ht & -> & Hpubkey & ->).
  destruct (FlowFacts.deriveKey_ok w _ h' _ _ key Hderive)
    as (idBytes & spkiDer & cryptoKey & rawKey
        & _ & _ & Hbuf & -> & Hx & Hy & Hid & _).
  exists loginOptions, cred, verifyResult, verification, verified, pubKey,
    spkiDer, cryptoKey, rawKey.
  repeat (split; [assumption || reflexivity|]).
  split.
  - now rewrite <- app_assoc.
  - split; [exact Hid|]. unfold Reference.coordinatesOf. now rewrite Hx, Hy.
Qed.

Lemma login_key_provenance_witness :
  webAuthnKey Scenario.loginParams = None
  /\ mode Scenario.loginParams = Some Login
  /\ snd (run (Scenario.world Scenario.good) []
            (toWebAuthnKey Scenario.loginParams))
     = Ok Sample.registeredKey
  /\ exists cred, authenticatorId Sample.registeredKey = authId cred.
Proof.
  split; [reflexivity|]. split; [reflexivity|].
  destruct (run (Scenario.world Scenario.good) []
              (toWebAuthnKey Scenario.loginParams)) as [h' r] eqn:Hrun.
  assert (r = Ok Sample.registeredKey) as ->.
  { change r with (snd (h', r)). rewrite <- Hrun. vm_compute. reflexivity. }
  split; [reflexivity|].
  destruct (login_key_provenance (Scenario.world Scenario.good) [] h'
              Scenario.loginParams Sample.registeredKey eq_refl eq_refl Hrun)
    as (_ & cred & _ & _ & _ & _ & _ & _ & _
        & _ & _ & _ & _ & _ & _ & _ & Hid & _).
  exists cred. exact Hid.
Defined.

(** X7.  When the registration ceremony fails (the user dismisses it, the
    platform refuses), [toWebAuthnKey] fails with the error of the
    ceremony after two events: the verify request is never sent. *)
Theorem registration_ceremony_rejected (w : World) (h : list Label)
  (params : WebAuthnAccountParams) (registerOptions options : JsVal)
  (e : ErrorKind) :
  let h1 :=
    (h ++ [Called (Trace.registerOptionsCall params)
             (Ok registerOptions)])%list in
  webAuthnKey params = None ->
  mode params <> Some Login ->
  respond w _ h (Trace.registerOptionsCall params) = Ok registerOptions ->
  getProp "options" registerOptions = Ok options ->
  respond w _ h1 (StartRegistration options) = Err e ->
  run w h (toWebAuthnKey params)
  = ((h1 ++ [Called (StartRegistration options) (Err e)])%list, Err e).
Proof.
  intros h1 Hnone Hmode Hopt Hoptions Hcred.
  rewrite (KeyFacts.toWebAuthnKey_register params Hnone Hmode).
  rewrite ProgFacts.run_bind. unfold registerFlow.
  rewrite ProgFacts.run_bind, FlowFacts.run_post.
  fold (Trace.registerOptionsCall params). rewrite Hopt. fold h1.
  rewrite ProgFacts.run_bind, ProgFacts.run_lift, Hoptions.
  rewrite ProgFacts.run_bind, ProgFacts.run_await, Hcred.
  reflexivity.
Qed.

Lemma registration_ceremony_rejected_witness :
  respond (Scenario.world Scenario.cancelled) _
    [Called (Trace.registerOptionsCall Sample.registerParams)
       (Ok Sample.registerOptions)]
    (StartRegistration Sample.ceremonyOptions)
  = Err (ExternalError "NotAllowedError")
  /\ run (Scenario.world Scenario.cancelled) []
       (toWebAuthnKey Sample.registerParams)
     = ([Called (Trace.registerOptionsCall Sample.registerParams)
           (Ok Sample.registerOptions);
         Called (StartRegistration Sample.ceremonyOptions)
           (Err (ExternalError "NotAllowedError"))],
        Err (ExternalError "NotAllowedError")).
Proof.
  split; [reflexivity|].
  exact (registration_ceremony_rejected (Scenario.world Scenario.cancelled)
           [] Sample.registerParams Sample.registerOptions
           Sample.ceremonyOptions (ExternalError "NotAllowedError")
           eq_refl ltac:(discriminate) eq_refl eq_refl eq_refl).
Defined.

(** ** The signing function *)

Module SigningRuns.

Import Trace.

Lemma run_bind_lift {A B : Type} (w : World) (h : list Label)
  (r : Result A) (f : A -> Prog B) :
  run w h (bind (lift r) f)
  = match r with
    | Ok a => run w h (f a)
    | Err e => (h, Err e)
    end.
Proof. now destruct r. Qed.

(** The signing function on a message whose text is [content]. *)
Lemma signMessage_content (networks : list Z)
  (hexStringToUint8Array : string -> Result (list byte))
  (base64FromUint8Array : list byte -> bool -> Result string)
  (findQuoteIndices : string -> Result Utils.QuoteIndices)
  (message : JsVal) (content : string) (chainId : Z)
  (allowCredentials : option (list CredentialDescriptor)) :
  messageContentOf message = Ok content ->
  signMessageUsingWebAuthn networks hexStringToUint8Array
    base64FromUint8Array findQuoteIndices message chainId allowCredentials
  = signMessageUsingWebAuthn networks hexStringToUint8Array
      base64FromUint8Array
      findQuoteIndices (JStr content) chainId allowCredentials.
Proof.
  intros H. unfold signMessageUsingWebAuthn. rewrite H. reflexivity.
Qed.

(** Whatever the outcome, the signing function awaits at most one event:
    the ceremony on the challenge made from the message, with the given
    credentials and user verification required. *)
Lemma signMessage_history (networks : list Z)
  (hexStringToUint8Array : string -> Result (list byte))
  (base64FromUint8Array : list byte -> bool -> Result string)
  (findQuoteIndices : string -> Result Utils.QuoteIndices)
  (w : World) (h : list Label) (message : JsVal) (chainId : Z)
  (allowCredentials : option (list CredentialDescriptor)) :
  let out :=
    run w h
      (signMessageUsingWebAuthn networks hexStringToUint8Array
         base64FromUint8Array
         findQuoteIndices message chainId allowCredentials) in
  (fst out = h /\ exists e, snd out = Err e)
  \/ exists content bytes challenge answer,
       messageContentOf message = Ok content
       /\ hexStringToUint8Array (formatted content) = Ok bytes
       /\ base64FromUint8Array bytes true = Ok challenge
       /\ fst out
          = (h ++ [Called (assertionCall challenge allowCredentials)
                     answer])%list.
Proof.
  intros out. subst out. unfold signMessageUsingWebAuthn.
  rewrite run_bind_lift.
  destruct (messageContentOf message) as [content|e] eqn:Econtent;
    [|left; split; [reflexivity | now exists e]].
  fold (formatted content). rewrite run_bind_lift.
  destruct (hexStringToUint8Array (formatted content)) as [bytes|e]
    eqn:Ebytes; [|left; split; [reflexivity | now exists e]].
  rewrite run_bind_lift.
  destruct (base64FromUint8Array bytes true) as [challenge|e] eqn:Echallenge;
    [|left; split; [reflexivity | now exists e]].
  right.
  exists content, bytes, challenge,
    (respond w _ h (assertionCall challenge allowCredentials)).
  split; [reflexivity|]. split; [exact Ebytes|]. split; [exact Echallenge|].
  rewrite ProgFacts.run_bind, ProgFacts.run_await.
  fold (assertionCall challenge allowCredentials).
  destruct (respond w _ h (assertionCall challenge allowCredentials))
    as [cred|e]; [|reflexivity].
  rewrite run_bind_lift.
  destruct (Utils.b64ToBytes (authenticatorData cred)); [|reflexivity].
  rewrite run_bind_lift.
  destruct (Base64.atob (clientDataJSON cred)); [|reflexivity].
  cbn [ofOption].
  rewrite run_bind_lift.
  destruct (findQuoteIndices _); [|reflexivity].
  rewrite run_bind_lift.
  destruct (Utils.b64ToBytes (signature cred)); [|reflexivity].
  rewrite run_bind_lift.
  destruct (Utils.parseAndNormalizeSig _); [|reflexivity].
  now rewrite ProgFacts.run_lift.
Qed.

End SigningRuns.

(** X8.  A hex string is signed in the same way with and without its
    ["0x"], and wrapped as the [raw] of an object or not: the three
    messages give the same computation. *)
Theorem signing_ignores_prefix_and_wrapping (networks : list Z)
  (hexStringToUint8Array : string -> Result (list byte))
  (base64FromUint8Array : list byte -> bool -> Result string)
  (findQuoteIndices : string -> Result Utils.QuoteIndices)
  (digits : string) (fields : list (string * JsVal)) (chainId : Z)
  (allowCredentials : option (list CredentialDescriptor)) :
  Js.startsWith "0x" digits = false ->
  lookupField "raw" fields = Some (JStr ("0x" ++ digits)) ->
  signMessageUsingWebAuthn networks hexStringToUint8Array
    base64FromUint8Array
    findQuoteIndices (JStr ("0x" ++ digits)) chainId allowCredentials
  = signMessageUsingWebAuthn networks hexStringToUint8Array
      base64FromUint8Array
      findQuoteIndices (JStr digits) chainId allowCredentials
  /\ signMessageUsingWebAuthn networks hexStringToUint8Array
       base64FromUint8Array
       findQuoteIndices (JObj fields) chainId allowCredentials
     = signMessageUsingWebAuthn networks hexStringToUint8Array
         base64FromUint8Array
         findQuoteIndices (JStr digits) chainId allowCredentials.
Proof.
  intros Hplain Hraw.
  assert (signMessageUsingWebAuthn networks hexStringToUint8Array
            base64FromUint8Array
            findQuoteIndices (JStr ("0x" ++ digits)) chainId
            allowCredentials
          = signMessageUsingWebAuthn networks hexStringToUint8Array
              base64FromUint8Array
              findQuoteIndices (JStr digits) chainId allowCredentials)
    as Hprefix.
  { unfold signMessageUsingWebAuthn. cbn [messageContentOf lift bind].
    unfold Js.startsWith in *. rewrite Hplain.
    rewrite (JsFacts.prefix_append "0x" digits). reflexivity. }
  split; [exact Hprefix|]. rewrite <- Hprefix.
  apply SigningRuns.signMessage_content.
  cbn [messageContentOf hasProp getProp rbind]. now rewrite Hraw.
Qed.

Lemma signing_ignores_prefix_and_wrapping_witness :
  Js.startsWith "0x" "b5bc57" = false
  /\ lookupField "raw" [("raw", JStr "0xb5bc57")] = Some (JStr "0xb5bc57")
  /\ run (Sample.world true) []
       (signMessageUsingWebAuthn Sample.supportedNetworks
          Sample.hexStringToUint8Array Sample.base64FromUint8Array
          Sample.findQuoteIndices
          (JObj [("raw", JStr "0xb5bc57")]) 137 None)
     = run (Sample.world true) []
         (signMessageUsingWebAuthn Sample.supportedNetworks
            Sample.hexStringToUint8Array Sample.base64FromUint8Array
            Sample.findQuoteIndices
            (JStr "b5bc57") 137 None).
Proof.
  split; [reflexivity|]. split; [reflexivity|].
  rewrite (proj2 (signing_ignores_prefix_and_wrapping
                    Sample.supportedNetworks Sample.hexStringToUint8Array
                    Sample.base64FromUint8Array Sample.findQuoteIndices "b5bc57"
                    [("raw", JStr "0xb5bc57")] 137 None eq_refl eq_refl)).
  reflexivity.
Defined.

(** X9.  Whatever its outcome, the [signUserOpHash] callback of an account
    with a chain awaits at most one event, and that event is the
    authentication ceremony restricted to the registered authenticator id
    (type [public-key]), with user verification required, on the
    challenge made from the hash without its ["0x"]; no request is sent
    to the passkey server and no key is imported.  If it awaits nothing it
    fails. *)
Theorem signUserOpHash_single_ceremony (Signer : Type) (networks : list Z)
  (hexStringToUint8Array : string -> Result (list byte))
  (base64FromUint8Array : list byte -> bool -> Result string)
  (findQuoteIndices : string -> Result Utils.QuoteIndices)
  (key : WebAuthnKey) (account : NexusAccount Signer) (ch : Chain)
  (userOpHash : Viem.Hex) (w : World) (h : list Label) :
  clientChain Signer account = Some ch ->
  let out :=
    run w h
      (signUserOpHashOf Signer networks hexStringToUint8Array
         base64FromUint8Array findQuoteIndices key account userOpHash) in
  (fst out = h /\ exists e, snd out = Err e)
  \/ exists bytes challenge answer,
       hexStringToUint8Array (Trace.formatted userOpHash) = Ok bytes
       /\ base64FromUint8Array bytes true = Ok challenge
       /\ fst out
          = (h ++ [Called
                     (Trace.assertionCall challenge
                        (Some [{| credId := authenticatorId key;
                                  credType := "public-key" |}]))
                     answer])%list.
Proof.
  intros Hchain out. subst out. unfold signUserOpHashOf. rewrite Hchain.
  destruct (SigningRuns.signMessage_history networks hexStringToUint8Array
              base64FromUint8Array
              findQuoteIndices w h (JStr userOpHash) (chainId ch)
              (Some [{| credId := authenticatorId key;
                        credType := "public-key" |}]))
    as [Hleft | (content & bytes & challenge & answer
                 & Hcontent & Hbytes & Hchallenge & Hh)].
  - left. exact Hleft.
  - right. cbn [messageContentOf] in Hcontent.
    apply ResultFacts.ok_inj in Hcontent. subst content.
    now exists bytes, challenge, answer.
Qed.

Lemma signUserOpHash_single_ceremony_witness :
  clientChain unit Scenario.account = Some {| chainId := 137 |}
  /\ fst (run (Sample.world true) []
            (signUserOpHashOf unit Sample.supportedNetworks
               Sample.hexStringToUint8Array Sample.base64FromUint8Array
               Sample.findQuoteIndices
               Sample.registeredKey Scenario.account Sample.userOpHash))
     = [Called
          (Trace.assertionCall "tbxXNFS9X_4Byr1cMwqKrIGB-_30a0QhZ6y7ucM0BOE"
             (Some [{| credId := "AQIDBA"; credType := "public-key" |}]))
          (Ok Sample.assertionResponse)].
Proof.
  split; [reflexivity|].
  destruct (signUserOpHash_single_ceremony unit Sample.supportedNetworks
              Sample.hexStringToUint8Array Sample.base64FromUint8Array
              Sample.findQuoteIndices
              Sample.registeredKey Scenario.account {| chainId := 137 |}
              Sample.userOpHash (Sample.world true) [] eq_refl)
    as [[_ [e He]] | _].
  - vm_compute in He. discriminate.
  - vm_compute. reflexivity.
Defined.

Module WordFacts.

Import Reference.

Lemma encodeNumber_range (z : Z) (p : Viem.Prepared) :
  Viem.encodeNumber z = Ok p -> isUint256 z.
Proof.
  unfold Viem.encodeNumber.
  destruct (Viem.numberToHex 32 z) as [hx|e] eqn:E; [|discriminate].
  intros _. apply ViemFacts.numberToHex_inv in E as [Hz _]; [|lia].
  exact Hz.
Qed.

Lemma size_word (word : string) :
  String.length word = 64%nat -> Viem.size ("0x" ++ word) = 32.
Proof. intros H. rewrite ViemFacts.size_prefixed, H. reflexivity. Qed.

Lemma length_wordOfBool (b : bool) : String.length (wordOfBool b) = 64%nat.
Proof. apply SignatureFacts.length_wordOfNumber. Qed.

Lemma size_wordOfNumber (z : Z) : Viem.size ("0x" ++ wordOfNumber z) = 32.
Proof. apply size_word, SignatureFacts.length_wordOfNumber. Qed.

Lemma size_wordOfBool (b : bool) : Viem.size ("0x" ++ wordOfBool b) = 32.
Proof. apply size_word, length_wordOfBool. Qed.

(** The heads of an encoded signature: the data of the first dynamic
    field starts after the six heads, at byte 192, and the three numbers
    are in the range of [uint256]. *)
Lemma encode_signature_heads (authenticatorDataHex : Viem.Hex)
  (clientData : string) (location r s : Z) (flag : bool) (sig : Viem.Hex) :
  Viem.encodeAbiParameters signatureParams
    [Viem.VHex authenticatorDataHex; Viem.VString clientData;
     Viem.VBigInt location; Viem.VBigInt r; Viem.VBigInt s; Viem.VBool flag]
  = Ok sig ->
  isUint256 location /\ isUint256 r /\ isUint256 s
  /\ exists offset2 rest,
       sig = "0x" ++ joinWords
                       [wordOfNumber 192; wordOfNumber offset2;
                        wordOfNumber location; wordOfNumber r;
                        wordOfNumber s; wordOfBool flag] rest.
Proof.
  unfold Viem.encodeAbiParameters, signatureParams.
  cbn [List.length Nat.eqb negb Viem.prepareParams Viem.prepareParam].
  destruct (Viem.encodeBytes None authenticatorDataHex) as [[d1 e1]|e] eqn:E1;
    [|discriminate].
  apply SignatureFacts.encodeBytes_dynamic in E1.
  cbn [Viem.dynamic] in E1. subst d1. cbn [rbind].
  destruct (Viem.encodeString clientData) as [[d2 e2]|e] eqn:E2;
    [|discriminate].
  apply SignatureFacts.encodeString_dynamic in E2.
  cbn [Viem.dynamic] in E2. subst d2. cbn [rbind].
  destruct (Viem.encodeNumber location) as [p3|e] eqn:E3; [|discriminate].
  pose proof (encodeNumber_range _ _ E3) as Hlocation.
  apply SignatureFacts.encodeNumber_inv in E3. subst p3. cbn [rbind].
  destruct (Viem.encodeNumber r) as [p4|e] eqn:E4; [|discriminate].
  pose proof (encodeNumber_range _ _ E4) as Hr.
  apply SignatureFacts.encodeNumber_inv in E4. subst p4. cbn [rbind].
  destruct (Viem.encodeNumber s) as [p5|e] eqn:E5; [|discriminate].
  pose proof (encodeNumber_range _ _ E5) as Hs.
  apply SignatureFacts.encodeNumber_inv in E5. subst p5. cbn [rbind].
  rewrite SignatureFacts.encodeBool_eq. cbn [rbind].
  unfold Viem.encodeParams, Viem.staticSizeOf.
  cbn [fold_left Viem.encodeParamsLoop Viem.dynamic Viem.encoded].
  rewrite !size_wordOfNumber, size_wordOfBool.
  change (0 + 32 + 32 + 32 + 32 + 32 + 32 + 0) with 192.
  destruct (Viem.numberToHex 32 192) as [h1|e] eqn:H1; [|discriminate].
  apply ViemFacts.numberToHex_inv in H1 as [_ ->]; [|lia].
  cbn [rbind].
  destruct (Viem.numberToHex 32 _) as [h2|e] eqn:H2; [|discriminate].
  apply ViemFacts.numberToHex_inv in H2 as [_ ->]; [|lia].
  cbn [rbind fst snd app].
  intros H. apply ResultFacts.ok_inj in H. subst sig.
  split; [exact Hlocation|]. split; [exact Hr|]. split; [exact Hs|].
  rewrite !ViemFacts.concatHex_cons, !ViemFacts.stripPrefix_0x.
  unfold joinWords, wordOfBool, wordOfNumber. cbn [fold_right].
  change (32 * 2)%nat with 64%nat.
  do 2 eexists. reflexivity.
Qed.

Lemma word_of_joinWords (words : list string) (rest : string) (i : nat) :
  Forall (fun d => String.length d = 64%nat) words ->
  (i < List.length words)%nat ->
  abiWord i ("0x" ++ joinWords words rest) = nth i words "".
Proof.
  intros Hall Hi. rewrite SignatureFacts.abiWord_prefixed.
  now apply SignatureFacts.substring_joinWords.
Qed.

End WordFacts.

(** X10.  In every signature that the signing function returns, after the
    single ceremony, the first word is 192 (the data of the authenticator
    data starts after the six heads), the third word is the [beforeType]
    that [findQuoteIndices], whatever function it is, returns on the
    decoded client data, and the fourth and fifth words are the [r] and [s]
    that [parseAndNormalizeSig] returns on the hex text of the decoded
    signature; these three numbers are in the range of [uint256]. *)
Theorem signature_words (networks : list Z)
  (hexStringToUint8Array : string -> Result (list byte))
  (base64FromUint8Array : list byte -> bool -> Result string)
  (findQuoteIndices : string -> Result Utils.QuoteIndices)
  (w : World) (h h' : list Label) (message : JsVal) (chainId : Z)
  (allowCredentials : option (list CredentialDescriptor)) (sig : Viem.Hex) :
  run w h
    (signMessageUsingWebAuthn networks hexStringToUint8Array
       base64FromUint8Array findQuoteIndices message chainId allowCredentials)
  = (h', Ok sig) ->
  exists challenge cred clientData indices signatureBytes rs,
    h' = (h ++ [Called (Trace.assertionCall challenge allowCredentials)
                  (Ok cred)])%list
    /\ Base64.atob (clientDataJSON cred) = Some clientData
    /\ findQuoteIndices clientData = Ok indices
    /\ Utils.b64ToBytes (signature cred) = Ok signatureBytes
    /\ Utils.parseAndNormalizeSig
         (Utils.uint8ArrayToHexString signatureBytes) = Ok rs
    /\ Reference.abiWord 0 sig = Reference.wordOfNumber 192
    /\ Reference.abiWord 2 sig
       = Reference.wordOfNumber (Utils.beforeType indices)
    /\ Reference.abiWord 3 sig = Reference.wordOfNumber (fst rs)
    /\ Reference.abiWord 4 sig = Reference.wordOfNumber (snd rs)
    /\ Reference.isUint256 (Utils.beforeType indices)
    /\ Reference.isUint256 (fst rs)
    /\ Reference.isUint256 (snd rs).
Proof.
  intros Hrun.
  destruct (SigningFacts.signMessage_ok _ _ _ _ _ _ _ _ _ _ _ Hrun)
    as (content & challenge & cred & adBytes & clientData & indices
        & sigBytes & rs & _ & Hh & _ & Hatob & Hfind & Hsigb & Hrs & Hsig).
  destruct (WordFacts.encode_signature_heads _ _ _ _ _ _ _ Hsig)
    as (Hlocation & Hr & Hs & o2 & rest & ->).
  exists challenge, cred, clientData, indices, sigBytes, rs.
  assert (Forall (fun d => String.length d = 64%nat)
            [Reference.wordOfNumber 192; Reference.wordOfNumber o2;
             Reference.wordOfNumber (Utils.beforeType indices);
             Reference.wordOfNumber (fst rs);
             Reference.wordOfNumber (snd rs);
             Reference.wordOfBool
               (Utils.isRIP7212SupportedNetwork networks chainId)]) as Hall.
  { repeat constructor; apply SignatureFacts.length_wordOfNumber. }
  split; [exact Hh|]. split; [exact Hatob|]. split; [exact Hfind|].
  split; [exact Hsigb|]. split; [exact Hrs|].
  split; [now rewrite WordFacts.word_of_joinWords by (simpl; auto; lia)|].
  split; [now rewrite WordFacts.word_of_joinWords by (simpl; auto; lia)|].
  split; [now rewrite WordFacts.word_of_joinWords by (simpl; auto; lia)|].
  split; [now rewrite WordFacts.word_of_joinWords by (simpl; auto; lia)|].
  split; [exact Hlocation|]. split; [exact Hr | exact Hs].
Qed.

Lemma signature_words_witness :
  exists h' sig,
    run (Sample.world true) [] (Sample.sign 137) = (h', Ok sig)
    /\ Reference.abiWord 0 sig = Reference.wordOfNumber 192
    /\ Reference.abiWord 2 sig = Reference.wordOfNumber 1.
Proof.
  destruct (run (Sample.world true) [] (Sample.sign 137))
    as [h' [sig|e]] eqn:E; [|vm_compute in E; discriminate].
  exists h', sig. split; [reflexivity|].
  destruct (signature_words Sample.supportedNetworks
              Sample.hexStringToUint8Array Sample.base64FromUint8Array
              Sample.findQuoteIndices
              (Sample.world true) [] h' (JStr Sample.userOpHash) 137 None
              sig E)
    as (_ & _ & _ & _ & _ & _ & _ & _ & _ & _ & _ & H0 & _).
  split; [exact H0|].
  vm_compute in E. apply (f_equal snd) in E. cbn [snd] in E.
  apply ResultFacts.ok_inj in E. subst sig. vm_compute. reflexivity.
Defined.

(** ** atob *)

Module AtobFacts.

Lemma sextets_invalid (alpha : Base64.Alphabet) (c : ascii) (s : string) :
  Base64.sextet alpha c = None -> In c (list_ascii_of_string s) ->
  Base64.sextets alpha s = None.
Proof.
  intros Hc. induction s as [|d s IH]; simpl; [tauto|].
  intros [->|Hin].
  - now rewrite Hc.
  - rewrite (IH Hin). now destruct (Base64.sextet alpha d).
Qed.

Lemma in_dropWhitespace (c : ascii) (s : string) :
  Base64.isWhitespace c = false -> In c (list_ascii_of_string s) ->
  In c (list_ascii_of_string (Base64.dropWhitespace s)).
Proof.
  intros Hc. induction s as [|d s IH]; simpl; [tauto|].
  intros [->|Hin].
  - rewrite Hc. now left.
  - destruct (Base64.isWhitespace d); [now apply IH | right; now apply IH].
Qed.

Lemma in_stripPadding (c : ascii) (n : nat) (s : string) :
  Ascii.eqb c "=" = false -> In c (list_ascii_of_string s) ->
  In c (list_ascii_of_string (Base64.stripPadding n s)).
Proof.
  intros Hc. unfold Base64.stripPadding.
  rewrite list_ascii_of_string_of_list_ascii.
  intros Hin. apply in_rev in Hin. rewrite <- in_rev.
  revert n. induction (rev (list_ascii_of_string s)) as [|d l IH];
    intros n; [destruct n; exact Hin|].
  destruct n as [|n]; [exact Hin|].
  destruct (Ascii.eqb d "=") eqn:Ed; [|exact Hin].
  apply IH. destruct Hin as [->|Hin]; [congruence | exact Hin].
Qed.

Lemma in_prepared (c : ascii) (s : string) :
  Base64.isWhitespace c = false -> Ascii.eqb c "=" = false ->
  In c (list_ascii_of_string s) ->
  In c (list_ascii_of_string
          (let s1 := Base64.dropWhitespace s in
           if (Z.of_nat (String.length s1) mod 4 =? 0)
           then Base64.stripPadding 2 s1 else s1)).
Proof.
  intros Hw He Hin. apply (in_dropWhitespace c s Hw) in Hin.
  cbv zeta. destruct (_ =? 0); [now apply in_stripPadding | exact Hin].
Qed.

(** [atob] rejects text with a character of the URL-safe alphabet only. *)
Lemma atob_rejects_urlsafe (s : string) :
  In "-"%char (list_ascii_of_string s)
  \/ In "_"%char (list_ascii_of_string s) ->
  Base64.atob s = None.
Proof.
  intros Hocc. unfold Base64.atob, Base64.decodeStrict.
  assert (Base64.sextets Base64.Standard
            (let s1 := Base64.dropWhitespace s in
             if (Z.of_nat (String.length s1) mod 4 =? 0)
             then Base64.stripPadding 2 s1 else s1) = None) as H.
  { destruct Hocc as [H|H].
    - apply (sextets_invalid Base64.Standard "-"); [reflexivity|].
      now apply in_prepared.
    - apply (sextets_invalid Base64.Standard "_"); [reflexivity|].
      now apply in_prepared. }
  cbv zeta in *. now rewrite H.
Qed.

End AtobFacts.

(** X11.  The signing function decodes the authenticator data and the
    signature with [b64ToBytes] but the client data with [atob]: when the
    client data of the assertion contains [-] or [_], the characters by
    which base64url differs from base64, the signing function fails with
    the [InvalidCharacterError] of [atob] after the ceremony, and no
    signature is returned. *)
Theorem signing_fails_on_urlsafe_client_data (networks : list Z)
  (hexStringToUint8Array : string -> Result (list byte))
  (base64FromUint8Array : list byte -> bool -> Result string)
  (findQuoteIndices : string -> Result Utils.QuoteIndices)
  (w : World) (h : list Label) (message : JsVal) (chainId : Z)
  (allowCredentials : option (list CredentialDescriptor))
  (content : string) (bytes : list byte) (challenge : string)
  (cred : AuthenticationResponseJSON) (authenticatorDataBytes : list byte) :
  messageContentOf message = Ok content ->
  hexStringToUint8Array (Trace.formatted content) = Ok bytes ->
  base64FromUint8Array bytes true = Ok challenge ->
  respond w _ h (Trace.assertionCall challenge allowCredentials) = Ok cred ->
  Utils.b64ToBytes (authenticatorData cred) = Ok authenticatorDataBytes ->
  In "-"%char (list_ascii_of_string (clientDataJSON cred))
  \/ In "_"%char (list_ascii_of_string (clientDataJSON cred)) ->
  run w h
    (signMessageUsingWebAuthn networks hexStringToUint8Array
       base64FromUint8Array findQuoteIndices message chainId allowCredentials)
  = ((h ++ [Called (Trace.assertionCall challenge allowCredentials)
              (Ok cred)])%list,
     Err (ExternalError "InvalidCharacterError")).
Proof.
  intros Hcontent Hbytes Hchallenge Hcred Had Hocc.
  unfold signMessageUsingWebAuthn.
  rewrite SigningRuns.run_bind_lift, Hcontent.
  fold (Trace.formatted content).
  rewrite SigningRuns.run_bind_lift, Hbytes.
  rewrite SigningRuns.run_bind_lift, Hchallenge.
  rewrite ProgFacts.run_bind, ProgFacts.run_await.
  fold (Trace.assertionCall challenge allowCredentials). rewrite Hcred.
  rewrite SigningRuns.run_bind_lift, Had.
  rewrite SigningRuns.run_bind_lift.
  now rewrite (AtobFacts.atob_rejects_urlsafe _ Hocc).
Qed.

Lemma signing_fails_on_urlsafe_client_data_witness :
  In "_"%char
    (list_ascii_of_string "eyJ0eXBlIjoid2ViYXV0aG4uZ2V0In0_")
  /\ snd (run (Scenario.world Scenario.urlSafeClientData) []
            (Sample.sign 137))
     = Err (ExternalError "InvalidCharacterError").
Proof.
  assert (In "_"%char
            (list_ascii_of_string "eyJ0eXBlIjoid2ViYXV0aG4uZ2V0In0_"))
    as Hin by (simpl; tauto).
  split; [exact Hin|].
  destruct (Sample.hexStringToUint8Array (Trace.formatted Sample.userOpHash))
    as [bytes|e] eqn:Ebytes; [|vm_compute in Ebytes; discriminate].
  destruct (Utils.b64ToBytes
              (authenticatorData Sample.assertionResponse))
    as [adBytes|e] eqn:Ead; [|vm_compute in Ead; discriminate].
  unfold Sample.sign.
  rewrite (signing_fails_on_urlsafe_client_data Sample.supportedNetworks
             Sample.hexStringToUint8Array Sample.base64FromUint8Array
             Sample.findQuoteIndices
             (Scenario.world Scenario.urlSafeClientData) []
             (JStr Sample.userOpHash) 137 None Sample.userOpHash
             bytes (Base64.encode true bytes)
             {| authId := "AQIDBA";
                authenticatorData :=
                  authenticatorData Sample.assertionResponse;
                clientDataJSON := "eyJ0eXBlIjoid2ViYXV0aG4uZ2V0In0_";
                signature := signature Sample.assertionResponse |}
             adBytes eq_refl Ebytes eq_refl eq_refl Ead (or_intror Hin)).
  reflexivity.
Defined.

(** ** The two encodings of a key *)

Module KeyEncodingFacts.

Import Reference.

Lemma not_uint256 (z : Z) :
  ~ isUint256 z -> z < 0 \/ 2 ^ (8 * Z.of_nat 32) <= z.
Proof.
  unfold isUint256. change (8 * Z.of_nat 32) with 256. lia.
Qed.

Lemma toHex_out_of_range (z : Z) :
  ~ isUint256 z ->
  Viem.toHex z 32 = Err (Viem.viemError "IntegerOutOfRangeError").
Proof.
  intros Hz. apply ViemFacts.numberToHex_out_of_range. now apply not_uint256.
Qed.

Lemma length_padStart (n : nat) (c : ascii) (s : string) :
  (String.length s <= n)%nat -> String.length (Js.padStart n c s) = n.
Proof.
  intros H. unfold Js.padStart.
  rewrite JsFacts.length_append, JsFacts.length_repeatChar. lia.
Qed.

(** [encodeWebAuthnPubKey] on a key in range whose hash has at most 64
    digits. *)
Lemma encodeWebAuthnPubKey_ok (key : WebAuthnKey) (digits : string) :
  isUint256 (pubX key) -> isUint256 (pubY key) ->
  authenticatorIdHash key = "0x" ++ digits ->
  (String.length digits <= 64)%nat ->
  encodeWebAuthnPubKey key
  = Ok ("0x" ++ Hex.fixedHex 64 (pubX key) ++ Hex.fixedHex 64 (pubY key)
          ++ Js.padStart 64 "0" digits).
Proof.
  intros Hx Hy Hh Hlen. unfold encodeWebAuthnPubKey.
  rewrite (EncodingFacts.toHex_uint256 _ Hx).
  rewrite (EncodingFacts.toHex_uint256 _ Hy).
  rewrite Hh. unfold Viem.pad, rbind.
  rewrite ViemFacts.padHex_ok by exact Hlen.
  now rewrite EncodingFacts.concatHex3.
Qed.

Lemma size_bytesToHex (bs : list byte) :
  Viem.size (Viem.bytesToHex bs) = Z.of_nat (List.length bs).
Proof.
  unfold Viem.bytesToHex.
  rewrite ViemFacts.size_prefixed, HexFacts.length_bytesToHex.
  replace (Z.of_nat (2 * List.length bs) + 1)
    with (1 + Z.of_nat (List.length bs) * 2) by lia.
  rewrite Z.div_add by lia. reflexivity.
Qed.

(** The init data cannot be encoded when a coordinate is out of range. *)
Lemma encode_initData_out_of_range (x y : Z) (idHash : Viem.Hex) :
  ~ isUint256 x \/ ~ isUint256 y ->
  Viem.encodeAbiParameters initDataParams
    [Viem.VTuple [Viem.VBigInt x; Viem.VBigInt y]; Viem.VHex idHash]
  = Err (Viem.viemError "IntegerOutOfRangeError").
Proof.
  intros Hrange. unfold Viem.encodeAbiParameters, initDataParams.
  cbn [List.length Nat.eqb negb Viem.prepareParams Viem.prepareParam].
  unfold Viem.encodeNumber.
  destruct (Viem.numberToHex 32 x) as [hx|e] eqn:Ex.
  - apply ViemFacts.numberToHex_inv in Ex as [Hx _]; [|lia].
    destruct Hrange as [Hbad|Hbad]; [now elim Hbad|].
    cbn [rbind].
    now rewrite (ViemFacts.numberToHex_out_of_range 32 y (not_uint256 y Hbad)).
  - cbn [rbind].
    destruct (Z_lt_dec x 0) as [Hneg|Hpos].
    + rewrite ViemFacts.numberToHex_out_of_range in Ex by (now left).
      now rewrite <- Ex.
    + destruct (Z_lt_dec x (2 ^ (8 * Z.of_nat 32))) as [Hlt|Hge].
      * rewrite ViemFacts.numberToHex_ok in Ex by lia. discriminate.
      * rewrite ViemFacts.numberToHex_out_of_range in Ex by (right; lia).
        now rewrite <- Ex.
Qed.

(** Nor when the hash is not of 32 bytes. *)
Lemma encode_initData_wrong_size (x y : Z) (idHash : list byte) :
  isUint256 x -> isUint256 y -> List.length idHash <> 32%nat ->
  Viem.encodeAbiParameters initDataParams
    [Viem.VTuple [Viem.VBigInt x; Viem.VBigInt y];
     Viem.VHex (Viem.bytesToHex idHash)]
  = Err (Viem.viemError "AbiEncodingBytesSizeMismatchError").
Proof.
  intros Hx Hy Hlen. unfold Viem.encodeAbiParameters, initDataParams.
  cbn [List.length Nat.eqb negb Viem.prepareParams Viem.prepareParam].
  rewrite (AbiFacts.encodeNumber_ok x Hx), (AbiFacts.encodeNumber_ok y Hy).
  cbn [rbind existsb Viem.dynamic orb map Viem.encoded].
  unfold Viem.encodeBytes. rewrite size_bytesToHex.
  destruct (Z.eqb_spec (Z.of_nat (List.length idHash)) 32) as [Heq|Hne];
    [lia | reflexivity].
Qed.

(** viem's [size] of a hash is 32 for 63 and for 64 digits. *)
Lemma size_32 (digits : string) :
  Viem.size ("0x" ++ digits) = 32
  <-> (String.length digits = 63 \/ String.length digits = 64)%nat.
Proof.
  rewrite ViemFacts.size_prefixed.
  pose proof (Z.div_mod (Z.of_nat (String.length digits) + 1) 2
                ltac:(lia)) as Hdiv.
  pose proof (Z.mod_pos_bound (Z.of_nat (String.length digits) + 1) 2
                ltac:(lia)) as Hmod.
  lia.
Qed.

(** A [bytes32] argument of 63 or 64 digits is padded on the right. *)
Lemma encodeBytes32_digits (digits : string) :
  (String.length digits = 63 \/ String.length digits = 64)%nat ->
  Viem.encodeBytes (Some 32) ("0x" ++ digits)
  = Ok {| Viem.dynamic := false;
          Viem.encoded := "0x" ++ Js.padEnd 64 "0" digits |}.
Proof.
  intros Hlen. unfold Viem.encodeBytes.
  rewrite (proj2 (size_32 digits) Hlen).
  change (32 =? 32) with true. cbv iota.
  rewrite ViemFacts.padHex_ok by (simpl; lia).
  reflexivity.
Qed.

Lemma encodeBytes32_wrong_size (digits : string) :
  String.length digits <> 63%nat -> String.length digits <> 64%nat ->
  Viem.encodeBytes (Some 32) ("0x" ++ digits)
  = Err (Viem.viemError "AbiEncodingBytesSizeMismatchError").
Proof.
  intros H63 H64. unfold Viem.encodeBytes.
  destruct (Z.eqb_spec (Viem.size ("0x" ++ digits)) 32) as [Heq|Hne];
    [|reflexivity].
  apply size_32 in Heq. lia.
Qed.

(** The init data of a key in range whose hash has 63 or 64 digits. *)
Lemma encode_initData_digits (x y : Z) (digits : string) :
  isUint256 x -> isUint256 y ->
  (String.length digits = 63 \/ String.length digits = 64)%nat ->
  Viem.encodeAbiParameters initDataParams
    [Viem.VTuple [Viem.VBigInt x; Viem.VBigInt y];
     Viem.VHex ("0x" ++ digits)]
  = Ok ("0x" ++ Hex.fixedHex 64 x ++ Hex.fixedHex 64 y
          ++ Js.padEnd 64 "0" digits).
Proof.
  intros Hx Hy Hlen.
  unfold Viem.encodeAbiParameters, initDataParams.
  cbn [List.length Nat.eqb negb Viem.prepareParams Viem.prepareParam].
  rewrite (AbiFacts.encodeNumber_ok x Hx), (AbiFacts.encodeNumber_ok y Hy).
  cbn [rbind existsb Viem.dynamic orb map Viem.encoded].
  rewrite (encodeBytes32_digits digits Hlen).
  unfold Viem.encodeParams.
  cbn [Viem.encodeParamsLoop Viem.dynamic Viem.encoded rbind fst snd app].
  rewrite !ViemFacts.concatHex_cons.
  change (Viem.stripPrefix (Viem.concatHex [])) with "".
  rewrite !JsFacts.append_nil_r, !ViemFacts.stripPrefix_0x.
  now rewrite JsFacts.append_assoc.
Qed.

(** Nor can it be encoded when the hash has another number of digits. *)
Lemma encode_initData_wrong_digits (x y : Z) (digits : string) :
  isUint256 x -> isUint256 y ->
  String.length digits <> 63%nat -> String.length digits <> 64%nat ->
  Viem.encodeAbiParameters initDataParams
    [Viem.VTuple [Viem.VBigInt x; Viem.VBigInt y];
     Viem.VHex ("0x" ++ digits)]
  = Err (Viem.viemError "AbiEncodingBytesSizeMismatchError").
Proof.
  intros Hx Hy H63 H64. unfold Viem.encodeAbiParameters, initDataParams.
  cbn [List.length Nat.eqb negb Viem.prepareParams Viem.prepareParam].
  rewrite (AbiFacts.encodeNumber_ok x Hx), (AbiFacts.encodeNumber_ok y Hy).
  cbn [rbind existsb Viem.dynamic orb map Viem.encoded].
  now rewrite (encodeBytes32_wrong_size digits H63 H64).
Qed.

End KeyEncodingFacts.

(** X12.  [encodeWebAuthnPubKey] on a key whose hash is ["0x"] followed by
    [digits]: when both coordinates are in the range of [uint256] and
    there are at most 64 digits, the result is ["0x"] and 192 digits, the
    two coordinates on 64 digits each and then the digits of the hash
    padded with zeros on the left; a coordinate out of range raises
    viem's [IntegerOutOfRangeError]; more than 64 digits raise
    [SizeExceedsPaddingSizeError]. *)
Theorem encodeWebAuthnPubKey_outcomes (key : WebAuthnKey) (digits : string) :
  authenticatorIdHash key = "0x" ++ digits ->
  (Reference.isUint256 (pubX key) -> Reference.isUint256 (pubY key) ->
   (String.length digits <= 64)%nat ->
   exists out,
     encodeWebAuthnPubKey key = Ok out
     /\ out = "0x" ++ Hex.fixedHex 64 (pubX key)
                ++ Hex.fixedHex 64 (pubY key)
                ++ Js.padStart 64 "0" digits
     /\ String.length out = 194%nat)
  /\ (~ Reference.isUint256 (pubX key) \/ ~ Reference.isUint256 (pubY key) ->
      encodeWebAuthnPubKey key
      = Err (Viem.viemError "IntegerOutOfRangeError"))
  /\ (Reference.isUint256 (pubX key) -> Reference.isUint256 (pubY key) ->
      (64 < String.length digits)%nat ->
      encodeWebAuthnPubKey key
      = Err (Viem.viemError "SizeExceedsPaddingSizeError")).
Proof.
  intros Hh. split; [|split].
  - intros Hx Hy Hlen. eexists. split; [|split; [reflexivity|]].
    + now apply KeyEncodingFacts.encodeWebAuthnPubKey_ok.
    + change ("0x" ++ ?s)%string with (String "0" (String "x" s)).
      cbn [String.length].
      rewrite !JsFacts.length_append, !HexFacts.length_fixedHex.
      rewrite KeyEncodingFacts.length_padStart by exact Hlen. reflexivity.
  - intros Hrange. unfold encodeWebAuthnPubKey.
    destruct (Viem.toHex (pubX key) 32) as [hx|e] eqn:Ex.
    + destruct Hrange as [Hbad|Hbad].
      * rewrite (KeyEncodingFacts.toHex_out_of_range _ Hbad) in Ex.
        discriminate.
      * cbn [rbind].
        now rewrite (KeyEncodingFacts.toHex_out_of_range _ Hbad).
    + cbn [rbind]. unfold Viem.toHex in Ex.
      destruct (Z_lt_dec (pubX key) 0) as [Hneg|Hpos].
      * rewrite ViemFacts.numberToHex_out_of_range in Ex by (now left).
        now rewrite <- Ex.
      * destruct (Z_lt_dec (pubX key) (2 ^ (8 * Z.of_nat 32))) as [Hlt|Hge].
        -- rewrite ViemFacts.numberToHex_ok in Ex by lia. discriminate.
        -- rewrite ViemFacts.numberToHex_out_of_range in Ex by (right; lia).
           now rewrite <- Ex.
  - intros Hx Hy Hlen. unfold encodeWebAuthnPubKey.
    rewrite (EncodingFacts.toHex_uint256 _ Hx).
    rewrite (EncodingFacts.toHex_uint256 _ Hy).
    rewrite Hh. unfold Viem.pad, rbind.
    now rewrite ViemFacts.padHex_too_long by exact Hlen.
Qed.

Lemma encodeWebAuthnPubKey_outcomes_witness :
  authenticatorIdHash
    {| pubX := 2 ^ 256; pubY := 1; authenticatorId := "AQIDBA";
       authenticatorIdHash := "0x" ++ "abc" |} = "0x" ++ "abc"
  /\ encodeWebAuthnPubKey
       {| pubX := 2 ^ 256; pubY := 1; authenticatorId := "AQIDBA";
          authenticatorIdHash := "0x" ++ "abc" |}
     = Err (Viem.viemError "IntegerOutOfRangeError")
  /\ exists out,
       encodeWebAuthnPubKey
         {| pubX := 7; pubY := 1; authenticatorId := "AQIDBA";
            authenticatorIdHash := "0x" ++ "abc" |} = Ok out
       /\ String.length out = 194%nat.
Proof.
  split; [reflexivity|]. split.
  - apply (proj1 (proj2 (encodeWebAuthnPubKey_outcomes
                           {| pubX := 2 ^ 256; pubY := 1;
                              authenticatorId := "AQIDBA";
                              authenticatorIdHash := "0x" ++ "abc" |}
                           "abc" eq_refl))).
    left. unfold Reference.isUint256. cbn [pubX]. lia.
  - destruct (proj1 (encodeWebAuthnPubKey_outcomes
                       {| pubX := 7; pubY := 1; authenticatorId := "AQIDBA";
                          authenticatorIdHash := "0x" ++ "abc" |}
                       "abc" eq_refl))
      as (out & Hout & _ & Hlen).
    + unfold Reference.isUint256. cbn [pubX]. lia.
    + unfold Reference.isUint256. cbn [pubY]. lia.
    + simpl. lia.
    + exists out. split; [exact Hout | exact Hlen].
Defined.

(** X13.  [toPasskeyValidator] on a key whose hash is ["0x"] followed by
    [digits]: the module is built exactly when both coordinates are in
    the range of [uint256] and there are 63 or 64 digits, the lengths for
    which viem's [size] of the hash is 32.  Its init data, in both places,
    is then ["0x"], the two coordinates on 64 digits each and the digits of
    the hash, a hash of 63 digits being padded with one zero on the right
    (where [encodeWebAuthnPubKey] pads on the left).  A coordinate out of
    range makes it fail with viem's [IntegerOutOfRangeError]; with
    coordinates in range, any other number of digits makes it fail with
    [AbiEncodingBytesSizeMismatchError]. *)
Theorem toPasskeyValidator_outcomes (Signer : Type)
  (validatorAddress : Viem.Hex) (networks : list Z)
  (hexStringToUint8Array : string -> Result (list byte))
  (base64FromUint8Array : list byte -> bool -> Result string)
  (findQuoteIndices : string -> Result Utils.QuoteIndices)
  (key : WebAuthnKey) (account : NexusAccount Signer) (digits : string) :
  authenticatorIdHash key = "0x" ++ digits ->
  let build :=
    toPasskeyValidator Signer validatorAddress networks hexStringToUint8Array
      base64FromUint8Array findQuoteIndices key account in
  ((exists m, build = Ok m)
   <-> Reference.isUint256 (pubX key) /\ Reference.isUint256 (pubY key)
       /\ (String.length digits = 63 \/ String.length digits = 64)%nat)
  /\ (forall m,
        build = Ok m ->
        initData m
        = "0x" ++ Hex.fixedHex 64 (pubX key) ++ Hex.fixedHex 64 (pubY key)
            ++ Js.padEnd 64 "0" digits
        /\ moduleInitData_initData (moduleInitData m) = initData m)
  /\ (~ Reference.isUint256 (pubX key) \/ ~ Reference.isUint256 (pubY key) ->
      build = Err (Viem.viemError "IntegerOutOfRangeError"))
  /\ (Reference.isUint256 (pubX key) -> Reference.isUint256 (pubY key) ->
      String.length digits <> 63%nat -> String.length digits <> 64%nat ->
      build = Err (Viem.viemError "AbiEncodingBytesSizeMismatchError")).
Proof.
  intros Hh build.
  assert (~ Reference.isUint256 (pubX key) \/ ~ Reference.isUint256 (pubY key)
          -> build = Err (Viem.viemError "IntegerOutOfRangeError")) as Hrange.
  { intros Hbad. subst build. unfold toPasskeyValidator.
    now rewrite (KeyEncodingFacts.encode_initData_out_of_range _ _ _ Hbad). }
  assert (Reference.isUint256 (pubX key) -> Reference.isUint256 (pubY key) ->
          String.length digits <> 63%nat -> String.length digits <> 64%nat ->
          build = Err (Viem.viemError "AbiEncodingBytesSizeMismatchError"))
    as Hsize.
  { intros Hx Hy H63 H64. subst build. unfold toPasskeyValidator. rewrite Hh.
    now rewrite (KeyEncodingFacts.encode_initData_wrong_digits _ _ _ Hx Hy
                   H63 H64). }
  assert (forall m, build = Ok m ->
          Reference.isUint256 (pubX key) /\ Reference.isUint256 (pubY key)
          /\ (String.length digits = 63 \/ String.length digits = 64)%nat)
    as Hbuilt.
  { intros m Hm.
    assert (0 <= pubX key < 2 ^ 256 \/ ~ Reference.isUint256 (pubX key))
      as [Hx|Hx] by (unfold Reference.isUint256; lia);
      [|rewrite (Hrange (or_introl Hx)) in Hm; discriminate].
    assert (0 <= pubY key < 2 ^ 256 \/ ~ Reference.isUint256 (pubY key))
      as [Hy|Hy] by (unfold Reference.isUint256; lia);
      [|rewrite (Hrange (or_intror Hy)) in Hm; discriminate].
    split; [exact Hx|]. split; [exact Hy|].
    destruct (Nat.eq_dec (String.length digits) 63) as [H63|H63];
      [now left|].
    destruct (Nat.eq_dec (String.length digits) 64) as [H64|H64];
      [now right|].
    rewrite (Hsize Hx Hy H63 H64) in Hm. discriminate. }
  split; [|split; [|split; assumption]].
  - split.
    + intros [m Hm]. exact (Hbuilt m Hm).
    + intros (Hx & Hy & Hlen). subst build. unfold toPasskeyValidator.
      rewrite Hh, (KeyEncodingFacts.encode_initData_digits _ _ _ Hx Hy Hlen).
      cbn [rbind]. eexists. reflexivity.
  - intros m Hm. destruct (Hbuilt m Hm) as (Hx & Hy & Hlen).
    subst build. unfold toPasskeyValidator in Hm.
    rewrite Hh, (KeyEncodingFacts.encode_initData_digits _ _ _ Hx Hy Hlen)
      in Hm.
    cbn [rbind] in Hm. apply ResultFacts.ok_inj in Hm. subst m.
    cbn [initData moduleInitData moduleInitData_initData].
    split; reflexivity.
Qed.

Lemma toPasskeyValidator_outcomes_witness :
  authenticatorIdHash Scenario.shortHashKey = "0x" ++ Scenario.digits63
  /\ String.length Scenario.digits63 = 63%nat
  /\ (exists m,
        toPasskeyValidator unit Sample.validatorAddress
          Sample.supportedNetworks Sample.hexStringToUint8Array
          Sample.base64FromUint8Array Sample.findQuoteIndices
          Scenario.shortHashKey Scenario.account = Ok m
        /\ initData m
           = "0x" ++ Hex.fixedHex 64 1 ++ Hex.fixedHex 64 2
               ++ Scenario.digits63 ++ "0"
        /\ encodeWebAuthnPubKey Scenario.shortHashKey
           = Ok ("0x" ++ Hex.fixedHex 64 1 ++ Hex.fixedHex 64 2
                   ++ "0" ++ Scenario.digits63))
  /\ toPasskeyValidator unit Sample.validatorAddress Sample.supportedNetworks
       Sample.hexStringToUint8Array Sample.base64FromUint8Array
       Sample.findQuoteIndices Scenario.twoByteHashKey Scenario.account
     = Err (Viem.viemError "AbiEncodingBytesSizeMismatchError").
Proof.
  pose proof (toPasskeyValidator_outcomes unit Sample.validatorAddress
                Sample.supportedNetworks Sample.hexStringToUint8Array
                Sample.base64FromUint8Array Sample.findQuoteIndices
                Scenario.shortHashKey Scenario.account Scenario.digits63
                eq_refl)
    as (Hiff & Hdata & _ & _).
  pose proof (toPasskeyValidator_outcomes unit Sample.validatorAddress
                Sample.supportedNetworks Sample.hexStringToUint8Array
                Sample.base64FromUint8Array Sample.findQuoteIndices
                Scenario.twoByteHashKey Scenario.account "0102" eq_refl)
    as (_ & _ & _ & Hsize).
  assert (Reference.isUint256 1) as H1 by (unfold Reference.isUint256; lia).
  assert (Reference.isUint256 2) as H2 by (unfold Reference.isUint256; lia).
  split; [reflexivity|]. split; [reflexivity|]. split.
  - destruct (proj2 Hiff (conj H1 (conj H2 (or_introl eq_refl))))
      as [m Hm].
    exists m. split; [exact Hm|]. split.
    + exact (proj1 (Hdata m Hm)).
    + vm_compute. reflexivity.
  - apply (Hsize H1 H2); simpl; lia.
Defined.

(** X14.  For a key of the data model (coordinates in the range of
    [uint256], a hash of exactly 32 bytes) the text that
    [encodeWebAuthnPubKey] returns is the init data that
    [toPasskeyValidator] passes to the module, in both of its places. *)
Theorem encodeWebAuthnPubKey_is_initData (Signer : Type)
  (validatorAddress : Viem.Hex) (networks : list Z)
  (hexStringToUint8Array : string -> Result (list byte))
  (base64FromUint8Array : list byte -> bool -> Result string)
  (findQuoteIndices : string -> Result Utils.QuoteIndices)
  (key : WebAuthnKey) (account : NexusAccount Signer) (idHash : list byte) :
  Reference.isUint256 (pubX key) ->
  Reference.isUint256 (pubY key) ->
  authenticatorIdHash key = Viem.bytesToHex idHash ->
  List.length idHash = 32%nat ->
  exists m,
    toPasskeyValidator Signer validatorAddress networks hexStringToUint8Array
      base64FromUint8Array findQuoteIndices key account = Ok m
    /\ encodeWebAuthnPubKey key = Ok (initData m)
    /\ encodeWebAuthnPubKey key
       = Ok (moduleInitData_initData (moduleInitData m)).
Proof.
  intros Hx Hy Hh Hlen.
  assert (encodeWebAuthnPubKey key
          = Ok (Viem.bytesToHex
                  (Reference.abiEncodeInitData (pubX key) (pubY key) idHash)))
    as Henc.
  { rewrite (KeyEncodingFacts.encodeWebAuthnPubKey_ok key
               (Hex.bytesToHex idHash) Hx Hy Hh)
      by (rewrite HexFacts.length_bytesToHex; lia).
    rewrite ViemFacts.padStart_full
      by (rewrite HexFacts.length_bytesToHex; lia).
    unfold Viem.bytesToHex, Reference.abiEncodeInitData.
    rewrite !HexFacts.bytesToHex_app, !ReferenceFacts.bytesToHex_bytesBE.
    reflexivity. }
  unfold toPasskeyValidator.
  rewrite Hh, (AbiFacts.encode_initData _ _ _ Hx Hy Hlen).
  cbn [rbind]. eexists. split; [reflexivity|].
  cbn [initData moduleInitData moduleInitData_initData].
  split; exact Henc.
Qed.

Lemma encodeWebAuthnPubKey_is_initData_witness :
  Reference.isUint256 (pubX Sample.registeredKey)
  /\ Reference.isUint256 (pubY Sample.registeredKey)
  /\ authenticatorIdHash Sample.registeredKey
     = Viem.bytesToHex Sample.registeredIdHash
  /\ List.length Sample.registeredIdHash = 32%nat
  /\ exists m,
       toPasskeyValidator unit Sample.validatorAddress
         Sample.supportedNetworks Sample.hexStringToUint8Array
         Sample.base64FromUint8Array
         Sample.findQuoteIndices Sample.registeredKey Scenario.account
       = Ok m
       /\ encodeWebAuthnPubKey Sample.registeredKey = Ok (initData m).
Proof.
  assert (Reference.isUint256 (pubX Sample.registeredKey)) as Hx
    by (unfold Reference.isUint256; simpl; lia).
  assert (Reference.isUint256 (pubY Sample.registeredKey)) as Hy
    by (unfold Reference.isUint256; simpl; lia).
  assert (authenticatorIdHash Sample.registeredKey
          = Viem.bytesToHex Sample.registeredIdHash) as Hh
    by (vm_compute; reflexivity).
  assert (List.length Sample.registeredIdHash = 32%nat) as Hlen
    by (vm_compute; reflexivity).
  split; [exact Hx|]. split; [exact Hy|]. split; [exact Hh|].
  split; [exact Hlen|].
  destruct (encodeWebAuthnPubKey_is_initData unit Sample.validatorAddress
              Sample.supportedNetworks Sample.hexStringToUint8Array
              Sample.base64FromUint8Array
              Sample.findQuoteIndices Sample.registeredKey
              Scenario.account Sample.registeredIdHash Hx Hy Hh Hlen)
    as (m & Hm & Henc & _).
  exists m. split; [exact Hm | exact Henc].
Defined.

(** X15.  The callback of a built module signs for the chain of the
    account: in every signature that [signUserOpHash] returns, the word of
    [usePrecompiled] is that of the membership of the chain id of the
    account's client in the allow-list. *)
Theorem module_signature_uses_account_chain (Signer : Type)
  (validatorAddress : Viem.Hex) (networks : list Z)
  (hexStringToUint8Array : string -> Result (list byte))
  (base64FromUint8Array : list byte -> bool -> Result string)
  (findQuoteIndices : string -> Result Utils.QuoteIndices)
  (key : WebAuthnKey) (account : NexusAccount Signer) (ch : Chain)
  (m : ToModuleParameters Signer) (userOpHash : Viem.Hex)
  (w : World) (h h' : list Label) (sig : Viem.Hex) :
  toPasskeyValidator Signer validatorAddress networks hexStringToUint8Array
    base64FromUint8Array findQuoteIndices key account = Ok m ->
  clientChain Signer account = Some ch ->
  run w h (signUserOpHash m userOpHash) = (h', Ok sig) ->
  Reference.abiWord 5 sig
  = Reference.wordOfBool
      (Utils.isRIP7212SupportedNetwork networks (chainId ch)).
Proof.
  intros Hm Hchain. unfold toPasskeyValidator in Hm.
  destruct (Viem.encodeAbiParameters _ _) as [data|e]; cbn [rbind] in Hm;
    [|discriminate].
  apply ResultFacts.ok_inj in Hm. subst m. cbn [signUserOpHash].
  unfold signUserOpHashOf. rewrite Hchain. intros Hrun.
  destruct (SigningFacts.signMessage_ok _ _ _ _ _ _ _ _ _ _ _ Hrun)
    as (content & challenge & cred & adBytes & clientData & indices
        & sigBytes & rs & _ & _ & _ & _ & _ & _ & _ & Hsig).
  destruct (WordFacts.encode_signature_heads _ _ _ _ _ _ _ Hsig)
    as (_ & _ & _ & o2 & rest & ->).
  rewrite WordFacts.word_of_joinWords; [reflexivity | | simpl; lia].
  repeat constructor; apply SignatureFacts.length_wordOfNumber.
Qed.

Lemma module_signature_uses_account_chain_witness :
  exists m h' sig,
    toPasskeyValidator unit Sample.validatorAddress Sample.supportedNetworks
      Sample.hexStringToUint8Array Sample.base64FromUint8Array
      Sample.findQuoteIndices
      Sample.registeredKey Scenario.account = Ok m
    /\ clientChain unit Scenario.account = Some {| chainId := 137 |}
    /\ run (Sample.world true) [] (signUserOpHash m Sample.userOpHash)
       = (h', Ok sig)
    /\ Reference.abiWord 5 sig = Reference.wordOfBool true.
Proof.
  assert (Reference.isUint256 (pubX Sample.registeredKey)) as Hx
    by (unfold Reference.isUint256; simpl; lia).
  assert (Reference.isUint256 (pubY Sample.registeredKey)) as Hy
    by (unfold Reference.isUint256; simpl; lia).
  assert (authenticatorIdHash Sample.registeredKey
          = Viem.bytesToHex Sample.registeredIdHash) as Hh
    by (vm_compute; reflexivity).
  assert (List.length Sample.registeredIdHash = 32%nat) as Hlen
    by (vm_compute; reflexivity).
  assert (exists m,
             toPasskeyValidator unit Sample.validatorAddress
               Sample.supportedNetworks Sample.hexStringToUint8Array
               Sample.base64FromUint8Array
               Sample.findQuoteIndices Sample.registeredKey
               Scenario.account = Ok m
             /\ signUserOpHash m Sample.userOpHash
                = signUserOpHashOf unit Sample.supportedNetworks
                    Sample.hexStringToUint8Array Sample.base64FromUint8Array
                    Sample.findQuoteIndices
                    Sample.registeredKey Scenario.account Sample.userOpHash)
    as (m & Hm & Hcallback).
  { unfold toPasskeyValidator.
    rewrite Hh, (AbiFacts.encode_initData _ _ _ Hx Hy Hlen).
    cbn [rbind]. eexists. split; reflexivity. }
  destruct (run (Sample.world true) [] (signUserOpHash m Sample.userOpHash))
    as [h' [sig|e]] eqn:Hrun.
  - exists m, h', sig. split; [exact Hm|]. split; [reflexivity|].
    split; [exact Hrun|].
    exact (module_signature_uses_account_chain unit Sample.validatorAddress
             Sample.supportedNetworks Sample.hexStringToUint8Array
             Sample.base64FromUint8Array
             Sample.findQuoteIndices Sample.registeredKey
             Scenario.account {| chainId := 137 |} m Sample.userOpHash
             (Sample.world true) [] h' sig Hm eq_refl Hrun).
  - exfalso. rewrite Hcallback in Hrun. vm_compute in Hrun. discriminate.
Defined.

Module MessageFacts.

Lemma list_ascii_append (a b : string) :
  list_ascii_of_string (a ++ b)
  = (list_ascii_of_string a ++ list_ascii_of_string b)%list.
Proof. induction a as [|c a IH]; simpl; [reflexivity | now rewrite IH]. Qed.

Lemma uint8ArrayToString_cons2 (b b' : byte) (bs : list byte) :
  uint8ArrayToString (b :: b' :: bs)
  = decimalOfByte b ++ "," ++ uint8ArrayToString (b' :: bs).
Proof. reflexivity. Qed.

End MessageFacts.

(** X16.  A message whose [raw] is a byte array is signed as the text of
    [raw.toString()], the decimal values of the bytes joined by commas,
    and not as the hexadecimal text of the bytes: the computation is that
    of the string message with this text, which contains a comma as soon
    as the array has two elements. *)
Theorem byte_array_message_is_its_decimal_listing (networks : list Z)
  (hexStringToUint8Array : string -> Result (list byte))
  (base64FromUint8Array : list byte -> bool -> Result string)
  (findQuoteIndices : string -> Result Utils.QuoteIndices)
  (fields : list (string * JsVal)) (bs : list byte) (chainId : Z)
  (allowCredentials : option (list CredentialDescriptor)) :
  lookupField "raw" fields = Some (JBytes bs) ->
  signMessageUsingWebAuthn networks hexStringToUint8Array
    base64FromUint8Array findQuoteIndices (JObj fields) chainId allowCredentials
  = signMessageUsingWebAuthn networks hexStringToUint8Array
      base64FromUint8Array
      findQuoteIndices (JStr (uint8ArrayToString bs)) chainId
      allowCredentials
  /\ ((2 <= List.length bs)%nat ->
      In ","%char (list_ascii_of_string (uint8ArrayToString bs))).
Proof.
  intros Hraw. split.
  - apply SigningRuns.signMessage_content.
    cbn [messageContentOf hasProp getProp rbind]. now rewrite Hraw.
  - intros Hlen. destruct bs as [|b [|b' bs]]; simpl in Hlen; try lia.
    rewrite MessageFacts.uint8ArrayToString_cons2.
    rewrite MessageFacts.list_ascii_append. apply in_or_app. right.
    left. reflexivity.
Qed.

Lemma byte_array_message_is_its_decimal_listing_witness :
  lookupField "raw" [("raw", JBytes [x10; xff])] = Some (JBytes [x10; xff])
  /\ uint8ArrayToString [x10; xff] = "16,255"
  /\ signMessageUsingWebAuthn Sample.supportedNetworks
       Sample.hexStringToUint8Array Sample.base64FromUint8Array
       Sample.findQuoteIndices
       (JObj [("raw", JBytes [x10; xff])]) 137 None
     = signMessageUsingWebAuthn Sample.supportedNetworks
         Sample.hexStringToUint8Array Sample.base64FromUint8Array
         Sample.findQuoteIndices
         (JStr "16,255") 137 None.
Proof.
  split; [reflexivity|]. split; [reflexivity|].
  exact (proj1 (byte_array_message_is_its_decimal_listing
                  Sample.supportedNetworks Sample.hexStringToUint8Array
                  Sample.base64FromUint8Array
                  Sample.findQuoteIndices [("raw", JBytes [x10; xff])]
                  [x10; xff] 137 None eq_refl)).
Defined.

(** X17.  In a login that the server verifies, a verify response whose
    [pubkey] is absent or falsy makes [toWebAuthnKey] fail with
    [MissingPublicKey] right after the verify request: nothing is hashed
    or imported. *)
Theorem login_without_public_key (w : World) (h : list Label)
  (params : WebAuthnAccountParams) (loginOptions : JsVal)
  (cred : AuthenticationResponseJSON)
  (verifyResult verification verified pubkey : JsVal) :
  webAuthnKey params = None ->
  mode params = Some Login ->
  Trace.loginAnswered w h params loginOptions cred verifyResult ->
  getProp "verification" verifyResult = Ok verification ->
  getProp "verified" verification = Ok verified ->
  truthy verified = true ->
  getProp "pubkey" verifyResult = Ok pubkey ->
  truthy pubkey = false ->
  run w h (toWebAuthnKey params)
  = ((h ++ Trace.login params loginOptions cred verifyResult)%list,
     Err MissingPublicKey).
Proof.
  intros Hnone Hmode Hans Hverification Hverified Ht Hpubkey Hfalsy.
  rewrite (KeyFacts.toWebAuthnKey_login params Hnone Hmode).
  rewrite ProgFacts.run_bind.
  rewrite (FlowRuns.loginFlow_run w h params loginOptions cred verifyResult
             verification verified Hans Hverification Hverified).
  rewrite Ht, Hpubkey. cbn [fst snd].
  now apply KeyFacts.deriveKey_missing_public_key.
Qed.

Lemma login_without_public_key_witness :
  Trace.loginAnswered (Scenario.world Scenario.withoutPublicKey) []
    Scenario.loginParams Sample.ceremonyOptions Sample.assertionResponse
    (Scenario.verifyResult Scenario.withoutPublicKey)
  /\ snd (run (Scenario.world Scenario.withoutPublicKey) []
            (toWebAuthnKey Scenario.loginParams))
     = Err MissingPublicKey.
Proof.
  assert (Trace.loginAnswered (Scenario.world Scenario.withoutPublicKey) []
            Scenario.loginParams Sample.ceremonyOptions
            Sample.assertionResponse
            (Scenario.verifyResult Scenario.withoutPublicKey)) as Hans
    by (repeat split; reflexivity).
  split; [exact Hans|].
  rewrite (login_without_public_key
             (Scenario.world Scenario.withoutPublicKey) []
             Scenario.loginParams Sample.ceremonyOptions
             Sample.assertionResponse
             (Scenario.verifyResult Scenario.withoutPublicKey)
             (JObj [("verified", JBool true)]) (JBool true) JUndefined
             eq_refl eq_refl Hans eq_refl eq_refl eq_refl eq_refl eq_refl).
  reflexivity.
Defined.

(** X18.  A verify response of a login that has no [verification] field
    (or a [null] one) does not give [LoginNotVerified]: reading
    [verification.verified] raises a [TypeError], after the three events
    of the login.  (In a registration a missing [verified] is falsy and
    gives [RegistrationNotVerified].) *)
Theorem login_verify_without_verification (w : World) (h : list Label)
  (params : WebAuthnAccountParams) (loginOptions : JsVal)
  (cred : AuthenticationResponseJSON) (verifyResult verification : JsVal) :
  webAuthnKey params = None ->
  mode params = Some Login ->
  Trace.loginAnswered w h params loginOptions cred verifyResult ->
  getProp "verification" verifyResult = Ok verification ->
  verification = JUndefined \/ verification = JNull ->
  run w h (toWebAuthnKey params)
  = ((h ++ Trace.login params loginOptions cred verifyResult)%list,
     Err typeError).
Proof.
  intros Hnone Hmode (Hopt & Hcred & Hver) Hverification Hmissing.
  rewrite (KeyFacts.toWebAuthnKey_login params Hnone Hmode).
  rewrite ProgFacts.run_bind. unfold loginFlow.
  rewrite ProgFacts.run_bind, FlowFacts.run_post.
  fold (Trace.loginOptionsCall params). rewrite Hopt.
  rewrite ProgFacts.run_bind, ProgFacts.run_await, Hcred.
  rewrite ProgFacts.run_bind, FlowFacts.run_post.
  fold (Trace.loginVerifyCall params cred).
  rewrite <- !app_assoc. cbn [app]. rewrite Hver.
  rewrite SigningRuns.run_bind_lift, Hverification.
  rewrite SigningRuns.run_bind_lift.
  now destruct Hmissing as [-> | ->].
Qed.

Lemma login_verify_without_verification_witness :
  Trace.loginAnswered Scenario.flatWorld [] Scenario.loginParams
    Sample.ceremonyOptions Sample.assertionResponse
    Scenario.flatVerifyResult
  /\ getProp "verification" Scenario.flatVerifyResult = Ok JUndefined
  /\ snd (run Scenario.flatWorld [] (toWebAuthnKey Scenario.loginParams))
     = Err typeError.
Proof.
  assert (Trace.loginAnswered Scenario.flatWorld [] Scenario.loginParams
            Sample.ceremonyOptions Sample.assertionResponse
            Scenario.flatVerifyResult) as Hans
    by (repeat split; reflexivity).
  split; [exact Hans|]. split; [reflexivity|].
  rewrite (login_verify_without_verification Scenario.flatWorld []
             Scenario.loginParams Sample.ceremonyOptions
             Sample.assertionResponse Scenario.flatVerifyResult JUndefined
             eq_refl eq_refl Hans eq_refl (or_introl eq_refl)).
  reflexivity.
Defined.

(** ** No retry *)

Module BoundFacts.

(** What a part of [toWebAuthnKey] may add to the history: at most
    [events] events, of which at most [ceremonies] ceremonies and at most
    [keys] imports or exports. *)
Lemma registerFlow_bound (w : World) (h : list Label)
  (params : WebAuthnAccountParams) :
  exists new,
    fst (run w h (registerFlow params)) = (h ++ new)%list
    /\ (List.length new <= 3)%nat
    /\ (List.length (filter isCeremony new) <= 1)%nat
    /\ filter isKeyDerivation new = [].
Proof.
  unfold registerFlow.
  rewrite ProgFacts.run_bind, FlowFacts.run_post.
  destruct (respond w JsVal h _) as [registerOptions|e];
    [|eexists; split; [reflexivity | simpl; auto]].
  rewrite SigningRuns.run_bind_lift.
  destruct (getProp "options" registerOptions) as [options|e];
    [|eexists; split; [reflexivity | simpl; auto]].
  rewrite ProgFacts.run_bind, ProgFacts.run_await.
  destruct (respond w RegistrationResponseJSON _ _) as [cred|e];
    [|eexists; split; [cbn [fst]; rewrite <- app_assoc; reflexivity
                      | simpl; auto]].
  rewrite SigningRuns.run_bind_lift.
  destruct (getProp "userId" registerOptions) as [userId|e];
    [|eexists; split; [cbn [fst]; rewrite <- app_assoc; reflexivity
                      | simpl; auto]].
  rewrite ProgFacts.run_bind, FlowFacts.run_post.
  destruct (respond w JsVal _ _) as [verifyResult|e];
    [|eexists; split; [cbn [fst]; rewrite <- !app_assoc; reflexivity
                      | simpl; auto]].
  rewrite SigningRuns.run_bind_lift.
  destruct (getProp "verified" verifyResult) as [verified|e];
    [|eexists; split; [cbn [fst]; rewrite <- !app_assoc; reflexivity
                      | simpl; auto]].
  destruct (truthy verified); cbn [negb run];
    eexists; (split; [cbn [fst]; rewrite <- !app_assoc; reflexivity
                     | simpl; auto]).
Qed.

Lemma loginFlow_bound (w : World) (h : list Label)
  (params : WebAuthnAccountParams) :
  exists new,
    fst (run w h (loginFlow params)) = (h ++ new)%list
    /\ (List.length new <= 3)%nat
    /\ (List.length (filter isCeremony new) <= 1)%nat
    /\ filter isKeyDerivation new = [].
Proof.
  unfold loginFlow.
  rewrite ProgFacts.run_bind, FlowFacts.run_post.
  destruct (respond w JsVal h _) as [loginOptions|e];
    [|eexists; split; [reflexivity | simpl; auto]].
  rewrite ProgFacts.run_bind, ProgFacts.run_await.
  destruct (respond w AuthenticationResponseJSON _ _) as [cred|e];
    [|eexists; split; [cbn [fst]; rewrite <- app_assoc; reflexivity
                      | simpl; auto]].
  rewrite ProgFacts.run_bind, FlowFacts.run_post.
  destruct (respond w JsVal _ _) as [verifyResult|e];
    [|eexists; split; [cbn [fst]; rewrite <- !app_assoc; reflexivity
                      | simpl; auto]].
  rewrite SigningRuns.run_bind_lift.
  destruct (getProp "verification" verifyResult) as [verification|e];
    [|eexists; split; [cbn [fst]; rewrite <- !app_assoc; reflexivity
                      | simpl; auto]].
  rewrite SigningRuns.run_bind_lift.
  destruct (getProp "verified" verification) as [verified|e];
    [|eexists; split; [cbn [fst]; rewrite <- !app_assoc; reflexivity
                      | simpl; auto]].
  destruct (truthy verified); cbn [negb run];
    [|eexists; split; [cbn [fst]; rewrite <- !app_assoc; reflexivity
                      | simpl; auto]].
  rewrite SigningRuns.run_bind_lift.
  destruct (getProp "pubkey" verifyResult);
    eexists; (split; [cbn [fst run]; rewrite <- !app_assoc; reflexivity
                     | simpl; auto]).
Qed.

Lemma deriveKey_bound (w : World) (h : list Label) (pubKey : JsVal)
  (id : string) :
  exists new,
    fst (run w h (deriveKey pubKey id)) = (h ++ new)%list
    /\ (List.length new <= 2)%nat
    /\ filter isCeremony new = [].
Proof.
  unfold deriveKey.
  destruct (truthy pubKey); cbn [negb];
    [|exists []; split; [cbn [run fst]; now rewrite app_nil_r | simpl; auto]].
  destruct (id =? "")%string;
    [exists []; split; [cbn [run fst]; now rewrite app_nil_r | simpl; auto]|].
  rewrite SigningRuns.run_bind_lift.
  destruct (Utils.b64ToBytes id) as [idBytes|e];
    [|exists []; split; [cbn [fst]; now rewrite app_nil_r | simpl; auto]].
  rewrite SigningRuns.run_bind_lift.
  destruct (Viem.keccak256 _) as [idHash|e];
    [|exists []; split; [cbn [fst]; now rewrite app_nil_r | simpl; auto]].
  rewrite SigningRuns.run_bind_lift.
  destruct (bufferFrom pubKey) as [spkiDer|e];
    [|exists []; split; [cbn [fst]; now rewrite app_nil_r | simpl; auto]].
  rewrite ProgFacts.run_bind, ProgFacts.run_await.
  destruct (respond w CryptoKey h _) as [key|e];
    [|eexists; split; [reflexivity | simpl; auto]].
  rewrite ProgFacts.run_bind, ProgFacts.run_await.
  destruct (respond w (list byte) _ _) as [rawKey|e];
    [|eexists; split; [cbn [fst]; rewrite <- app_assoc; reflexivity
                      | simpl; auto]].
  rewrite SigningRuns.run_bind_lift.
  destruct (bigIntOfHex _);
    [|eexists; split; [cbn [fst]; rewrite <- app_assoc; reflexivity
                      | simpl; auto]].
  rewrite SigningRuns.run_bind_lift.
  destruct (bigIntOfHex _);
    eexists; (split; [cbn [fst run]; rewrite <- app_assoc; reflexivity
                     | simpl; auto]).
Qed.

End BoundFacts.

(** X19.  [toWebAuthnKey] never retries: whatever the mode, the world and
    the outcome, it awaits at most five events, of which at most one is a
    ceremony and at most two are the import and the export of a key. *)
Theorem toWebAuthnKey_event_bound (w : World) (h : list Label)
  (params : WebAuthnAccountParams) :
  exists new,
    fst (run w h (toWebAuthnKey params)) = (h ++ new)%list
    /\ (List.length new <= 5)%nat
    /\ (List.length (filter isCeremony new) <= 1)%nat
    /\ (List.length (filter isKeyDerivation new) <= 2)%nat.
Proof.
  unfold toWebAuthnKey.
  destruct (webAuthnKey params) as [key|].
  { exists []. cbn [run fst]. rewrite app_nil_r.
    repeat split; simpl; lia. }
  rewrite ProgFacts.run_bind.
  assert (exists new,
             fst (run w h
                    match mode params with
                    | Some Login => loginFlow params
                    | _ => registerFlow params
                    end) = (h ++ new)%list
             /\ (List.length new <= 3)%nat
             /\ (List.length (filter isCeremony new) <= 1)%nat
             /\ filter isKeyDerivation new = [])
    as (new1 & Hh1 & Hlen1 & Hcer1 & Hkey1).
  { destruct (mode params) as [[|]|];
      [apply BoundFacts.registerFlow_bound | apply BoundFacts.loginFlow_bound
       | apply BoundFacts.registerFlow_bound]. }
  destruct (run w h _) as [h1 [flow|e]]; cbn [fst] in Hh1; subst h1.
  - destruct (BoundFacts.deriveKey_bound w (h ++ new1)%list (fst flow)
                (snd flow)) as (new2 & Hh2 & Hlen2 & Hcer2).
    exists (new1 ++ new2)%list. rewrite Hh2, <- app_assoc.
    split; [reflexivity|].
    rewrite !filter_app, !length_app, Hcer2, Hkey1. simpl.
    pose proof (filter_length_le isKeyDerivation new2). lia.
  - exists new1. cbn [fst]. split; [reflexivity|].
    rewrite Hkey1. simpl. lia.
Qed.
